(** * FindMyDevice: the device command-and-control core

    A shallow embedding of the request handlers of
    [src/mozilla.org/wmf/handlers.go] and of the storage layer of
    [wmf/storage/storage.go], with the properties of the command queue,
    the report handler, the Hawk gate and the live-connection registry.

    Conventions.
    - A Go [string] is a sequence of bytes: [String.string], one [ascii]
      per byte.
    - A Go [interface{}] is a [Value]; a [map[string]interface{}] is an
      association list with pairwise distinct keys whose order is the
      order in which [range] visits the map (Go leaves it unspecified, so
      every statement is proved for every order).
    - A handler is a function on a [World] (database tables, registry,
      clock, fault switches, trace) that returns [Ok] or [Panic]: a Go
      run-time panic (failed type assertion, index out of range, nil
      dereference) is a result of its own.
    - Logging and metrics have no effect on the modelled state and are
      left out. *)

From stdpp Require Import gmap strings list.
From Stdlib Require Import ZArith Ascii String DecimalString.

Local Open Scope string_scope.
Local Open Scope Z_scope.

#[local] Set Warnings "-register-all".

(** ** Go strings *)

Module GoString.

(** [len(s)] as an integer. *)
Definition len (s : string) : Z := Z.of_nat (String.length s).

(** [s[:n]] for [0 <= n <= len(s)]. *)
Definition take (n : Z) (s : string) : string :=
  String.substring 0 (Z.to_nat n) s.

(** [strings.HasPrefix(s, p)]. *)
Fixpoint HasPrefix (s p : string) : bool :=
  match p, s with
  | EmptyString, _ => true
  | String _ _, EmptyString => false
  | String a p', String b s' => if Ascii.eqb a b then HasPrefix s' p' else false
  end.

(** [strings.Contains(s, substr)]: [substr] occurs in [s]. *)
Fixpoint Contains (s substr : string) : bool :=
  HasPrefix s substr
  || match s with
     | EmptyString => false
     | String _ s' => Contains s' substr
     end.

(** [string(b)] for a byte [b]: the UTF-8 encoding of the code point
    [b], one byte below 0x80 and two bytes from 0x80 on. *)
Definition of_byte (b : ascii) : string :=
  let n := Z.of_N (N_of_ascii b) in
  if n <? 128 then String b EmptyString
  else String (ascii_of_N (Z.to_N (Z.lor 192 (Z.shiftr n 6))))
         (String (ascii_of_N (Z.to_N (Z.lor 128 (Z.land n 63)))) EmptyString).

Definition is_digit (a : ascii) : bool :=
  let n := N_of_ascii a in (48 <=? n)%N && (n <=? 57)%N.

(** [strings.Map(f, s)] for a mapping [f] that keeps some ASCII
    characters and drops every other rune. *)
Fixpoint keep (f : ascii -> bool) (s : string) : string :=
  match s with
  | EmptyString => EmptyString
  | String a s' => if f a then String a (keep f s') else keep f s'
  end.

(** The value of a string of decimal digits; [None] on a character
    that is no digit. *)
Fixpoint digits_value (acc : Z) (s : string) : option Z :=
  match s with
  | EmptyString => Some acc
  | String a s' =>
      if is_digit a
      then digits_value (10 * acc + (Z.of_N (N_of_ascii a) - 48)) s'
      else None
  end.

Definition min_int64 : Z := - 2 ^ 63.
Definition max_int64 : Z := 2 ^ 63 - 1.

(** [strconv.ParseInt(s, 10, 64)]: an optional sign and at least one
    digit; [None] is a syntax or range error. *)
Definition ParseInt (s : string) : option Z :=
  let '(neg, body) :=
    match s with
    | String "-" r => (true, r)
    | String "+" r => (false, r)
    | _ => (false, s)
    end in
  match body with
  | EmptyString => None
  | _ =>
      match digits_value 0 body with
      | None => None
      | Some v =>
          let v' := if neg then - v else v in
          if (min_int64 <=? v') && (v' <=? max_int64) then Some v' else None
      end
  end.

(** The decimal digits of a natural number. *)
Definition decimal (n : Z) : string :=
  NilZero.string_of_uint (N.to_uint (Z.to_N n)).

Fixpoint zeros (n : nat) : string :=
  match n with
  | O => EmptyString
  | S n' => String "0" (zeros n')
  end.

(** [fmt.Sprintf("%04d", n)]: width 4, padded with zeros after the
    sign. *)
Definition Sprintf04d (n : Z) : string :=
  if n <? 0
  then String "-" (zeros (3 - String.length (decimal (- n))) +:+ decimal (- n))
  else zeros (4 - String.length (decimal n)) +:+ decimal n.

(** [s] between two double quote characters. *)
Definition quoted (s : string) : string :=
  String (ascii_of_nat 34) (s +:+ String (ascii_of_nat 34) EmptyString).

(** [strconv.ParseBool]. *)
Definition ParseBool (s : string) : option bool :=
  if existsb (String.eqb s) ["1"; "t"; "T"; "TRUE"; "true"; "True"] then Some true
  else if existsb (String.eqb s) ["0"; "f"; "F"; "FALSE"; "false"; "False"] then Some false
  else None.

End GoString.

(** ** The Go run time and the library functions that are not modelled

    What the handlers use from Go's standard library and cannot be written
    out here (floating point, Unicode tables) is a parameter: every
    theorem holds for every interpretation of it. *)

Class GoRuntime := {
  (** the type [float64] and its zero value *)
  float64 : Type;
  float64_zero : float64;
  (** the conversion [int64(f)] *)
  int64_of_float64 : float64 -> Z;
  (** the conversion [float32(f)], read back as a [float64] *)
  float32_of_float64 : float64 -> float64;
  (** [strconv.FormatFloat(f, 'f', 0, 64)] *)
  FormatFloat : float64 -> string;
  (** [strings.ToLower] *)
  ToLower : string -> string;
}.

(** The outcome of a Go call: a normal return or a run-time panic. *)
Inductive Result (A : Type) : Type :=
| Ok (a : A)
| Panic (why : string).

Arguments Ok {A} a.
Arguments Panic {A} why.

Section Values.
Context `{GoRuntime}.

(** A Go [interface{}]: what [json.Unmarshal] produces ([nil], [bool],
    [float64], [string], [[]interface{}], [map[string]interface{}]) and
    the two integer types the handlers put into reply maps themselves. *)
Inductive Value : Type :=
| VNil
| VBool (b : bool)
| VFloat64 (f : float64)
| VString (s : string)
| VInt (n : Z)
| VInt64 (n : Z)
| VArr (l : list Value)
| VMap (m : list (string * Value)).

(** [replyType], [map[string]interface{}], [storage.Unstructured]. *)
Definition replyType : Type := list (string * Value).

(** [m[k]] with the comma-ok flag. *)
Fixpoint mget (k : string) (m : replyType) : option Value :=
  match m with
  | [] => None
  | (k', v) :: m' => if String.eqb k k' then Some v else mget k m'
  end.

(** [m[k] = v]. *)
Fixpoint mset (k : string) (v : Value) (m : replyType) : replyType :=
  match m with
  | [] => [(k, v)]
  | (k', v') :: m' =>
      if String.eqb k k' then (k, v) :: m' else (k', v') :: mset k v m'
  end.

(** The dynamic types [json.Unmarshal] stores into an [interface{}]. *)
Fixpoint json_decoded (v : Value) : Prop :=
  match v with
  | VNil | VBool _ | VFloat64 _ | VString _ => True
  | VInt _ | VInt64 _ => False
  | VArr l => (fix all (l : list Value) : Prop :=
                 match l with
                 | [] => True
                 | x :: l' => json_decoded x /\ all l'
                 end) l
  | VMap m => (fix all (m : list (string * Value)) : Prop :=
                 match m with
                 | [] => True
                 | (_, x) :: m' => json_decoded x /\ all m'
                 end) m
  end.

(** [storage.Position]. *)
Record Position := {
  Latitude : float64;
  Longitude : float64;
  Altitude : float64;
  Time : Z;
  PosCmd : replyType;
}.

(** [storage.Device], without [PreviousPositions], which no handler
    modelled here reads. *)
Record Device := {
  ID : string;
  User : string;
  Name : string;
  HasPasscode : bool;
  LoggedIn : bool;
  Secret : string;
  PushUrl : string;
  Pending : string;
  LastExchange : Z;
  Accepts : string;
  AccessToken : string;
}.

(** *** The tables of [Storage.Init] *)

Record userToDeviceRow := {
  ud_userId : string;
  ud_deviceId : string;
  ud_name : string;
  ud_date : Z;
}.

Record deviceInfoRow := {
  di_deviceId : string;
  di_lockable : bool;
  di_loggedin : bool;
  di_lastExchange : Z;
  di_hawkSecret : string;
  di_pushUrl : string;
  di_accepts : string;
  di_accesstoken : string;
}.

Record pendingCommandsRow := {
  pc_id : Z;
  pc_deviceId : string;
  pc_time : Z;
  pc_cmd : string;
  pc_type : string;
}.

Record positionRow := {
  po_id : Z;
  po_deviceId : string;
  po_time : Z;
  po_latitude : float64;
  po_longitude : float64;
  po_altitude : float64;
}.

Record DB := {
  userToDeviceMap : list userToDeviceRow;
  deviceInfo : list deviceInfoRow;
  pendingCommands : list pendingCommandsRow;
  position : list positionRow;
  (** the [bigserial] sequences of [pendingCommands] and [position] *)
  pendingSerial : Z;
  positionSerial : Z;
}.

(** [WWS], the live connection of one device; the socket itself is not
    modelled. *)
Record WWS := {
  wsDevice : option Device;   (* [*storage.Device] *)
  Born : Z;
  Quit : bool;
}.

(** What a handler does to the outside, in order. *)
Inductive Event : Type :=
| EvStorage (method : string)                       (* a call into the storage layer *)
| EvPush (deviceId : string)                        (* [SendPush] *)
| EvSocketWrite (sock : nat) (location : Position). (* [client.Write] *)

(** What the environment decides during one handler call. *)
Record Faults := {
  openFails : bool;   (* [storage.Open] returns an error *)
  execFails : bool;   (* statements sent to the database return an error *)
  pushFails : bool;   (* [SendPush] returns an error *)
}.

Record World := {
  db : DB;
  (** the package global [Clients]: device id to [*WWS] *)
  Clients : gmap string nat;
  (** the [WWS] objects the pointers refer to, by address *)
  socks : list WWS;
  (** the field [devId] of the shared [Handler] *)
  self_devId : string;
  (** [time.Now()], [now()] *)
  now : Z;
  (** the field [defExpry] that [storage.Open] computes *)
  defExpry : Z;
  (** what [util.GenUUID4] and [GenNonce] return next *)
  nextUUID : string;
  nextNonce : string;
  faults : Faults;
  trace : list Event;
}.

Definition with_db (d : DB) (w : World) : World :=
  {| db := d; Clients := Clients w; socks := socks w;
     self_devId := self_devId w; now := now w; defExpry := defExpry w;
     nextUUID := nextUUID w; nextNonce := nextNonce w;
     faults := faults w; trace := trace w |}.

Definition with_Clients (c : gmap string nat) (w : World) : World :=
  {| db := db w; Clients := c; socks := socks w;
     self_devId := self_devId w; now := now w; defExpry := defExpry w;
     nextUUID := nextUUID w; nextNonce := nextNonce w;
     faults := faults w; trace := trace w |}.

Definition with_socks (s : list WWS) (w : World) : World :=
  {| db := db w; Clients := Clients w; socks := s;
     self_devId := self_devId w; now := now w; defExpry := defExpry w;
     nextUUID := nextUUID w; nextNonce := nextNonce w;
     faults := faults w; trace := trace w |}.

Definition with_devId (i : string) (w : World) : World :=
  {| db := db w; Clients := Clients w; socks := socks w;
     self_devId := i; now := now w; defExpry := defExpry w;
     nextUUID := nextUUID w; nextNonce := nextNonce w;
     faults := faults w; trace := trace w |}.

Definition with_trace (t : list Event) (w : World) : World :=
  {| db := db w; Clients := Clients w; socks := socks w;
     self_devId := self_devId w; now := now w; defExpry := defExpry w;
     nextUUID := nextUUID w; nextNonce := nextNonce w;
     faults := faults w; trace := t |}.

(** *** Results and the handler monad *)

Definition M (A : Type) : Type := World -> Result (A * World).

Definition ret {A} (a : A) : M A := fun w => Ok (a, w).

Definition bind {A B} (m : M A) (k : A -> M B) : M B :=
  fun w =>
    match m w with
    | Ok (a, w') => k a w'
    | Panic why => Panic why
    end.

Definition panic {A} (why : string) : M A := fun _ => Panic why.

Definition get : M World := fun w => Ok (w, w).

Definition emit (e : Event) : M unit :=
  fun w => Ok (tt, with_trace (trace w ++ [e]) w).

Definition set_db (d : DB) : M unit := fun w => Ok (tt, with_db d w).

Definition lift {A} (r : Result A) : M A :=
  fun w =>
    match r with
    | Ok a => Ok (a, w)
    | Panic why => Panic why
    end.

(** Reading a field through a pointer that may be nil. *)
Definition deref {A} (p : option A) : M A :=
  match p with
  | Some a => ret a
  | None => panic "invalid memory address or nil pointer dereference"
  end.

Definition set_Quit (q : bool) (s : WWS) : WWS :=
  {| wsDevice := wsDevice s; Born := Born s; Quit := q |}.

End Values.

Notation "'do' x <- m ; k" := (bind m (fun x => k))
  (at level 10, x pattern, m at level 100, k at level 200,
   format "'[v' 'do'  x  <-  m ; '/' k ']'").
Notation "'run' m ; k" := (bind m (fun _ => k))
  (at level 10, m at level 100, k at level 200,
   format "'[v' 'run'  m ; '/' k ']'").

(** Go's [error]: [None] is [nil]. *)
Abbreviation error := (option string).

(** ** The storage layer ([wmf/storage/storage.go])

    A table is the list of its rows.  A statement either executes with
    its SQL meaning or, when [execFails] is set, returns an error and
    changes nothing. *)

Module storage.
Section Storage.
Context `{GoRuntime}.

Definition ErrDatabase : string := "Database Error".
Definition ErrUnknownDevice : string := "Unknown device".
(** the error of a statement the database did not execute *)
Definition ErrExec : string := "pq: statement failed".
(** the panic of a method call through a nil [*sql.Rows] or [*sql.Stmt] *)
Definition nil_deref : string := "invalid memory address or nil pointer dereference".

Definition set_pendingCommands (l : list pendingCommandsRow) (n : Z) (d : DB) : DB :=
  {| userToDeviceMap := userToDeviceMap d; deviceInfo := deviceInfo d;
     pendingCommands := l; position := position d;
     pendingSerial := n; positionSerial := positionSerial d |}.

Definition set_deviceInfo (l : list deviceInfoRow) (d : DB) : DB :=
  {| userToDeviceMap := userToDeviceMap d; deviceInfo := l;
     pendingCommands := pendingCommands d; position := position d;
     pendingSerial := pendingSerial d; positionSerial := positionSerial d |}.

Definition set_userToDeviceMap (l : list userToDeviceRow) (d : DB) : DB :=
  {| userToDeviceMap := l; deviceInfo := deviceInfo d;
     pendingCommands := pendingCommands d; position := position d;
     pendingSerial := pendingSerial d; positionSerial := positionSerial d |}.

Definition set_position (l : list positionRow) (n : Z) (d : DB) : DB :=
  {| userToDeviceMap := userToDeviceMap d; deviceInfo := deviceInfo d;
     pendingCommands := pendingCommands d; position := l;
     pendingSerial := pendingSerial d; positionSerial := n |}.

(** [storage.Open]: the handle is the database of the world; [Some] is
    the error of the first [Ping]. *)
Definition Open : M error :=
  run emit (EvStorage "Open");
  do w <- get;
  ret (if openFails (faults w) then Some "Storage is unavailable" else None).

(** [update deviceInfo set lastexchange = now() where deviceid = $1] *)
Definition touch_row (devId : string) (t : Z) (r : deviceInfoRow) : deviceInfoRow :=
  if String.eqb (di_deviceId r) devId
  then {| di_deviceId := di_deviceId r; di_lockable := di_lockable r;
          di_loggedin := di_loggedin r; di_lastExchange := t;
          di_hawkSecret := di_hawkSecret r; di_pushUrl := di_pushUrl r;
          di_accepts := di_accepts r; di_accesstoken := di_accesstoken r |}
  else r.

Definition Touch (devId : string) : M error :=
  run emit (EvStorage "Touch");
  do w <- get;
  if execFails (faults w) then ret (Some ErrExec)
  else
    run set_db (set_deviceInfo (map (touch_row devId (now w)) (deviceInfo (db w))) (db w));
    ret None.

(** [update pendingCommands set time=$1, cmd=$2 where deviceid=$3 and type=$4] *)
Definition pending_hit (devId cType : string) (r : pendingCommandsRow) : bool :=
  String.eqb (pc_deviceId r) devId && String.eqb (pc_type r) cType.

Definition pending_update (devId command cType : string) (t : Z)
    (r : pendingCommandsRow) : pendingCommandsRow :=
  if pending_hit devId cType r
  then {| pc_id := pc_id r; pc_deviceId := pc_deviceId r; pc_time := t;
          pc_cmd := command; pc_type := pc_type r |}
  else r.

(** [Storage.StoreCommand]: update the rows of the device and type; when
    no row was affected, insert one. *)
Definition StoreCommand (devId command cType : string) : M error :=
  run emit (EvStorage "StoreCommand");
  do w <- get;
  if execFails (faults w) then ret (Some ErrExec)
  else
    let d := db w in
    let cnt := Z.of_nat (List.length (List.filter (pending_hit devId cType) (pendingCommands d))) in
    let updated := map (pending_update devId command cType (now w)) (pendingCommands d) in
    if cnt =? 0 then
      let id := pendingSerial d + 1 in
      let row := {| pc_id := id; pc_deviceId := devId; pc_time := now w;
                    pc_cmd := command; pc_type := cType |} in
      run set_db (set_pendingCommands (updated ++ [row]) id d);
      ret None
    else
      run set_db (set_pendingCommands updated (pendingSerial d) d);
      ret None.

(** [order by time limit 1]: the first row of the least time. *)
Fixpoint oldest (l : list pendingCommandsRow) : option pendingCommandsRow :=
  match l with
  | [] => None
  | r :: l' =>
      match oldest l' with
      | Some r' => if pc_time r' <? pc_time r then Some r' else Some r
      | None => Some r
      end
  end.

(** [Storage.GetPending]: read the oldest pending command of the device,
    delete it by id, touch the device. *)
Definition GetPending (devId : string) : M (string * error) :=
  run emit (EvStorage "GetPending");
  do w <- get;
  if execFails (faults w) then panic nil_deref
  else
    let d := db w in
    match oldest (List.filter (fun r => String.eqb (pc_deviceId r) devId) (pendingCommands d)) with
    | Some r =>
        run set_db (set_pendingCommands
                      (List.filter (fun x => negb (pc_id x =? pc_id r)) (pendingCommands d))
                      (pendingSerial d) d);
        do _ <- Touch devId;
        ret (pc_cmd r, None)
    | None =>
        do _ <- Touch devId;
        ret ("", None)
    end.

(** [update deviceInfo set lockable = $1, lastexchange = now() where deviceId = $2] *)
Definition lock_row (devId : string) (state : bool) (t : Z) (r : deviceInfoRow) : deviceInfoRow :=
  if String.eqb (di_deviceId r) devId
  then {| di_deviceId := di_deviceId r; di_lockable := state;
          di_loggedin := di_loggedin r; di_lastExchange := t;
          di_hawkSecret := di_hawkSecret r; di_pushUrl := di_pushUrl r;
          di_accepts := di_accepts r; di_accesstoken := di_accesstoken r |}
  else r.

Definition SetDeviceLock (devId : string) (state : bool) : M error :=
  run emit (EvStorage "SetDeviceLock");
  do w <- get;
  if execFails (faults w) then ret (Some ErrExec)
  else
    run set_db (set_deviceInfo (map (lock_row devId state (now w)) (deviceInfo (db w))) (db w));
    ret None.

(** [delete from position where deviceid = $1] *)
Definition PurgePosition (devId : string) : M error :=
  run emit (EvStorage "PurgePosition");
  do w <- get;
  if execFails (faults w) then ret (Some ErrExec)
  else
    let d := db w in
    run set_db (set_position
                  (List.filter (fun r => negb (String.eqb (po_deviceId r) devId)) (position d))
                  (positionSerial d) d);
    ret None.

(** [Storage.SetDeviceLocation]: purge, then insert the one position.
    The statement is prepared first; when that fails, [st] is nil and
    [st.Exec] panics. *)
Definition SetDeviceLocation (devId : string) (p : Position) : M error :=
  run emit (EvStorage "SetDeviceLocation");
  do _ <- PurgePosition devId;
  do w <- get;
  if execFails (faults w) then panic nil_deref
  else
    let d := db w in
    let id := positionSerial d + 1 in
    let row := {| po_id := id; po_deviceId := devId; po_time := now w;
                  po_latitude := float32_of_float64 (Latitude p);
                  po_longitude := float32_of_float64 (Longitude p);
                  po_altitude := float32_of_float64 (Altitude p) |} in
    run set_db (set_position (position d ++ [row]) id d);
    ret None.

(** [Storage.GcPosition]:
    [delete from position where time < (now() - interval 'defExpry seconds')],
    for every device. *)
Definition GcPosition (devId : string) : M error :=
  run emit (EvStorage "GcPosition");
  do w <- get;
  if execFails (faults w) then panic nil_deref
  else
    let d := db w in
    run set_db (set_position
                  (List.filter (fun r => negb (po_time r <? now w - defExpry w)) (position d))
                  (positionSerial d) d);
    ret None.

(** [Storage.DeleteDevice]: the statement [delete from $1 where deviceid=$2]
    passes the table name as a statement parameter, which PostgreSQL
    rejects; the loop returns that error at the first table and no row
    is deleted. *)
Definition DeleteDevice (devId : string) : M error :=
  run emit (EvStorage "DeleteDevice");
  ret (Some ErrExec).

Definition find_user (devId : string) (l : list userToDeviceRow) : option userToDeviceRow :=
  List.find (fun u => String.eqb (ud_deviceId u) devId) l.

Definition find_info (devId : string) (l : list deviceInfoRow) : option deviceInfoRow :=
  List.find (fun r => String.eqb (di_deviceId r) devId) l.

(** [Storage.GetDeviceInfo]: the first row of the join of
    [userToDeviceMap] and [deviceInfo] on the device id. *)
Definition GetDeviceInfo (devId : string) : M (option Device * error) :=
  run emit (EvStorage "GetDeviceInfo");
  do w <- get;
  if execFails (faults w) then ret (None, Some ErrExec)
  else
    match find_user devId (userToDeviceMap (db w)), find_info devId (deviceInfo (db w)) with
    | Some u, Some r =>
        ret (Some {| ID := di_deviceId r; User := ud_userId u; Name := ud_name u;
                     HasPasscode := di_lockable r;
                     LoggedIn := negb (String.eqb (di_pushUrl r) "");
                     Secret := di_hawkSecret r; PushUrl := di_pushUrl r;
                     Pending := ""; LastExchange := di_lastExchange r;
                     Accepts := di_accepts r; AccessToken := di_accesstoken r |},
             None)
    | _, _ => ret (None, Some ErrUnknownDevice)
    end.

(** [Storage.GetUserFromDevice]; a failed query leaves [rows] nil and
    the deferred [rows.Close()] panics. *)
Definition GetUserFromDevice (deviceId : string) : M (string * string * error) :=
  run emit (EvStorage "GetUserFromDevice");
  do w <- get;
  if execFails (faults w) then panic nil_deref
  else
    match find_user deviceId (userToDeviceMap (db w)) with
    | Some u => ret (ud_userId u, ud_name u, None)
    | None => ret ("", "", Some ErrUnknownDevice)
    end.

(** [update deviceinfo set lockable=$1, loggedin=$2, lastExchange=$3,
    hawkSecret=$4, accepts=$5, pushUrl=$6 where deviceid=$7] *)
Definition register_row (dev : Device) (t : Z) (r : deviceInfoRow) : deviceInfoRow :=
  if String.eqb (di_deviceId r) (ID dev)
  then {| di_deviceId := di_deviceId r; di_lockable := HasPasscode dev;
          di_loggedin := LoggedIn dev; di_lastExchange := t;
          di_hawkSecret := Secret dev; di_pushUrl := PushUrl dev;
          di_accepts := Accepts dev; di_accesstoken := di_accesstoken r |}
  else r.

Definition with_ID (i : string) (dev : Device) : Device :=
  {| ID := i; User := User dev; Name := Name dev; HasPasscode := HasPasscode dev;
     LoggedIn := LoggedIn dev; Secret := Secret dev; PushUrl := PushUrl dev;
     Pending := Pending dev; LastExchange := LastExchange dev;
     Accepts := Accepts dev; AccessToken := AccessToken dev |}.

(** [Storage.RegisterDevice]: update the device of a user who has it
    already, otherwise insert it and map it to the user.  [deviceInfo]
    has a unique device id; a failed [Query] leaves [rows] nil and the
    deferred [rows.Close()] panics on the way out. *)
Definition RegisterDevice (userid : string) (dev0 : Device) : M (string * error) :=
  run emit (EvStorage "RegisterDevice");
  do w <- get;
  let dev := if String.eqb (ID dev0) "" then with_ID (nextUUID w) dev0 else dev0 in
  if execFails (faults w) then panic nil_deref
  else
    let d := db w in
    if existsb (fun u => String.eqb (ud_userId u) userid && String.eqb (ud_deviceId u) (ID dev))
         (userToDeviceMap d)
    then
      run set_db (set_deviceInfo (map (register_row dev (now w)) (deviceInfo d)) d);
      ret (ID dev, None)
    else
      if existsb (fun r => String.eqb (di_deviceId r) (ID dev)) (deviceInfo d)
      then panic nil_deref
      else
        let row := {| di_deviceId := ID dev; di_lockable := HasPasscode dev;
                      di_loggedin := LoggedIn dev; di_lastExchange := now w;
                      di_hawkSecret := Secret dev; di_pushUrl := PushUrl dev;
                      di_accepts := Accepts dev; di_accesstoken := "" |} in
        let urow := {| ud_userId := userid; ud_deviceId := ID dev;
                       ud_name := Name dev; ud_date := now w |} in
        run set_db (set_userToDeviceMap (userToDeviceMap d ++ [urow])
                      (set_deviceInfo (deviceInfo d ++ [row]) d));
        ret (ID dev, None).

End Storage.
End storage.

(** ** Requests, responses, configuration *)

(** What [req.Body.Read] reports besides the bytes. *)
Inductive ReadResult : Type := ReadNil | ReadEOF | ReadFailed.

Section Http.
Context `{GoRuntime}.

(** [*http.Request], as far as the handlers look at it. *)
Record Request := {
  URLPath : string;                       (* [req.URL] *)
  Authorization : string;                 (* the Hawk header *)
  ContentLength : Z;
  Body : string;                          (* the buffer after [req.Body.Read] *)
  BodyRead : Z;                           (* the byte count [Read] returns *)
  BodyErr : ReadResult;                   (* the error [Read] returns *)
  Decoded : option replyType;             (* [json.Unmarshal] of the buffer; [None] is its error *)
  SessionValues : list (string * Value);  (* [session.Values] of the cookie session *)
}.

(** [*websocket.Conn]. *)
Record Conn := {
  wsRequest : Request;     (* [ws.Request()] *)
  LocalAddr : string;      (* [ws.LocalAddr().String()] *)
}.

(** [http.ResponseWriter]: the first status written stands. *)
Record Response := {
  code : option Z;
  header : list (string * string);
  written : string;
}.

Definition newResponse : Response := {| code := None; header := []; written := "" |}.

Definition Header_Add (k v : string) (r : Response) : Response :=
  {| code := code r; header := header r ++ [(k, v)]; written := written r |}.

Definition Header_Set (k v : string) (r : Response) : Response :=
  {| code := code r;
     header := List.filter (fun kv => negb (String.eqb (fst kv) k)) (header r) ++ [(k, v)];
     written := written r |}.

Definition WriteHeader (c : Z) (r : Response) : Response :=
  {| code := match code r with Some c' => Some c' | None => Some c end;
     header := header r; written := written r |}.

Definition Write (b : string) (r : Response) : Response :=
  {| code := match code r with Some c' => Some c' | None => Some 200 end;
     header := header r; written := written r +:+ b |}.

(** [http.Error(resp, msg, code)] *)
Definition http_Error (msg : string) (c : Z) (r : Response) : Response :=
  Write (msg +:+ String (ascii_of_nat 10) EmptyString)
    (WriteHeader c (Header_Set "Content-Type" "text/plain; charset=utf-8" r)).

(** The status the client sees. *)
Definition status_of (r : Response) : Z :=
  match code r with Some c => c | None => 200 end.

(** [*util.MzConfig]. *)
Record MzConfig := {
  Get : string -> string -> string;   (* [config.Get(key, default)] *)
  GetFlag : string -> bool;           (* [config.GetFlag(key)] *)
}.

(** The fields of [Hawk] the handlers read and write; the type is
    declared in [hawk.go]. *)
Record Hawk := {
  Nonce : string;
  HawkTime : string;
  Extra : string;
  Signature : string;
}.

Definition newHawk : Hawk :=
  {| Nonce := ""; HawkTime := ""; Extra := ""; Signature := "" |}.

End Http.

(** ** Code of the repository outside [handlers.go] and [storage.go]

    [hawk.go], [utils.go] and the identity checks that call out to the
    network are parameters, together with the encoders of the standard
    library. *)

Class Externals `{GoRuntime} := {
  (** [json.Marshal]; [None] is its error *)
  Marshal : Value -> option string;
  (** [fmt.Sprintf("%s", v)] *)
  Sprint_s : Value -> string;
  (** [url.Parse(s)], giving the path; [None] is its error *)
  url_Parse : string -> option string;
  (** [isTrue] of [utils.go] *)
  isTrue : Value -> bool;
  (** [strings.Map(asciiOnly, s)] *)
  asciiOnly : string -> string;
  (** [strings.Map(deviceIdFilter, s)] *)
  deviceIdFilter : string -> string;
  (** [getDevFromUrl(u)] on the path of [u] *)
  getDevFromUrl : string -> string;
  (** [genHash]: SHA-256 in hexadecimal *)
  genHash : string -> string;
  (** [rhawk.ParseAuthHeader(req, logger)]: the parsed header, [None]
      for its error *)
  ParseAuthHeader : Request -> option Hawk;
  (** [lhawk.GenerateSignature(req, extra, body, secret)]: [lhawk] with
      its signature, [None] for its error *)
  GenerateSignature : Hawk -> Request -> string -> string -> string -> option Hawk;
  (** [lhawk.Compare(sig)] *)
  Compare : Hawk -> string -> bool;
  (** [hawk.AsHeader(req, id, body, extra, secret)] *)
  AsHeader : Request -> string -> string -> string -> string -> string;
  (** [verifyPersonaAssertion] and [verifyFxAAssertion]: the answer of
      the identity provider *)
  verifyPersonaAssertion : string -> string * string * error;
  verifyFxAAssertion : string -> string * string * error;
}.

(** Modelled from the spec: [digitsOnly] of [utils.go], the mapping
    handed to [strings.Map] that keeps the decimal digits ("digits-only
    numeric args") and drops every other rune. *)
Definition digitsOnly (s : string) : string := GoString.keep GoString.is_digit s.

(** Modelled from the spec: [minInt] of [utils.go], the lesser of two
    integers. *)
Definition minInt (a b : Z) : Z := Z.min a b.

(** ** The handlers ([src/mozilla.org/wmf/handlers.go]) *)

Module wmf.
Section Handlers.
Context `{Externals}.
(** the field [config] of the [Handler] *)
Variable config : MzConfig.

Definition StatusOK : Z := 200.
Definition StatusBadRequest : Z := 400.
Definition StatusServiceUnavailable : Z := 503.

(** the message of a failed type assertion *)
Definition interface_conversion : string := "interface conversion".
(** the message of an index outside a string or slice *)
Definition index_out_of_range : string := "index out of range".

(** *** Client mapping functions *)

(** [addClient]: [Clients[id] = sock] under the mutex. *)
Definition addClient (id : string) (sock : nat) : M unit :=
  fun w => Ok (tt, with_Clients (<[id := sock]> (Clients w)) w).

(** [rmClient]: delete the entry of [id], whichever connection it
    names. *)
Definition rmClient (id : string) : M unit :=
  fun w =>
    match Clients w !! id with
    | Some _ => Ok (tt, with_Clients (delete id (Clients w)) w)
    | None => Ok (tt, w)
    end.

(** *** [updatePage] *)

Definition zeroPosition : Position :=
  {| Latitude := float64_zero; Longitude := float64_zero;
     Altitude := float64_zero; Time := 0; PosCmd := [] |}.

Definition set_Latitude (f : float64) (p : Position) : Position :=
  {| Latitude := f; Longitude := Longitude p; Altitude := Altitude p;
     Time := Time p; PosCmd := PosCmd p |}.
Definition set_Longitude (f : float64) (p : Position) : Position :=
  {| Latitude := Latitude p; Longitude := f; Altitude := Altitude p;
     Time := Time p; PosCmd := PosCmd p |}.
Definition set_Altitude (f : float64) (p : Position) : Position :=
  {| Latitude := Latitude p; Longitude := Longitude p; Altitude := f;
     Time := Time p; PosCmd := PosCmd p |}.
Definition set_Time (t : Z) (p : Position) : Position :=
  {| Latitude := Latitude p; Longitude := Longitude p; Altitude := Altitude p;
     Time := t; PosCmd := PosCmd p |}.
Definition set_Cmd (c : replyType) (p : Position) : Position :=
  {| Latitude := Latitude p; Longitude := Longitude p; Altitude := Altitude p;
     Time := Time p; PosCmd := c |}.

(** How the loop over the arguments ends: it runs to its end with a
    location, or the function returns from inside it. *)
Inductive LoopExit : Type :=
| Fallthrough (location : Position)
| Return (err : error).

(** [for key, arg := range args { ... }] of [updatePage]; the list is
    the order of the iteration. *)
Fixpoint updatePage_range (devId : string) (args : replyType) (location : Position)
    : M LoopExit :=
  match args with
  | [] => ret (Fallthrough location)
  | (key, arg) :: rest =>
      if GoString.len key <? 2 then updatePage_range devId rest location
      else
        let k := ToLower (GoString.take 2 key) in
        if String.eqb k "la" then
          match arg with
          | VFloat64 f => updatePage_range devId rest (set_Latitude f location)
          | _ => panic interface_conversion
          end
        else if String.eqb k "lo" then
          match arg with
          | VFloat64 f => updatePage_range devId rest (set_Longitude f location)
          | _ => panic interface_conversion
          end
        else if String.eqb k "al" then
          match arg with
          | VFloat64 f => updatePage_range devId rest (set_Altitude f location)
          | _ => panic interface_conversion
          end
        else if String.eqb k "ti" then
          match arg with
          | VFloat64 f =>
              let t := int64_of_float64 f in
              if t =? 0 then ret (Return None)
              else updatePage_range devId rest (set_Time t location)
          | _ => panic interface_conversion
          end
        else if String.eqb k "ha" then
          do err <- storage.SetDeviceLock devId (isTrue arg);
          match err with
          | Some e => ret (Return (Some e))
          | None => updatePage_range devId rest location
          end
        else updatePage_range devId rest location
  end.

(** The tail of [updatePage]: hand the location to the live client of
    the device, if there is one. *)
Definition updatePage_notify (devId cmd : string) (args : replyType)
    (location : Position) : M error :=
  do w <- get;
  match Clients w !! devId with
  | Some client =>
      run emit (EvSocketWrite client (set_Cmd [(cmd, VMap args)] location));
      ret None
  | None => ret None
  end.

(** [updatePage]: log the device's position reply. *)
Definition updatePage (devId cmd : string) (args : replyType) (logPosition : bool)
    : M error :=
  do err <- storage.Open;
  match err with
  | Some e => ret (Some e)
  | None =>
      match mget "ok" args with
      | Some (VBool false) => ret None
      | Some (VBool true) =>
          do exit <- updatePage_range devId args zeroPosition;
          match exit with
          | Return e => ret e
          | Fallthrough location =>
              if logPosition then
                do err <- storage.SetDeviceLocation devId location;
                match err with
                | Some e => ret (Some e)
                | None =>
                    do _ <- storage.GcPosition devId;
                    updatePage_notify devId cmd args location
                end
              else updatePage_notify devId cmd args location
          end
      | Some _ => panic interface_conversion
      | None => updatePage_notify devId cmd args zeroPosition
      end
  end.

(** *** [rangeCheck] *)

(** Check that a given string intval is within a range. *)
Definition rangeCheck (s : string) (min max : Z) : Z :=
  match GoString.ParseInt s with
  | None => 0
  | Some val =>
      if val <? min then min
      else if val >? max then max
      else val
  end.

(** *** [verifyHawkHeader] *)

Definition verifyHawkHeader (req : Request) (body : string) (devRec : option Device)
    : bool :=
  match devRec with
  | None => false
  | Some dev =>
      if GetFlag config "hawk.disabled" then true
      else
        match ParseAuthHeader req with
        | None => false
        | Some rhawk =>
            let lhawk := {| Nonce := Nonce rhawk; HawkTime := HawkTime rhawk;
                            Extra := Extra newHawk; Signature := Signature newHawk |} in
            match GenerateSignature lhawk req (Extra rhawk) body (Secret dev) with
            | None => false
            | Some lhawk' =>
                if negb (Compare lhawk' (Signature rhawk)) then false else true
            end
        end
  end.

(** *** [genSig], [checkSig] *)

(** A simple signature generator for WS connections. *)
Definition genSig (req : Request) (devId : string) : Result (string * error) :=
  match mget "deviceid" (SessionValues req) with
  | None => Ok ("", Some "Invalid")
  | Some sess =>
      match sess, mget "userid" (SessionValues req) with
      | VString d, Some (VString u) => Ok (genHash (d +:+ u), None)
      | _, _ => Panic interface_conversion
      end
  end.

(** [checkSig]: its first statement is [return true]. *)
Definition checkSig (req : Request) (devId : string) : bool := true.

(** [strings.Split(s, "/")] *)
Fixpoint Split_slash (s : string) : list string :=
  match s with
  | EmptyString => [EmptyString]
  | String a s' =>
      if Ascii.eqb a "/"
      then EmptyString :: Split_slash s'
      else match Split_slash s' with
           | first :: more => String a first :: more
           | [] => [String a EmptyString]
           end
  end.

(** The statements of [checkSig] below its [return true], which never
    run: compare the second to last item of the path with [genSig]. *)
Definition checkSig_below_return (req : Request) (devId : string) : Result bool :=
  let bits := Split_slash (URLPath req) in
  match nth_error bits (List.length bits - 2) with
  | None => Panic index_out_of_range
  | Some gotsig =>
      if (List.length bits <? 2)%nat then Panic index_out_of_range
      else
        match genSig req devId with
        | Panic why => Panic why
        | Ok (_, Some _) => Ok false
        | Ok (testsig, None) => Ok (String.eqb testsig gotsig)
        end
  end.

(** *** [Queue] *)

(** Modelled from the spec: [SendPush] of [push.go], the best-effort
    wake signal to the device ("PushNotifier"); its failure is the
    switch [pushFails]. *)
Definition SendPush (devRec : Device) : M error :=
  run emit (EvPush (ID devRec));
  do w <- get;
  ret (if pushFails (faults w) then Some "push failed" else None).

(** [strconv.ParseInt(self.config.Get(key, def), 10, 64)] with the
    fallback of the error branch. *)
Definition config_max (key def : string) (fallback : Z) : Z :=
  match GoString.ParseInt (Get config key def) with
  | Some max => max
  | None => fallback
  end.

(** The case ["l"] of [Queue], on the key ["c"]. *)
Definition Queue_lock_code (rargs : replyType) : Result replyType :=
  match mget "c" rargs with
  | Some v =>
      let max := config_max "cmd.c.max" "9999" 9999 in
      match (match v with
             | VString s => Ok s
             | VInt64 _ => Ok ""
             | VFloat64 _ => Panic interface_conversion   (* [v.(int64)] on a [float64] *)
             | _ => Ok ""
             end) with
      | Panic why => Panic why
      | Ok vs =>
          Ok (mset "c"
                (VString (GoString.Sprintf04d
                   (rangeCheck
                      (digitsOnly (GoString.take (minInt 4 (GoString.len vs)) vs))
                      0 max)))
                rargs)
      end
  | None => Ok rargs
  end.

(** The case ["l"] of [Queue], on the key ["m"]. *)
Definition Queue_lock_message (rargs : replyType) : Result replyType :=
  match mget "m" rargs with
  | Some (VString vs) =>
      Ok (mset "m" (VString (asciiOnly (GoString.take (minInt 100 (GoString.len vs)) vs)))
            rargs)
  | Some _ => Panic interface_conversion
  | None => Ok rargs
  end.

(** The case ["r", "t"] of [Queue], on the key ["d"]. *)
Definition Queue_distance (c : string) (rargs : replyType) : replyType :=
  match mget "d" rargs with
  | Some v =>
      let max := config_max ("cmd." +:+ c +:+ ".max") "10500" 10500 in
      let vs := match v with
                | VString s => s
                | VFloat64 f => FormatFloat f
                | _ => Sprint_s v
                end in
      mset "d" (VInt64 (rangeCheck (digitsOnly vs) 0 max)) rargs
  | None => rargs
  end.

(** The statements of [Queue] from [json.Marshal] on.  The call
    [store.StoreCommand(deviceId, string(fixed))] of the handler has
    two arguments and the method of [storage.go] three; the type
    handed over here is the command code [c]. *)
Definition Queue_store (devRec : Device) (c : string) (args rargs rep : replyType)
    : M (Z * error * replyType * replyType) :=
  match Marshal (VMap [(c, VMap rargs)]) with
  | None => ret (StatusServiceUnavailable, Some (GoString.quoted "Server Error"), args, rep)
  | Some fixed =>
      do err <- storage.Open;
      match err with
      | Some _ => ret (StatusServiceUnavailable, Some (GoString.quoted "Server Error"), args, rep)
      | None =>
          do err <- storage.StoreCommand (ID devRec) fixed c;
          match err with
          | Some _ => ret (StatusServiceUnavailable, Some (GoString.quoted "Server Error"), args, rep)
          | None =>
              do err <- SendPush devRec;
              match err with
              | Some _ => ret (StatusServiceUnavailable, Some (GoString.quoted "Server Error"), args, rep)
              | None => ret (StatusOK, None, args, rep)
              end
          end
      end
  end.

(** [Queue]: queue the command from the web front end for the device.
    The result is the status, the error, and the maps behind the
    pointers [args] and [rep] as the call leaves them ([rargs := *args]
    shares the map of the caller). *)
Definition Queue (devRec : Device) (cmd : string) (args rep : replyType)
    : M (Z * error * replyType * replyType) :=
  match cmd with
  | EmptyString => panic index_out_of_range
  | String cmd0 _ =>
      let c := ToLower (GoString.of_byte cmd0) in
      if negb (GoString.Contains (Accepts devRec) c) then
        ret (StatusOK, None, args,
             mset "cmd" (VString cmd) (mset "error" (VInt 422) rep))
      else if String.eqb c "l" then
        do rargs <- lift (Queue_lock_code args);
        do rargs <- lift (Queue_lock_message rargs);
        Queue_store devRec c rargs rargs rep
      else if String.eqb c "r" || String.eqb c "t" then
        let rargs := Queue_distance c args in
        Queue_store devRec c rargs rargs rep
      else if String.eqb c "e" then
        Queue_store devRec c args [] rep
      else
        ret (StatusBadRequest, Some (GoString.quoted "Invalid Command"), args, rep)
  end.

(** *** [Cmd] *)

(** How one round of the loop over the reported commands ends. *)
Inductive CmdExit : Type :=
| CmdNext (err : error)
| CmdReturn (resp : Response).

(** The body of [for cmd, args := range reply] in [Cmd]; [err] is the
    variable of the enclosing function, which a round may leave as it
    found it. *)
Definition Cmd_round (deviceId : string) (devRec : option Device) (resp : Response)
    (cmd : string) (args : Value) (err : error) : M CmdExit :=
  let c := ToLower cmd in
  match c with
  | EmptyString => panic index_out_of_range
  | String c0 _ =>
      let cs := GoString.of_byte c0 in
      do dev <- deref devRec;
      if negb (GoString.Contains (Accepts dev) cs) then ret (CmdNext err)
      else
        do margs <- lift (match args with
                          | VBool b => Ok [(cmd, VBool (isTrue (VBool b)))]
                          | VMap m => Ok m
                          | _ => Panic interface_conversion
                          end);
        do err <-
          (if existsb (String.eqb cs) ["l"; "r"; "m"; "e"; "h"] then
             do err <- storage.Touch deviceId;
             do _ <- updatePage deviceId c margs false;
             ret err
           else if String.eqb cs "t" then
             updatePage deviceId c margs true
           else if String.eqb cs "q" then
             if GetFlag config "cmd.q.allow" then storage.DeleteDevice deviceId
             else ret err
           else ret err);
        match err with
        | Some _ => ret (CmdReturn (http_Error (GoString.quoted "Server Error") StatusServiceUnavailable resp))
        | None => ret (CmdNext err)
        end
  end.

Fixpoint Cmd_range (deviceId : string) (devRec : option Device) (resp : Response)
    (reply : replyType) (err : error) : M CmdExit :=
  match reply with
  | [] => ret (CmdNext err)
  | (cmd, args) :: rest =>
      do exit <- Cmd_round deviceId devRec resp cmd args err;
      match exit with
      | CmdReturn r => ret (CmdReturn r)
      | CmdNext err' => Cmd_range deviceId devRec resp rest err'
      end
  end.

(** The end of [Cmd]: reply with the pending command. *)
Definition Cmd_pending (req : Request) (deviceId : string) (devRec : option Device)
    (resp : Response) : M Response :=
  do (cmd, err) <- storage.GetPending deviceId;
  let resp := match err with
              | Some _ => http_Error (GoString.quoted "Server Error") StatusServiceUnavailable resp
              | None => resp
              end in
  let output := if GoString.len cmd <? 2 then "{}" else cmd in
  do dev <- deref devRec;
  let authHeader := AsHeader req (ID dev) output "" (Secret dev) in
  ret (Write output (Header_Add "Authorization" authHeader resp)).

(** [Cmd] from "Do the command." on: handle the reports of a body of
    more than two bytes, then reply with the pending command. *)
Definition Cmd_reports (req : Request) (deviceId : string) (devRec : option Device)
    (resp : Response) (l : Z) (err : error) : M Response :=
  if l >? 2 then
    match Decoded req with
    | None => ret (http_Error "Server Error" 500 resp)
    | Some reply =>
        do exit <- Cmd_range deviceId devRec resp reply err;
        match exit with
        | CmdReturn r => ret r
        | CmdNext _ => Cmd_pending req deviceId devRec resp
        end
    end
  else Cmd_pending req deviceId devRec resp.

(** [Cmd]: handle the report of the device and pass the next command
    if there is one. *)
Definition Cmd (req : Request) : M Response :=
  let resp := Header_Set "Content-Type" "application/json" newResponse in
  do err <- storage.Open;
  match err with
  | Some _ => ret (http_Error "Server error" 500 resp)
  | None =>
      let deviceId := getDevFromUrl (URLPath req) in
      if String.eqb deviceId "" then ret (http_Error "Unauthorized" 401 resp)
      else
        do (devRec, err) <- storage.GetDeviceInfo deviceId;
        match err with
        | Some _ => ret (http_Error "Unauthorized" 401 resp)
        | None =>
            if ContentLength req <? 0 then panic "makeslice: len out of range"
            else
              let body := Body req in
              let l := BodyRead req in
              match BodyErr req with
              | ReadFailed => ret (http_Error "Invalid" 400 resp)
              | read =>
                  let err := match read with ReadEOF => Some "EOF" | _ => None end in
                  if negb (GetFlag config "hawk.disabled")
                     && negb (verifyHawkHeader req body devRec)
                  then ret (http_Error "Unauthorized" 401 resp)
                  else Cmd_reports req deviceId devRec resp l err
              end
        end
  end.

(** *** [WSSocketHandler] *)

(** [WSSocketHandler] up to the call of [sock.Run()]: the device id and
    the address of the registered [WWS], or [None] when the handler
    returns before it registers anything. *)
Definition WSSocketHandler_enter (ws : Conn) : M (option (string * nat)) :=
  do err <- storage.Open;
  match err with
  | Some _ => ret None
  | None =>
      let devId := getDevFromUrl (URLPath (wsRequest ws)) in
      do _ <- (fun w => Ok (tt, with_devId devId w));
      if negb (checkSig (wsRequest ws) devId) then ret None
      else
        do (devRec, err) <- storage.GetDeviceInfo devId;
        match err with
        | Some _ => ret None
        | None =>
            do w <- get;
            let sock := List.length (socks w) in
            do _ <- (fun w => Ok (tt, with_socks
                                   (socks w ++ [{| wsDevice := devRec; Born := now w; Quit := false |}])
                                   w));
            match url_Parse (LocalAddr ws) with
            | None => ret None
            | Some path =>
                let deviceId := getDevFromUrl path in
                (* [err.Error()] on a nil error panics; the deferred
                   function recovers and the handler returns *)
                if String.eqb deviceId "" then ret None
                else
                  (* Kill the old client. *)
                  do w <- get;
                  do _ <- match Clients w !! deviceId with
                          | Some client =>
                              (fun w => Ok (tt, with_socks (alter (set_Quit true) client (socks w)) w))
                          | None => ret tt
                          end;
                  do _ <- addClient deviceId sock;
                  ret (Some (deviceId, sock))
            end
        end
  end.

(** [WSSocketHandler] after [sock.Run()] has returned. *)
Definition WSSocketHandler_leave (deviceId : string) : M unit :=
  rmClient deviceId.

(** [WSSocketHandler] around a given run of the session. *)
Definition WSSocketHandler (Run : nat -> M unit) (ws : Conn) : M unit :=
  do entered <- WSSocketHandler_enter ws;
  match entered with
  | None => ret tt
  | Some (deviceId, sock) =>
      do _ <- Run sock;
      WSSocketHandler_leave deviceId
  end.

(** *** [Register] *)

(** [acc[n] = ke.(string)[0]] for every [ke] of the list. *)
Fixpoint first_bytes (l : list Value) : Result string :=
  match l with
  | [] => Ok EmptyString
  | VString (String b _) :: l' =>
      match first_bytes l' with
      | Ok acc => Ok (String b acc)
      | Panic why => Panic why
      end
  | VString EmptyString :: _ => Panic index_out_of_range
  | _ :: _ => Panic interface_conversion
  end.

(** The value of [accepts] that [Register] hands to the store. *)
Definition Register_accepts (buffer : replyType) : Result string :=
  match (match mget "accepts" buffer with
         | Some (VArr l) =>
             (* collapse the array to a string *)
             if (0 <? List.length l)%nat then
               match first_bytes l with
               | Ok acc => Ok (ToLower acc)
               | Panic why => Panic why
               end
             else Ok ""
         | Some _ => Panic interface_conversion
         | None => Ok ""
         end) with
  | Panic why => Panic why
  | Ok accepts =>
      let accepts := if GoString.len accepts =? 0 then "elrth" else accepts in
      let accepts := if negb (GoString.Contains "h" accepts) then accepts +:+ "h" else accepts in
      Ok accepts
  end.

(** [strings.SplitN(s, "@", 2)[0]] *)
Fixpoint before_at (s : string) : string :=
  match s with
  | EmptyString => EmptyString
  | String a s' => if Ascii.eqb a "@" then EmptyString else String a (before_at s')
  end.

(** The end of [Register], which every path that does not return
    reaches: report the registration to the page and write the reply. *)
Definition Register_reply (resp : Response) (buffer : replyType)
    (secret email userid : string) : M Response :=
  do w <- get;
  do _ <- updatePage (self_devId w) "register" buffer false;
  match Marshal (VMap [("deviceid", VString (self_devId w)); ("secret", VString secret);
                       ("email", VString email); ("clientid", VString userid)]) with
  | None => ret resp
  | Some reply => ret (Write reply resp)
  end.

(** The device id of the request and the record the store has for it. *)
Definition Register_deviceid (buffer : replyType) : M (string * option Device) :=
  match mget "deviceid" buffer with
  | None => do w <- get; ret (nextUUID w, None)
  | Some (VString EmptyString) => do w <- get; ret (nextUUID w, None)
  | Some (VString val) =>
      let deviceid := deviceIdFilter val in
      let deviceid := if GoString.len deviceid >? 32 then GoString.take 32 deviceid else deviceid in
      do (devRec, _) <- storage.GetDeviceInfo deviceid;
      ret (deviceid, devRec)
  | Some _ => panic interface_conversion
  end.

(** Who registers: [None] when the handler answers 401 at once,
    otherwise the flag [loggedIn] with [userid], [email] and [user]. *)
Definition Register_login (req : Request) (buffer : replyType) (raw deviceid : string)
    (devRec : option Device) : M (option (bool * string * string * string)) :=
  match mget "assert" buffer with
  | Some (VString assertion) =>
      let '(userid, email, err) :=
        if GetFlag config "auth.persona" then verifyPersonaAssertion assertion
        else verifyFxAAssertion assertion in
      match err with
      | Some _ => ret None
      | None =>
          if String.eqb userid "" then ret None
          else ret (Some (true, userid, email, ""))
      end
  | Some _ => panic interface_conversion
  | None =>
      (* Use HAWK + deviceid to determine if this is a re-registration. *)
      let hv := verifyHawkHeader req raw devRec in
      match devRec with
      | Some _ =>
          if hv then
            do (userid, user, err) <- storage.GetUserFromDevice deviceid;
            match err with
            | None => ret (Some (true, userid, "", user))
            | Some _ => ret (Some (false, userid, "", user))
            end
          else ret (Some (false, "", "", ""))
      | None => ret (Some (false, "", "", ""))
      end
  end.

(** [Register]: register a device, or register it again.  [parseBody]
    of [utils.go] is taken to return the decoded body, the text read
    and the error of the decoder. *)
Definition Register (req : Request) : M Response :=
  let resp := Header_Set "Content-Type" "application/json" newResponse in
  do err <- storage.Open;
  match err with
  | Some _ => ret (http_Error "Server error" 500 resp)
  | None =>
      match Decoded req with
      | None => Register_reply (http_Error "No body" StatusBadRequest resp) [] "" "" ""
      | Some buffer =>
          let raw := Body req in
          do (deviceid, devRec) <- Register_deviceid buffer;
          do login <- Register_login req buffer raw deviceid devRec;
          match login with
          | None => ret (http_Error "Unauthorized" 401 resp)
          | Some (false, _, _, _) => ret (http_Error "Unauthorized" 401 resp)
          | Some (true, userid, email, user) =>
              match mget "pushurl" buffer with
              | None | Some VNil | Some (VString EmptyString) =>
                  ret (http_Error "Bad Data" 400 resp)
              | Some (VString pushUrl) =>
                  (* ALWAYS generate a new secret on registration! *)
                  do w <- get;
                  let secret := nextNonce w in
                  do hasPasscode <- lift (match mget "has_passcode" buffer with
                                          | None => Ok true
                                          | Some (VString val) =>
                                              match GoString.ParseBool val with
                                              | Some b => Ok b
                                              | None => Ok false
                                              end
                                          | Some _ => Panic interface_conversion
                                          end);
                  do accepts <- lift (Register_accepts buffer);
                  (* create the new device record *)
                  let user := if String.eqb user "" then before_at email else user in
                  do (devId, err) <- storage.RegisterDevice userid
                                       {| ID := deviceid; User := ""; Name := user;
                                          HasPasscode := hasPasscode; LoggedIn := false;
                                          Secret := secret; PushUrl := pushUrl;
                                          Pending := ""; LastExchange := 0;
                                          Accepts := accepts; AccessToken := "" |};
                  match err with
                  | Some _ => ret (http_Error "Bad Request" 400 resp)
                  | None =>
                      if negb (String.eqb devId deviceid)
                      then ret (http_Error "Server error" 500 resp)
                      else
                        do _ <- (fun w => Ok (tt, with_devId deviceid w));
                        Register_reply resp buffer secret email userid
                  end
              | Some _ => panic interface_conversion
              end
          end
      end
  end.

End Handlers.
End wmf.

(** ** The queries of the storage layer behind the web pages *)

Module lookups.
Section Lookups.
Context `{GoRuntime}.

(** [storage.DeviceList] *)
Record DeviceList := {
  dl_ID : string;
  dl_Name : string;
}.

(** [order by time limit 1] on [position]: the first row of the least
    time. *)
Fixpoint oldest_position (l : list positionRow) : option positionRow :=
  match l with
  | [] => None
  | r :: l' =>
      match oldest_position l' with
      | Some r' => if po_time r' <? po_time r then Some r' else Some r
      | None => Some r
      end
  end.

(** [Storage.GetPositions]: the one position the query returns; a failed
    query leaves [rows] nil and the deferred [rows.Close()] panics. *)
Definition GetPositions (devId : string) : M (list Position * error) :=
  run emit (EvStorage "GetPositions");
  do w <- get;
  if execFails (faults w) then panic storage.nil_deref
  else
    match oldest_position
            (List.filter (fun r => String.eqb (po_deviceId r) devId) (position (db w))) with
    | Some r =>
        ret ([{| Latitude := po_latitude r; Longitude := po_longitude r;
                 Altitude := po_altitude r; Time := po_time r; PosCmd := [] |}],
             None)
    | None => ret ([], None)
    end.

(** [order by date]: insertion into a list sorted by date, behind the
    rows of the same date. *)
Fixpoint insert_by_date (u : userToDeviceRow) (l : list userToDeviceRow)
    : list userToDeviceRow :=
  match l with
  | [] => [u]
  | v :: l' => if ud_date u <? ud_date v then u :: v :: l' else v :: insert_by_date u l'
  end.

Fixpoint order_by_date (l : list userToDeviceRow) : list userToDeviceRow :=
  match l with
  | [] => []
  | u :: l' => insert_by_date u (order_by_date l')
  end.

(** [Storage.GetDevicesForUser]: the devices mapped to the user, by
    date. *)
Definition GetDevicesForUser (userId : string) : M (list DeviceList * error) :=
  run emit (EvStorage "GetDevicesForUser");
  do w <- get;
  if execFails (faults w) then panic storage.nil_deref
  else
    ret (map (fun u => {| dl_ID := ud_deviceId u; dl_Name := ud_name u |})
           (order_by_date
              (List.filter (fun u => String.eqb (ud_userId u) userId)
                 (userToDeviceMap (db w)))),
         None).

(** [update deviceInfo set accesstoken = $1, lastexchange = now() where deviceId = $2] *)
Definition token_row (devId token : string) (t : Z) (r : deviceInfoRow) : deviceInfoRow :=
  if String.eqb (di_deviceId r) devId
  then {| di_deviceId := di_deviceId r; di_lockable := di_lockable r;
          di_loggedin := di_loggedin r; di_lastExchange := t;
          di_hawkSecret := di_hawkSecret r; di_pushUrl := di_pushUrl r;
          di_accepts := di_accepts r; di_accesstoken := token |}
  else r.

(** [Storage.SetAccessToken] *)
Definition SetAccessToken (devId token : string) : M error :=
  run emit (EvStorage "SetAccessToken");
  do w <- get;
  if execFails (faults w) then ret (Some storage.ErrExec)
  else
    run set_db (storage.set_deviceInfo
                  (map (token_row devId token (now w)) (deviceInfo (db w))) (db w));
    ret None.

End Lookups.
End lookups.

(** ** The nonces of the login flow ([GetNonce], [CheckNonce])

    The table [nonce] is passed in and out; [fails] says that the
    database does not execute the statements of the call, [t] is
    [current_timestamp] in seconds. *)

Module nonces.
Section Nonces.
(** MD5 in hexadecimal: [hex.EncodeToString(md5.Sum(...))] *)
Variable md5hex : string -> string.

(** a row of the table [nonce] *)
Record nonceRow := {
  no_key : string;
  no_val : string;
  no_time : Z;
}.

(** [Storage.genSig] *)
Definition genSig (key val : string) : string := md5hex (key +:+ "." +:+ val).

(** [Storage.GetNonce]; [key] and [val] are the two values of
    [util.GenUUID4]. *)
Definition GetNonce (fails : bool) (key val : string) (t : Z) (table : list nonceRow)
    : string * error * list nonceRow :=
  if fails then ("", Some storage.ErrExec, table)
  else (key +:+ "." +:+ genSig key val, None,
        (table ++ [{| no_key := key; no_val := val; no_time := t |}])%list).

(** [strings.SplitN(s, ".", 2)]: one item, or the text before the first
    dot and the text after it. *)
Fixpoint SplitN_dot (s : string) : string * option string :=
  match s with
  | EmptyString => (EmptyString, None)
  | String a s' =>
      if Ascii.eqb a "."
      then (EmptyString, Some s')
      else let '(first, more) := SplitN_dot s' in (String a first, more)
  end.

(** [delete from nonce where time < current_timestamp - interval '5 minutes'] *)
Definition gc (t : Z) (table : list nonceRow) : list nonceRow :=
  List.filter (fun r => negb (no_time r <? t - 300)) table.

(** [Storage.CheckNonce]: does the user's nonce match?  With a failing
    database the query leaves [rows] nil and the deferred [rows.Close()]
    panics. *)
Definition CheckNonce (fails : bool) (nonce : string) (t : Z) (table : list nonceRow)
    : Result (bool * error * list nonceRow) :=
  (* gc nonces before checking. *)
  let table := if fails then table else gc t table in
  match SplitN_dot nonce with
  | (_, None) => Ok (false, None, table)
  | (key, Some sig) =>
      if fails then Panic storage.nil_deref
      else
        match List.find (fun r => String.eqb (no_key r) key) table with
        | Some r =>
            Ok (String.eqb (genSig key (no_val r)) sig, None,
                List.filter (fun x => negb (String.eqb (no_key x) key)) table)
        | None => Ok (false, None, table)
        end
  end.

End Nonces.
End nonces.

(** ** The handlers of the web front end *)

Module web.
Section Web.
Context `{Externals}.
(** the field [config] of the [Handler] *)
Variable config : MzConfig.
(** [json.Marshal] of a [*storage.Device]; [None] is its error *)
Variable MarshalDevice : option Device -> option string.

Definition SESSION_USERID : string := "userid".
Definition SESSION_EMAIL : string := "email".
Definition SESSION_TOKEN : string := "token".
Definition SESSION_DEVICEID : string := "deviceid".

Definition ErrInvalidReply : string := "Invalid Command Response".
Definition ErrAuthorization : string := "Needs Authorization".
Definition ErrNoUser : string := "No User".
(** the error of [sessionStore.Get] *)
Definition ErrSession : string := "securecookie: the value is not valid".

(** A request of the browser: the request, whether [sessionStore.Get]
    fails on its cookie, and [req.FormValue("assertion")]. *)
Record WebRequest := {
  httpRequest : Request;
  SessionErr : bool;
  FormAssertion : string;
}.

(** What a handler does to the session cookie. *)
Inductive SessionOut : Type :=
| NotSaved
| Saved (values : list (string * Value))     (* [session.Save] *)
| Expired (values : list (string * Value)).  (* [session.Options.MaxAge = -1], [session.Save] *)

(** [sessionInfoStruct] *)
Record sessionInfoStruct := {
  UserId : string;
  DeviceId : string;
  Email : string;
  SessionAccessToken : string;
}.

(** [delete(m, k)] *)
Definition mdelete (k : string) (m : replyType) : replyType :=
  List.filter (fun kv => negb (String.eqb (fst kv) k)) m.

(** [clearSession] on the values of a session. *)
Definition clearSession (values : replyType) : replyType :=
  mdelete SESSION_TOKEN
    (mdelete SESSION_EMAIL
       (mdelete SESSION_DEVICEID
          (mdelete SESSION_USERID values))).

(** [getUser]: get the user id from the session, or the assertion. *)
Definition getUser (req : WebRequest) : string * string * error :=
  if SessionErr req then ("", "", Some ErrSession)
  else
    let values := SessionValues (httpRequest req) in
    let '(userid, email, ret) :=
      match mget SESSION_EMAIL values with
      | Some (VString ru) => (genHash ru, ru, true)
      | Some _ => ("", "", false)
      | None => ("", "", false)
      end in
    let '(userid, ret) :=
      match mget SESSION_USERID values with
      | Some (VString ruid) => (ruid, true)
      | Some _ => ("", ret)
      | None => (userid, ret)
      end in
    (* return the contents of the session. *)
    if ret then (userid, email, None)
    else
      (* Nothing in the session, *)
      let auth := FormAssertion req in
      let '(userid, email, err) :=
        if negb (String.eqb auth "") then
          if GetFlag config "auth.persona" then verifyPersonaAssertion auth
          else verifyFxAAssertion auth
        else (userid, email, None) in
      match err with
      | Some _ => ("", "", Some ErrAuthorization)
      | None =>
          let userid :=
            if String.eqb userid "" && negb (String.eqb email "") then genHash email
            else userid in
          (userid, email, None)
      end.

(** [getSessionInfo]: set the user info into the session. *)
Definition getSessionInfo (req : WebRequest) : Result (option sessionInfoStruct * error) :=
  let dev := getDevFromUrl (URLPath (httpRequest req)) in
  let '(userid, email, err) := getUser req in
  match err with
  | Some e => Ok (None, Some e)
  | None =>
      if String.eqb userid "" && String.eqb email "" then
        (* No userid? No session. *)
        Ok (None, Some ErrNoUser)
      else
        let userid := if String.eqb userid "" then genHash email else userid in
        match (match mget SESSION_TOKEN (SessionValues (httpRequest req)) with
               | Some (VString token) => Ok token
               | Some _ => Panic wmf.interface_conversion
               | None => Ok ""
               end) with
        | Panic why => Panic why
        | Ok accessToken =>
            Ok (Some {| UserId := userid; DeviceId := dev; Email := email;
                        SessionAccessToken := accessToken |}, None)
        end
  end.

(** [logReply]: log the cmd reply from the device.  [store, err :=
    storage.Open(...)] declares a new [err] in the block of the [else],
    which [err = store.Touch(devId)] assigns; the [return err] behind
    the block returns the result variable of the function, still nil. *)
Definition logReply (devId cmd : string) (args : replyType) : M error :=
  match mget "ok" args with
  | None => ret (Some ErrInvalidReply)
  | Some v =>
      if negb (isTrue v) then
        match mget "error" args with
        | Some (VString e) => ret (Some e)
        | Some _ => panic wmf.interface_conversion
        | None => ret (Some "Unknown error")
        end
      else
        do err <- storage.Open;
        match err with
        | Some e => ret (Some e)
        | None =>
            do _ <- storage.Touch devId;
            ret None
        end
  end.

(** How the loop of [RestQueue] over the commands ends. *)
Inductive QueueExit : Type :=
| QueueDone (rep : replyType)
| QueueFailed (status : Z) (err : string).

(** [for cmd, args := range reply] of [RestQueue]; [rep] collects the
    answers of all rounds. *)
Fixpoint RestQueue_range (devRec : Device) (reply rep : replyType) : M QueueExit :=
  match reply with
  | [] => ret (QueueDone rep)
  | (cmd, args) :: rest =>
      match args with
      | VMap rargs =>
          do (status, err, _, rep') <- wmf.Queue config devRec cmd rargs rep;
          match err with
          | Some e => ret (QueueFailed status e)
          | None => RestQueue_range devRec rest rep'
          end
      | _ => panic wmf.interface_conversion
      end
  end.

(** The answer 401 of [RestQueue] with the session cleared and expired. *)
Definition RestQueue_unauthorized (req : WebRequest) (resp : Response)
    : Response * SessionOut :=
  (http_Error "Unauthorized" 401 resp,
   Expired (clearSession (SessionValues (httpRequest req)))).

(** [RestQueue]: accept a command to queue from the REST interface. *)
Definition RestQueue (req : WebRequest) : M (Response * SessionOut) :=
  let resp := Header_Set "Content-Type" "application/json" newResponse in
  if SessionErr req then ret (http_Error "Unauthorized" 401 resp, NotSaved)
  else
    do err <- storage.Open;
    match err with
    | Some _ => ret (http_Error "Server error" 500 resp, NotSaved)
    | None =>
        let deviceId := getDevFromUrl (URLPath (httpRequest req)) in
        if String.eqb deviceId "" then ret (http_Error "Unauthorized" 401 resp, NotSaved)
        else
          let '(userId, _, err) := getUser req in
          if String.eqb userId "" || match err with Some _ => true | None => false end
          then ret (RestQueue_unauthorized req resp)
          else
            do (devRec, err) <- storage.GetDeviceInfo deviceId;
            match err, devRec with
            | Some _, _ | None, None => ret (RestQueue_unauthorized req resp)
            | None, Some dev =>
                if negb (String.eqb (User dev) userId)
                then ret (RestQueue_unauthorized req resp)
                else
                  if ContentLength (httpRequest req) <? 0
                  then panic "makeslice: len out of range"
                  else
                    match BodyErr (httpRequest req) with
                    | ReadFailed => ret (http_Error "Invalid" 400 resp, NotSaved)
                    | _ =>
                        do exit <-
                          (if BodyRead (httpRequest req) >? 0 then
                             match Decoded (httpRequest req) with
                             | None => ret (QueueFailed 500 "Server Error")
                             | Some reply => RestQueue_range dev reply []
                             end
                           else ret (QueueDone []));
                        match exit with
                        | QueueFailed status e => ret (http_Error e status resp, NotSaved)
                        | QueueDone rep =>
                            match Marshal (VMap rep) with
                            | Some repl => ret (Write repl resp, NotSaved)
                            | None => ret (Write "" resp, NotSaved)
                            end
                        end
                    end
            end
    end.

(** [State]: show the state of the user's devices. *)
Definition State (req : WebRequest) : M (Response * SessionOut) :=
  let resp := Header_Set "Content-Type" "application/json" newResponse in
  do err <- storage.Open;
  match err with
  | Some _ => ret (http_Error "Server error" 500 resp, NotSaved)
  | None =>
      let values := SessionValues (httpRequest req) in
      let resp := if SessionErr req then http_Error ErrSession 500 resp else resp in
      do (sessionInfo, err) <- lift (getSessionInfo req);
      if match err with
         | Some e => negb (String.eqb e ErrNoUser)
         | None => false
         end
      then
        ret (http_Error (match err with Some e => e | None => "" end) 401 resp,
             Expired values)
      else
        do info <- deref sessionInfo;
        do (devInfo, err) <- storage.GetDeviceInfo (DeviceId info);
        match err with
        | Some e => ret (http_Error e 500 resp, NotSaved)
        | None =>
            (* add the user session cookie *)
            let values :=
              mset SESSION_TOKEN (VString (SessionAccessToken info))
                (mset SESSION_EMAIL (VString (Email info))
                   (mset SESSION_DEVICEID (VString (DeviceId info))
                      (mset SESSION_USERID (VString (UserId info)) values))) in
            (* display the device info... *)
            match MarshalDevice devInfo with
            | Some reply => ret (Write reply resp, Saved values)
            | None => ret (resp, Saved values)
            end
        end
  end.

End Web.
End web.

(** ** One interpretation of the parameters, for the examples

    Floating-point numbers are whole numbers, [strings.ToLower] is the
    lower-casing of ASCII letters, [json.Marshal] prints keys in list
    order without escapes, the device id is the last item of the path and
    the Hawk signature of a request is the secret followed by the body. *)

Module Sample.

Definition lower (a : ascii) : ascii :=
  let n := N_of_ascii a in
  if (65 <=? n)%N && (n <=? 90)%N then ascii_of_N (n + 32) else a.

Fixpoint asciiLower (s : string) : string :=
  match s with
  | EmptyString => EmptyString
  | String a s' => String (lower a) (asciiLower s')
  end.

Definition signed_decimal (n : Z) : string :=
  if n <? 0 then String "-" (GoString.decimal (- n)) else GoString.decimal n.

Definition runtime : GoRuntime :=
  {| float64 := Z;
     float64_zero := 0;
     int64_of_float64 := fun f => f;
     float32_of_float64 := fun f => f;
     FormatFloat := signed_decimal;
     ToLower := asciiLower |}.

#[local] Existing Instance runtime.

(** a whole number as a [float64] *)
Definition whole (n : Z) : @float64 runtime := n.

Definition sep (a b : string) : string :=
  if String.eqb b "" then a else a +:+ "," +:+ b.

Fixpoint print (v : Value) : string :=
  match v with
  | VNil => "null"
  | VBool true => "true"
  | VBool false => "false"
  | VFloat64 f => signed_decimal f
  | VString s => GoString.quoted s
  | VInt n => signed_decimal n
  | VInt64 n => signed_decimal n
  | VArr l =>
      "[" +:+ (fix items (l : list Value) : string :=
                 match l with
                 | [] => ""
                 | x :: l' => sep (print x) (items l')
                 end) l +:+ "]"
  | VMap m =>
      "{" +:+ (fix items (m : list (string * Value)) : string :=
                 match m with
                 | [] => ""
                 | (k, x) :: m' => sep (GoString.quoted k +:+ ":" +:+ print x) (items m')
                 end) m +:+ "}"
  end.

Definition truthy (v : Value) : bool :=
  match v with
  | VBool b => b
  | VString s => String.eqb (asciiLower s) "true" || String.eqb s "1"
  | VFloat64 f => negb (f =? 0)
  | _ => false
  end.

Definition last_item (path : string) : string :=
  List.last (wmf.Split_slash path) "".

Definition externals : Externals :=
  {| Marshal := fun v => Some (print v);
     Sprint_s := print;
     url_Parse := fun s => Some s;
     isTrue := truthy;
     asciiOnly := GoString.keep (fun a => (32 <=? N_of_ascii a)%N && (N_of_ascii a <=? 126)%N);
     deviceIdFilter := fun s => s;
     getDevFromUrl := last_item;
     genHash := fun s => s;
     ParseAuthHeader := fun req =>
       if String.eqb (Authorization req) "" then None
       else Some {| Nonce := "n"; HawkTime := "0"; Extra := "";
                    Signature := Authorization req |};
     GenerateSignature := fun lhawk req extra body secret =>
       Some {| Nonce := Nonce lhawk; HawkTime := HawkTime lhawk; Extra := extra;
               Signature := secret +:+ body |};
     Compare := fun lhawk sig => String.eqb (Signature lhawk) sig;
     AsHeader := fun req id body extra secret => secret +:+ body;
     verifyPersonaAssertion := fun a => ("", "", Some "no persona");
     verifyFxAAssertion := fun a =>
       if String.eqb a "" then ("", "", Some "bad assertion")
       else (a, a +:+ "@example.org", None) |}.

(** the defaults of the configuration *)
Definition config : MzConfig :=
  {| Get := fun _ def => def; GetFlag := fun _ => false |}.

Definition no_faults : Faults :=
  {| openFails := false; execFails := false; pushFails := false |}.

Definition phone_info : deviceInfoRow :=
  {| di_deviceId := "phone"; di_lockable := true; di_loggedin := true;
     di_lastExchange := 0; di_hawkSecret := "s3cret"; di_pushUrl := "http://push/1";
     di_accepts := "elrth"; di_accesstoken := "" |}.

Definition phone_user : userToDeviceRow :=
  {| ud_userId := "alice"; ud_deviceId := "phone"; ud_name := "Phone"; ud_date := 0 |}.

Definition phone : Device :=
  {| ID := "phone"; User := "alice"; Name := "Phone"; HasPasscode := true;
     LoggedIn := true; Secret := "s3cret"; PushUrl := "http://push/1";
     Pending := ""; LastExchange := 0; Accepts := "elrth"; AccessToken := "" |}.

Definition db0 : DB :=
  {| userToDeviceMap := [phone_user]; deviceInfo := [phone_info];
     pendingCommands := []; position := [];
     pendingSerial := 0; positionSerial := 0 |}.

(** one registered device, nothing pending, nobody connected *)
Definition world0 : World :=
  {| db := db0; Clients := ∅; socks := []; self_devId := ""; now := 100;
     defExpry := 432000; nextUUID := "uuid-1"; nextNonce := "nonce-1";
     faults := no_faults; trace := [] |}.

(** a poll of the device with an empty object as its body *)
Definition poll : Request :=
  {| URLPath := "/1/l/cmd/phone"; Authorization := "s3cret{}";
     ContentLength := 2; Body := "{}"; BodyRead := 2; BodyErr := ReadEOF;
     Decoded := Some []; SessionValues := [] |}.

(** a poll whose Hawk header was not made with the secret *)
Definition forged_poll : Request :=
  {| URLPath := "/1/l/cmd/phone"; Authorization := "forged";
     ContentLength := 2; Body := "{}"; BodyRead := 2; BodyErr := ReadEOF;
     Decoded := Some []; SessionValues := [] |}.

(** the report of a failed track command *)
Definition track_failed : replyType := [("t", VMap [("ok", VBool false)])].

Definition report_not_ok : Request :=
  {| URLPath := "/1/l/cmd/phone";
     Authorization := "s3cret" +:+ print (VMap track_failed);
     ContentLength := GoString.len (print (VMap track_failed));
     Body := print (VMap track_failed);
     BodyRead := GoString.len (print (VMap track_failed));
     BodyErr := ReadNil;
     Decoded := Some track_failed; SessionValues := [] |}.

(** a lock command is pending for the phone *)
Definition pending_lock : pendingCommandsRow :=
  {| pc_id := 1; pc_deviceId := "phone"; pc_time := 90;
     pc_cmd := print (VMap [("l", VMap [("c", VString "9999")])]); pc_type := "l" |}.

Definition world_pending : World :=
  {| db := {| userToDeviceMap := [phone_user]; deviceInfo := [phone_info];
              pendingCommands := [pending_lock]; position := [];
              pendingSerial := 1; positionSerial := 0 |};
     Clients := ∅; socks := []; self_devId := ""; now := 100;
     defExpry := 432000; nextUUID := "uuid-1"; nextNonce := "nonce-1";
     faults := no_faults; trace := [] |}.

(** a websocket handshake for the phone whose signature item is not the
    hash of the session *)
Definition forged_handshake : Conn :=
  {| wsRequest :=
       {| URLPath := "/ws/forged/phone"; Authorization := "";
          ContentLength := 0; Body := ""; BodyRead := 0; BodyErr := ReadEOF;
          Decoded := None;
          SessionValues := [("deviceid", VString "phone"); ("userid", VString "alice")] |};
     LocalAddr := "/ws/forged/phone" |}.

(** a registration that lists lock and ring only *)
Definition registration : Request :=
  {| URLPath := "/1/register"; Authorization := "";
     ContentLength := 64; Body := "registration"; BodyRead := 64; BodyErr := ReadEOF;
     Decoded := Some [("assert", VString "bob"); ("pushurl", VString "http://push/2");
                      ("deviceid", VString "tablet");
                      ("accepts", VArr [VString "lock"; VString "ring"])];
     SessionValues := [] |}.

#[local] Existing Instance externals.

(** The world a call leaves. *)
Definition world_of {A} (r : Result (A * World)) : World :=
  match r with
  | Ok (_, w) => w
  | Panic _ => world0
  end.

(** The value a call returns. *)
Definition answer_of {A} (default : A) (r : Result (A * World)) : A :=
  match r with
  | Ok (a, _) => a
  | Panic _ => default
  end.

(** [world0] after a lock command, and after a second one *)
Definition world_locked : World :=
  Eval vm_compute in
    world_of (wmf.Queue config phone "lock" [("c", VString "1234")] [] world0).

Definition world_relocked : World :=
  Eval vm_compute in
    world_of (wmf.Queue config phone "l" [("c", VString "42")] [] world_locked).

(** [world_pending] after a poll *)
Definition world_polled : World :=
  Eval vm_compute in world_of (wmf.Cmd config poll world_pending).

(** [world0] after the report of the failed track command *)
Definition world_reported : World :=
  Eval vm_compute in world_of (wmf.Cmd config report_not_ok world0).

Definition answer_reported : Response :=
  Eval vm_compute in answer_of newResponse (wmf.Cmd config report_not_ok world0).

Definition answer_registered : Response :=
  Eval vm_compute in answer_of newResponse (wmf.Register config registration world0).

(** [world0] after the registration *)
Definition world_registered : World :=
  Eval vm_compute in world_of (wmf.Register config registration world0).

(** [world0] after a first connection of the phone, after a second
    one, and after the handler of the first has returned *)
Definition world_connected : World :=
  Eval vm_compute in world_of (wmf.WSSocketHandler_enter forged_handshake world0).

Definition world_reconnected : World :=
  Eval vm_compute in world_of (wmf.WSSocketHandler_enter forged_handshake world_connected).

Definition world_first_left : World :=
  Eval vm_compute in world_of (wmf.WSSocketHandler_leave "phone" world_reconnected).

(** the tablet of bob *)
Definition tablet : Device :=
  {| ID := "tablet"; User := ""; Name := "Tablet"; HasPasscode := false;
     LoggedIn := false; Secret := "t0ken"; PushUrl := "http://push/2";
     Pending := ""; LastExchange := 0; Accepts := "elrth"; AccessToken := "" |}.

(** [world0] after the registration of the tablet by the store *)
Definition world_tablet : World :=
  Eval vm_compute in world_of (storage.RegisterDevice "bob" tablet world0).

(** [world_pending] after a ring command was stored for the tablet, and
    after the phone has then fetched its command *)
Definition world_stored : World :=
  Eval vm_compute in world_of (storage.StoreCommand "tablet" "ring" "r" world_pending).

Definition world_fetched : World :=
  Eval vm_compute in world_of (storage.GetPending "phone" world_stored).

(** [world_pending] after another lock command was stored for the phone *)
Definition world_restored : World :=
  Eval vm_compute in world_of (storage.StoreCommand "phone" "lock again" "l" world_pending).

(** [world_pending] after the store handed the command out *)
Definition world_handed : World :=
  Eval vm_compute in world_of (storage.GetPending "phone" world_pending).

(** a place *)
Definition somewhere : Position :=
  {| Latitude := whole 10; Longitude := whole 20; Altitude := whole 30;
     Time := 0; PosCmd := [] |}.

(** the push service is down; the database executes nothing *)
Definition world_push_down : World :=
  {| db := db0; Clients := ∅; socks := []; self_devId := ""; now := 100;
     defExpry := 432000; nextUUID := "uuid-1"; nextNonce := "nonce-1";
     faults := {| openFails := false; execFails := false; pushFails := true |};
     trace := [] |}.

Definition world_exec_down : World :=
  {| db := db0; Clients := ∅; socks := []; self_devId := ""; now := 100;
     defExpry := 432000; nextUUID := "uuid-1"; nextNonce := "nonce-1";
     faults := {| openFails := false; execFails := true; pushFails := false |};
     trace := [] |}.

(** [world_push_down] after a ring command for the phone, and [world0]
    after one *)
Definition world_unpushed : World :=
  Eval vm_compute in world_of (wmf.Queue config phone "ring" [] [] world_push_down).

Definition world_rung : World :=
  Eval vm_compute in world_of (wmf.Queue config phone "ring" [] [] world0).

(** a poll for a device nobody registered *)
Definition stranger_poll : Request :=
  {| URLPath := "/1/l/cmd/tablet"; Authorization := "t0ken{}";
     ContentLength := 2; Body := "{}"; BodyRead := 2; BodyErr := ReadEOF;
     Decoded := Some []; SessionValues := [] |}.

(** a websocket handshake for a device nobody registered *)
Definition stranger_handshake : Conn :=
  {| wsRequest :=
       {| URLPath := "/ws/sig/tablet"; Authorization := "";
          ContentLength := 0; Body := ""; BodyRead := 0; BodyErr := ReadEOF;
          Decoded := None; SessionValues := [] |};
     LocalAddr := "/ws/sig/tablet" |}.

(** a session that does nothing *)
Definition idle (sock : nat) : M unit := ret tt.

(** a registration of the phone without an assertion and without a
    Hawk header *)
Definition bare_registration : Request :=
  {| URLPath := "/1/register"; Authorization := "";
     ContentLength := 64; Body := "registration"; BodyRead := 64; BodyErr := ReadEOF;
     Decoded := Some [("pushurl", VString "http://push/3"); ("deviceid", VString "phone")];
     SessionValues := [] |}.

(** the session of alice, and requests of the browser *)
Definition session_alice : replyType :=
  [("userid", VString "alice"); ("email", VString "alice@example.org");
   ("deviceid", VString "phone"); ("token", VString "tok")].

Definition page (path : string) (values : replyType) : Request :=
  {| URLPath := path; Authorization := "";
     ContentLength := 0; Body := ""; BodyRead := 0; BodyErr := ReadEOF;
     Decoded := None; SessionValues := values |}.

Definition signed_out : web.WebRequest :=
  {| web.httpRequest := page "/1/state/phone" (web.clearSession session_alice);
     web.SessionErr := false; web.FormAssertion := "" |}.

Definition anonymous : web.WebRequest :=
  {| web.httpRequest := page "/1/state/phone" [];
     web.SessionErr := false; web.FormAssertion := "" |}.

(** mallory, signed in, asks for the phone of alice *)
Definition mallory_state : web.WebRequest :=
  {| web.httpRequest := page "/1/state/phone" [("userid", VString "mallory")];
     web.SessionErr := false; web.FormAssertion := "" |}.

Definition mallory_queue : web.WebRequest :=
  {| web.httpRequest :=
       {| URLPath := "/1/queue/phone"; Authorization := "";
          ContentLength := 24; Body := "erase"; BodyRead := 24; BodyErr := ReadEOF;
          Decoded := Some [("erase", VMap [])];
          SessionValues := [("userid", VString "mallory")] |};
     web.SessionErr := false; web.FormAssertion := "" |}.

(** alice asks to erase her phone *)
Definition alice_erase : web.WebRequest :=
  {| web.httpRequest :=
       {| URLPath := "/1/queue/phone"; Authorization := "";
          ContentLength := 24; Body := "erase"; BodyRead := 24; BodyErr := ReadEOF;
          Decoded := Some [("erase", VMap [("x", VString "y")])];
          SessionValues := [("userid", VString "alice")] |};
     web.SessionErr := false; web.FormAssertion := "" |}.

(** [json.Marshal] of a device record, in short *)
Definition marshal_device (d : option Device) : option string :=
  match d with
  | Some dev => Some (ID dev +:+ ":" +:+ User dev +:+ ":" +:+ Secret dev)
  | None => Some "null"
  end.

(** MD5, in short *)
Definition md5hex (s : string) : string := "md5(" +:+ s +:+ ")".

End Sample.

(** ** Notions the statements use *)

Section Notions.
Context `{GoRuntime}.

(** The command code [Queue] works with: the lower-cased first byte of
    the command. *)
Definition code_of (cmd0 : ascii) : string := ToLower (GoString.of_byte cmd0).

(** The pending envelopes of a device and a command type. *)
Definition pending_of (devId cType : string) (d : DB) : list pendingCommandsRow :=
  List.filter (storage.pending_hit devId cType) (pendingCommands d).

(** The pending envelopes of a device. *)
Definition pending_for (devId : string) (d : DB) : list pendingCommandsRow :=
  List.filter (fun r => String.eqb (pc_deviceId r) devId) (pendingCommands d).

(** The row [StoreCommand] inserts for a first command of its type. *)
Definition first_row (devId command cType : string) (w : World) : pendingCommandsRow :=
  {| pc_id := pendingSerial (db w) + 1; pc_deviceId := devId;
     pc_time := now w; pc_cmd := command; pc_type := cType |}.

(** The accepts string of a stored device record contains the
    heartbeat code. *)
Definition accepts_heartbeat (r : deviceInfoRow) : Prop :=
  GoString.Contains (di_accepts r) "h" = true.

(** The rows of [deviceInfo] are the old ones or accept the heartbeat,
    and those of the device accept it. *)
Definition rows_fine (old : list deviceInfoRow) (devId : string)
    (l : list deviceInfoRow) : Prop :=
  (forall r, In r l -> In r old \/ accepts_heartbeat r)
  /\ (forall r, In r l -> di_deviceId r = devId -> accepts_heartbeat r).

(** The table of pending commands holds at most one envelope for a
    device and a command type. *)
Definition unique_pending (d : DB) : Prop :=
  forall devId cType, (List.length (pending_of devId cType d) <= 1)%nat.

(** The arguments [Queue] serializes for a command of code [c] when it
    leaves the map of the caller as [args]: erase sends none. *)
Definition queued_args (c : string) (args : replyType) : replyType :=
  if String.eqb c "e" then [] else args.

End Notions.

Section HawkNotions.
Context `{Externals}.

(** The local Hawk that [verifyHawkHeader] signs with: the nonce and
    the time of the remote one. *)
Definition local_hawk (rhawk : Hawk) : Hawk :=
  {| Nonce := Nonce rhawk; HawkTime := HawkTime rhawk; Extra := ""; Signature := "" |}.

(** The Hawk header of a request does not prove the secret: it does not
    parse, or no local signature can be computed, or the local
    signature differs from the remote one. *)
Inductive bad_signature (secret : string) (req : Request) (body : string) : Prop :=
| malformed_header :
    ParseAuthHeader req = None -> bad_signature secret req body
| no_local_signature rhawk :
    ParseAuthHeader req = Some rhawk ->
    GenerateSignature (local_hawk rhawk) req (Extra rhawk) body secret = None ->
    bad_signature secret req body
| signature_mismatch rhawk lhawk :
    ParseAuthHeader req = Some rhawk ->
    GenerateSignature (local_hawk rhawk) req (Extra rhawk) body secret = Some lhawk ->
    Compare lhawk (Signature rhawk) = false ->
    bad_signature secret req body.

(** The Hawk header of a request proves the secret. *)
Definition good_signature (secret : string) (req : Request) (body : string) : Prop :=
  exists rhawk lhawk,
    ParseAuthHeader req = Some rhawk
    /\ GenerateSignature (local_hawk rhawk) req (Extra rhawk) body secret = Some lhawk
    /\ Compare lhawk (Signature rhawk) = true.

(** The device of the request is registered. *)
Definition known_device (devId : string) (d : DB) : Prop :=
  storage.find_user devId (userToDeviceMap d) <> None
  /\ storage.find_info devId (deviceInfo d) <> None.

(** The request passes the Hawk gate of [Cmd] for the device: the
    check is switched off, or the header proves every secret stored
    for the device. *)
Definition authenticated (config : MzConfig) (req : Request) (d : DB) : Prop :=
  GetFlag config "hawk.disabled" = true
  \/ forall r, In r (deviceInfo d) ->
               di_deviceId r = getDevFromUrl (URLPath req) ->
               good_signature (di_hawkSecret r) req (Body req).

(** The body of the request was read. *)
Definition body_read (req : Request) : Prop :=
  0 <= ContentLength req /\ BodyErr req <> ReadFailed.

(** A poll that reports nothing: at most the two bytes of an empty
    object. *)
Definition bare_poll (req : Request) : Prop :=
  body_read req /\ BodyRead req <= 2.

(** Every report of the body says [ok: false]. *)
Definition reports_not_ok (reply : replyType) : Prop :=
  Forall (fun kv => exists args, snd kv = VMap args /\ mget "ok" args = Some (VBool false))
    reply.

(** Two states of the database with the same positions and the same
    passcode flags. *)
Definition same_location_and_lock (d d' : DB) : Prop :=
  position d' = position d
  /\ map di_lockable (deviceInfo d') = map di_lockable (deviceInfo d).

End HawkNotions.

Section StoreNotions.
Context `{GoRuntime}.

(** The ids of the pending commands are pairwise distinct and were all
    drawn from the sequence. *)
Definition serial_ids (d : DB) : Prop :=
  NoDup (map pc_id (pendingCommands d))
  /\ forall r, In r (pendingCommands d) -> pc_id r <= pendingSerial d.

(** The same world at another time. *)
Definition at_time (t : Z) (w : World) : World :=
  {| db := db w; Clients := Clients w; socks := socks w;
     self_devId := self_devId w; now := t; defExpry := defExpry w;
     nextUUID := nextUUID w; nextNonce := nextNonce w;
     faults := faults w; trace := trace w |}.

(** Every device mapped to a user has a row in [deviceInfo]. *)
Definition mapped_devices_have_info (d : DB) : Prop :=
  forall u, In u (userToDeviceMap d) ->
            storage.find_info (ud_deviceId u) (deviceInfo d) <> None.

(** The position rows of a device. *)
Definition positions_of (devId : string) (d : DB) : list positionRow :=
  List.filter (fun r => String.eqb (po_deviceId r) devId) (position d).

(** A string without a dot, as the UUIDs of [util.GenUUID4] are. *)
Fixpoint dotless (s : string) : bool :=
  match s with
  | EmptyString => true
  | String a s' => negb (Ascii.eqb a ".") && dotless s'
  end.

(** No nonce of the table has the key. *)
Definition key_unused (key : string) (table : list nonces.nonceRow) : Prop :=
  forall r, In r table -> nonces.no_key r <> key.

End StoreNotions.

Ltac monad :=
  unfold bind, ret, get, emit, set_db, panic, lift, deref in *; simpl in *.

Arguments wmf.verifyHawkHeader : simpl never.
Arguments wmf.updatePage : simpl never.

(** * Properties *)

(** ** The string functions on small inputs *)

Example ParseInt_9999 : GoString.ParseInt "9999" = Some 9999.
Proof. reflexivity. Qed.

Example ParseInt_signed : GoString.ParseInt "-12" = Some (-12).
Proof. reflexivity. Qed.

Example ParseInt_empty : GoString.ParseInt "" = None.
Proof. reflexivity. Qed.

Example ParseInt_range : GoString.ParseInt "9223372036854775808" = None.
Proof. reflexivity. Qed.

Example Sprintf04d_7 : GoString.Sprintf04d 7 = "0007".
Proof. reflexivity. Qed.

Example Sprintf04d_negative : GoString.Sprintf04d (-5) = "-005".
Proof. reflexivity. Qed.

Example Sprintf04d_wide : GoString.Sprintf04d 123456 = "123456".
Proof. reflexivity. Qed.

Example Contains_heartbeat : GoString.Contains "elrth" "h" = true.
Proof. reflexivity. Qed.

Example Contains_swapped : GoString.Contains "h" "elrth" = false.
Proof. reflexivity. Qed.

Example of_byte_ascii : GoString.of_byte "l" = "l".
Proof. reflexivity. Qed.

Example of_byte_two_bytes :
  String.length (GoString.of_byte (ascii_of_nat 233)) = 2%nat.
Proof. reflexivity. Qed.

Example digitsOnly_mixed : digitsOnly "a1-2b3" = "123".
Proof. reflexivity. Qed.

Example Split_slash_path :
  wmf.Split_slash "/ws/sig/phone" = [""; "ws"; "sig"; "phone"].
Proof. reflexivity. Qed.

Example Split_slash_empty : wmf.Split_slash "" = [""].
Proof. reflexivity. Qed.

Section MapLemmas.
Context `{GoRuntime}.

Lemma mget_mset_eq (k : string) (v : Value) (m : replyType) :
  mget k (mset k v m) = Some v.
Proof.
  induction m as [|[k' v'] m IH]; simpl.
  - now rewrite String.eqb_refl.
  - destruct (String.eqb k k') eqn:E; simpl.
    + now rewrite String.eqb_refl.
    + now rewrite E.
Qed.

Lemma mget_mset_ne (k k' : string) (v : Value) (m : replyType) :
  k <> k' -> mget k' (mset k v m) = mget k' m.
Proof.
  intros Hne. induction m as [|[k0 v0] m IH]; simpl.
  - destruct (String.eqb k' k) eqn:E; auto.
    apply String.eqb_eq in E. congruence.
  - destruct (String.eqb k k0) eqn:E; simpl.
    + apply String.eqb_eq in E. subst k0.
      destruct (String.eqb k' k) eqn:E'; auto.
      apply String.eqb_eq in E'. congruence.
    + destruct (String.eqb k' k0); auto.
Qed.

End MapLemmas.

Section QueueProperties.
Context `{Externals}.
Variable config : MzConfig.

(** C4. A command whose code is not in the accepts string of the device
    is answered with status 200 and a nil error, the reply map gets
    [error: 422] and the command, the arguments are untouched, and the
    world (database, trace of storage and push calls) is exactly what
    it was: the store is never called. *)
Theorem Queue_unacceptable_command
    (devRec : Device) (cmd0 : ascii) (rest : string) (args rep : replyType) (w : World) :
  GoString.Contains (Accepts devRec) (code_of cmd0) = false ->
  exists rep',
    wmf.Queue config devRec (String cmd0 rest) args rep w
      = Ok ((wmf.StatusOK, None, args, rep'), w)
    /\ mget "error" rep' = Some (VInt 422)
    /\ mget "cmd" rep' = Some (VString (String cmd0 rest)).
Proof.
  intros Hno. unfold code_of in Hno.
  eexists. split; [|split].
  - unfold wmf.Queue. rewrite Hno. reflexivity.
  - rewrite mget_mset_ne by discriminate. apply mget_mset_eq.
  - apply mget_mset_eq.
Qed.

End QueueProperties.

Section StoreCommandProperties.
Context `{GoRuntime}.

Lemma pending_update_hit devId command cType t r :
  storage.pending_hit devId cType (storage.pending_update devId command cType t r)
  = storage.pending_hit devId cType r.
Proof.
  unfold storage.pending_update.
  destruct (storage.pending_hit devId cType r) eqn:E; auto.
Qed.

Lemma filter_map_update devId command cType t rows :
  List.filter (storage.pending_hit devId cType)
    (map (storage.pending_update devId command cType t) rows)
  = map (storage.pending_update devId command cType t)
      (List.filter (storage.pending_hit devId cType) rows).
Proof.
  induction rows as [|r rows IH]; simpl; auto.
  rewrite pending_update_hit.
  destruct (storage.pending_hit devId cType r); simpl; now rewrite IH.
Qed.

Lemma pending_update_cmd devId command cType t r :
  storage.pending_hit devId cType r = true ->
  pc_cmd (storage.pending_update devId command cType t r) = command.
Proof. intros E. unfold storage.pending_update. now rewrite E. Qed.

(** What [StoreCommand] leaves for the device and type it was called
    with: the rows that were there, all carrying the new command, or
    one new row when there was none. *)
Lemma StoreCommand_rows devId command cType w e w' :
  storage.StoreCommand devId command cType w = Ok (e, w') ->
  e = None ->
  pending_of devId cType (db w') =
    match pending_of devId cType (db w) with
    | [] => [{| pc_id := pendingSerial (db w) + 1; pc_deviceId := devId;
                pc_time := now w; pc_cmd := command; pc_type := cType |}]
    | rows => map (storage.pending_update devId command cType (now w)) rows
    end.
Proof.
  unfold storage.StoreCommand, pending_of. monad.
  destruct (execFails (faults w)); intros E He; inversion E; subst; try discriminate.
  clear E. revert H1.
  destruct (List.filter (storage.pending_hit devId cType) (pendingCommands (db w))) eqn:F;
    simpl.
  - intros E; inversion E; subst; clear E. simpl.
    rewrite List.filter_app, filter_map_update, F. simpl.
    unfold storage.pending_hit. simpl. now rewrite !String.eqb_refl.
  - intros E; inversion E; subst; clear E. simpl.
    now rewrite filter_map_update, F.
Qed.

End StoreCommandProperties.

Section QueueStoreProperties.
Context `{Externals}.
Variable config : MzConfig.

Lemma Queue_store_rows devRec c a rargs rep w st a' r' w' :
  wmf.Queue_store devRec c a rargs rep w = Ok ((st, None, a', r'), w') ->
  st = wmf.StatusOK /\ a' = a /\ r' = rep /\
  exists fixed,
    Marshal (VMap [(c, VMap rargs)]) = Some fixed /\
    pending_of (ID devRec) c (db w') =
      match pending_of (ID devRec) c (db w) with
      | [] => [first_row (ID devRec) fixed c w]
      | rows => map (storage.pending_update (ID devRec) fixed c (now w)) rows
      end.
Proof.
  unfold wmf.Queue_store.
  destruct (Marshal (VMap [(c, VMap rargs)])) as [fixed|] eqn:EM;
    [|monad; intros E; inversion E].
  unfold bind at 1. unfold storage.Open at 1. monad.
  destruct (openFails (faults w)); [intros E; inversion E|].
  destruct (storage.StoreCommand (ID devRec) fixed c
              (with_trace (trace w ++ [EvStorage "Open"]) w)) as [[e w1]|] eqn:ES;
    [|intros E; inversion E].
  destruct e; [intros E; inversion E|].
  unfold wmf.SendPush. monad.
  destruct (pushFails (faults w1)); intros E; inversion E; subst.
  repeat split; auto. exists fixed. split; auto.
  apply StoreCommand_rows in ES; auto.
Qed.

Lemma Queue_store_ok devRec c a rargs rep w fixed :
  openFails (faults w) = false ->
  execFails (faults w) = false ->
  pushFails (faults w) = false ->
  Marshal (VMap [(c, VMap rargs)]) = Some fixed ->
  exists w', wmf.Queue_store devRec c a rargs rep w = Ok ((wmf.StatusOK, None, a, rep), w').
Proof.
  intros Ho He Hp EM. unfold wmf.Queue_store. rewrite EM.
  unfold storage.Open, storage.StoreCommand, wmf.SendPush. monad.
  rewrite Ho. simpl. rewrite He. simpl.
  destruct (Z.of_nat _ =? 0); simpl; rewrite Hp; eauto.
Qed.

End QueueStoreProperties.

Section QueueAccepted.
Context `{Externals}.
Variable config : MzConfig.

(** A call of [Queue] for an accepted code that returns a nil error
    has stored the envelope of its arguments. *)
Lemma Queue_accepted_inv devRec cmd0 rest args rep w st a r w' :
  GoString.Contains (Accepts devRec) (code_of cmd0) = true ->
  wmf.Queue config devRec (String cmd0 rest) args rep w = Ok ((st, None, a, r), w') ->
  st = wmf.StatusOK /\ r = rep /\
  exists fixed,
    Marshal (VMap [(code_of cmd0, VMap (queued_args (code_of cmd0) a))]) = Some fixed /\
    pending_of (ID devRec) (code_of cmd0) (db w') =
      match pending_of (ID devRec) (code_of cmd0) (db w) with
      | [] => [first_row (ID devRec) fixed (code_of cmd0) w]
      | rows => map (storage.pending_update (ID devRec) fixed (code_of cmd0) (now w)) rows
      end.
Proof.
  intros Hacc. unfold wmf.Queue. fold (code_of cmd0). rewrite Hacc. simpl.
  set (c := code_of cmd0) in *.
  destruct (String.eqb c "l") eqn:El.
  - apply String.eqb_eq in El.
    unfold bind at 1. unfold lift at 1.
    destruct (wmf.Queue_lock_code config args) as [r1|]; [|intros E; inversion E].
    unfold bind at 1. unfold lift at 1.
    destruct (wmf.Queue_lock_message r1) as [r2|]; [|intros E; inversion E].
    intros E. apply Queue_store_rows in E.
    destruct E as (? & ? & ? & fixed & EM & ER). subst a.
    repeat split; auto. exists fixed.
    unfold queued_args. rewrite El at 2. simpl. auto.
  - destruct (String.eqb c "r" || String.eqb c "t") eqn:Ert; simpl.
    + intros E. apply Queue_store_rows in E.
      destruct E as (? & ? & ? & fixed & EM & ER). subst a.
      repeat split; auto. exists fixed.
      unfold queued_args.
      destruct (String.eqb c "e") eqn:Ee; auto.
      apply String.eqb_eq in Ee. rewrite Ee in Ert. discriminate.
    + destruct (String.eqb c "e") eqn:Ee.
      * intros E. apply Queue_store_rows in E.
        destruct E as (? & ? & ? & fixed & EM & ER). subst a.
        repeat split; auto. exists fixed.
        unfold queued_args. rewrite Ee. auto.
      * monad. intros E; inversion E.
Qed.

Lemma pending_update_one devId command cType t rows :
  (List.length rows <= 1)%nat ->
  (forall r, In r rows -> storage.pending_hit devId cType r = true) ->
  rows <> [] ->
  exists row,
    map (storage.pending_update devId command cType t) rows = [row]
    /\ pc_cmd row = command.
Proof.
  destruct rows as [|r [|r' rows]]; simpl; intros Hl Hh Hn; try congruence; try lia.
  eexists; split; eauto. apply pending_update_cmd. apply Hh. now left.
Qed.

(** C3. Two commands of one code, queued in succession for one device,
    leave exactly one pending envelope of that device and code, and it
    is the envelope of the second: the serialized, normalized arguments
    of the second call.  The table is taken to hold at most one
    envelope of the device and code before, as it does whenever every
    envelope came from [StoreCommand]. *)
Theorem Queue_twice_one_envelope
    (devRec : Device) (cmd0 cmd0' : ascii) (rest rest' : string)
    (args1 args2 rep a1 r1 a2 r2 : replyType) (st1 st2 : Z) (w w1 w2 : World) :
  code_of cmd0' = code_of cmd0 ->
  GoString.Contains (Accepts devRec) (code_of cmd0) = true ->
  (List.length (pending_of (ID devRec) (code_of cmd0) (db w)) <= 1)%nat ->
  wmf.Queue config devRec (String cmd0 rest) args1 rep w = Ok ((st1, None, a1, r1), w1) ->
  wmf.Queue config devRec (String cmd0' rest') args2 r1 w1 = Ok ((st2, None, a2, r2), w2) ->
  exists row,
    pending_of (ID devRec) (code_of cmd0) (db w2) = [row]
    /\ Marshal (VMap [(code_of cmd0, VMap (queued_args (code_of cmd0) a2))])
       = Some (pc_cmd row).
Proof.
  intros Hc Hacc Hone Q1 Q2.
  apply Queue_accepted_inv in Q1; auto.
  destruct Q1 as (_ & _ & fixed1 & _ & R1).
  assert (Hacc' : GoString.Contains (Accepts devRec) (code_of cmd0') = true)
    by now rewrite Hc.
  apply Queue_accepted_inv in Q2; auto. rewrite Hc in Q2.
  destruct Q2 as (_ & _ & fixed2 & EM2 & R2).
  set (c := code_of cmd0) in *.
  assert (Hhit : forall d r, In r (pending_of (ID devRec) c d) ->
                        storage.pending_hit (ID devRec) c r = true).
  { intros d r Hin. unfold pending_of in Hin. apply List.filter_In in Hin. tauto. }
  assert (H1 : (List.length (pending_of (ID devRec) c (db w1)) = 1)%nat).
  { rewrite R1. destruct (pending_of (ID devRec) c (db w)) as [|r [|r' rows]];
      simpl in *; auto; lia. }
  destruct (pending_update_one (ID devRec) fixed2 c (now w1)
              (pending_of (ID devRec) c (db w1))) as (row & Hrow & Hcmd).
  - lia.
  - apply Hhit.
  - intros E. rewrite E in H1. discriminate.
  - exists row. split.
    + rewrite R2. destruct (pending_of (ID devRec) c (db w1)); auto. discriminate.
    + now rewrite Hcmd.
Qed.

End QueueAccepted.

Section QueueLock.
Context `{Externals}.
Variable config : MzConfig.

Lemma lock_code_99999 :
  GoString.Sprintf04d
    (wmf.rangeCheck (digitsOnly (GoString.take (minInt 4 (GoString.len "99999")) "99999"))
       0 9999) = "9999".
Proof. vm_compute. reflexivity. Qed.

Lemma Queue_lock_code_99999 args :
  mget "c" args = Some (VString "99999") ->
  Get config "cmd.c.max" "9999" = "9999" ->
  wmf.Queue_lock_code config args = Ok (mset "c" (VString "9999") args).
Proof.
  intros Hc Hmax. unfold wmf.Queue_lock_code, wmf.config_max.
  rewrite Hc, Hmax.
  change (GoString.ParseInt "9999") with (Some 9999).
  cbv beta iota. now rewrite lock_code_99999.
Qed.

(** C8. A lock command with the lock code ["99999"], queued while the
    configured maximum is 9999 and with the storage and the push
    service working, returns status 200 and stores the envelope whose
    lock code is ["9999"]; every pending envelope of the device and
    the code ["l"] is that envelope. *)
Theorem Queue_lock_code_normalized
    (devRec : Device) (cmd0 : ascii) (rest : string) (args rep : replyType) (w : World) :
  code_of cmd0 = "l" ->
  GoString.Contains (Accepts devRec) "l" = true ->
  mget "c" args = Some (VString "99999") ->
  Get config "cmd.c.max" "9999" = "9999" ->
  (forall v, mget "m" args = Some v -> exists s, v = VString s) ->
  (forall a, exists fixed, Marshal (VMap [("l", VMap a)]) = Some fixed) ->
  openFails (faults w) = false ->
  execFails (faults w) = false ->
  pushFails (faults w) = false ->
  exists args' fixed w',
    wmf.Queue config devRec (String cmd0 rest) args rep w
      = Ok ((wmf.StatusOK, None, args', rep), w')
    /\ mget "c" args' = Some (VString "9999")
    /\ Marshal (VMap [("l", VMap args')]) = Some fixed
    /\ pending_of (ID devRec) "l" (db w') <> []
    /\ forall row, In row (pending_of (ID devRec) "l" (db w')) -> pc_cmd row = fixed.
Proof.
  intros Hcode Hacc Hc Hmax Hm HM Ho He Hp.
  assert (Hmsg : exists args',
             wmf.Queue_lock_message (mset "c" (VString "9999") args) = Ok args'
             /\ mget "c" args' = Some (VString "9999")).
  { unfold wmf.Queue_lock_message.
    rewrite mget_mset_ne by discriminate.
    destruct (mget "m" args) as [v|] eqn:Em.
    - destruct (Hm v eq_refl) as [s ->].
      eexists; split; eauto.
      rewrite mget_mset_ne by discriminate. apply mget_mset_eq.
    - eexists; split; eauto. apply mget_mset_eq. }
  destruct Hmsg as (args' & Emsg & Hc').
  destruct (HM args') as [fixed EM].
  destruct (Queue_store_ok devRec "l" args' args' rep w fixed Ho He Hp EM) as [w' Q].
  assert (QQ : wmf.Queue config devRec (String cmd0 rest) args rep w
               = Ok ((wmf.StatusOK, None, args', rep), w')).
  { unfold wmf.Queue. fold (code_of cmd0). rewrite Hcode, Hacc. simpl.
    rewrite (Queue_lock_code_99999 args Hc Hmax).
    unfold bind at 1. unfold lift at 1.
    unfold bind at 1. unfold lift at 1. rewrite Emsg. exact Q. }
  exists args', fixed, w'. repeat split; auto.
  - apply Queue_store_rows in Q. destruct Q as (_ & _ & _ & fixed' & EM' & R).
    rewrite R. destruct (pending_of (ID devRec) "l" (db w)); discriminate.
  - intros row Hin.
    apply Queue_store_rows in Q. destruct Q as (_ & _ & _ & fixed' & EM' & R).
    rewrite EM in EM'. inversion EM'; subst fixed'. clear EM'.
    rewrite R in Hin.
    destruct (pending_of (ID devRec) "l" (db w)) as [|r rows] eqn:EP.
    + destruct Hin as [<-|[]]. reflexivity.
    + apply in_map_iff in Hin. destruct Hin as (r0 & <- & Hin0).
      apply pending_update_cmd.
      assert (Hin' : In r0 (pending_of (ID devRec) "l" (db w))) by now rewrite EP.
      unfold pending_of in Hin'. apply List.filter_In in Hin'. tauto.
Qed.

(** C10, where the code leaves the claim.  A lock command whose lock
    code is a JSON number does not return from [Queue]: the branch for
    [float64] of the type switch asserts [int64] and panics. *)
Theorem Queue_panics_on_numeric_lock_code
    (devRec : Device) (cmd0 : ascii) (rest : string) (args rep : replyType)
    (f : float64) (w : World) :
  code_of cmd0 = "l" ->
  GoString.Contains (Accepts devRec) "l" = true ->
  mget "c" args = Some (VFloat64 f) ->
  wmf.Queue config devRec (String cmd0 rest) args rep w = Panic wmf.interface_conversion.
Proof.
  intros Hcode Hacc Hc.
  unfold wmf.Queue. fold (code_of cmd0). rewrite Hcode, Hacc. simpl.
  unfold wmf.Queue_lock_code. rewrite Hc. reflexivity.
Qed.

End QueueLock.

Section HawkGate.
Context `{Externals}.
Variable config : MzConfig.

Lemma verifyHawkHeader_bad req body dev :
  GetFlag config "hawk.disabled" = false ->
  bad_signature (Secret dev) req body ->
  wmf.verifyHawkHeader config req body (Some dev) = false.
Proof.
  intros Hflag Hbad. unfold wmf.verifyHawkHeader. rewrite Hflag.
  destruct Hbad as [Hp | rhawk Hp Hg | rhawk lhawk Hp Hg Hc]; rewrite Hp; auto;
    unfold local_hawk in Hg; simpl; rewrite Hg; auto.
  now rewrite Hc.
Qed.

Lemma verifyHawkHeader_good req body dev :
  good_signature (Secret dev) req body ->
  wmf.verifyHawkHeader config req body (Some dev) = true.
Proof.
  intros (rhawk & lhawk & Hp & Hg & Hc). unfold wmf.verifyHawkHeader.
  destruct (GetFlag config "hawk.disabled"); auto.
  rewrite Hp. unfold local_hawk in Hg. simpl. rewrite Hg, Hc. reflexivity.
Qed.

Lemma find_info_In devId l r :
  storage.find_info devId l = Some r -> In r l /\ di_deviceId r = devId.
Proof.
  unfold storage.find_info. intros E. apply List.find_some in E.
  destruct E as [Hin He]. apply String.eqb_eq in He. auto.
Qed.

(** C1. With Hawk verification enabled, a header that is malformed or
    whose signature does not match makes [verifyHawkHeader] return
    false, for a missing device record as well; and [Cmd], once the
    storage is open and the body is read, answers such a request with
    401 and leaves the database as it was. *)
Theorem Cmd_bad_signature_unauthorized (req : Request) (w : World) :
  GetFlag config "hawk.disabled" = false ->
  (forall r, In r (deviceInfo (db w)) ->
             di_deviceId r = getDevFromUrl (URLPath req) ->
             bad_signature (di_hawkSecret r) req (Body req)) ->
  (forall body, wmf.verifyHawkHeader config req body None = false)
  /\ (forall dev, bad_signature (Secret dev) req (Body req) ->
                  wmf.verifyHawkHeader config req (Body req) (Some dev) = false)
  /\ (openFails (faults w) = false -> body_read req ->
      exists resp w',
        wmf.Cmd config req w = Ok (resp, w')
        /\ status_of resp = 401
        /\ db w' = db w).
Proof.
  intros Hflag Hbad. split; [reflexivity|]. split.
  { intros dev Hb. now apply verifyHawkHeader_bad. }
  intros Ho [Hcl Hrd].
  unfold wmf.Cmd, storage.Open. monad. rewrite Ho.
  destruct (String.eqb (getDevFromUrl (URLPath req)) "") eqn:Eid.
  { eexists _, _. repeat split; reflexivity. }
  unfold storage.GetDeviceInfo. monad.
  destruct (execFails (faults w)).
  { eexists _, _. repeat split; reflexivity. }
  destruct (storage.find_user (getDevFromUrl (URLPath req)) (userToDeviceMap (db w)));
    [|eexists _, _; repeat split; reflexivity].
  destruct (storage.find_info (getDevFromUrl (URLPath req)) (deviceInfo (db w)))
    as [r|] eqn:Ei; [|eexists _, _; repeat split; reflexivity].
  apply find_info_In in Ei. destruct Ei as [Hin Hid].
  destruct (ContentLength req <? 0) eqn:Ecl; [lia|].
  rewrite Hflag.
  rewrite verifyHawkHeader_bad; auto; [|simpl; auto].
  simpl.
  destruct (BodyErr req); try congruence; eexists _, _; repeat split; reflexivity.
Qed.

End HawkGate.

Section Poll.
Context `{Externals}.
Variable config : MzConfig.

Lemma gate_open req d dev r :
  authenticated config req d ->
  In r (deviceInfo d) ->
  di_deviceId r = getDevFromUrl (URLPath req) ->
  Secret dev = di_hawkSecret r ->
  negb (GetFlag config "hawk.disabled")
  && negb (wmf.verifyHawkHeader config req (Body req) (Some dev)) = false.
Proof.
  intros [Hoff | Hgood] Hin Hid Hs.
  - now rewrite Hoff.
  - rewrite verifyHawkHeader_good; [apply andb_false_r|].
    rewrite Hs. now apply Hgood.
Qed.

(** What a poll without a report does: it answers 200 with the oldest
    pending command of the device, or with an empty object, deletes
    that command and touches the device. *)
Lemma Cmd_bare_poll req w :
  openFails (faults w) = false ->
  execFails (faults w) = false ->
  getDevFromUrl (URLPath req) <> "" ->
  known_device (getDevFromUrl (URLPath req)) (db w) ->
  bare_poll req ->
  authenticated config req (db w) ->
  exists resp w',
    wmf.Cmd config req w = Ok (resp, w')
    /\ status_of resp = 200
    /\ written resp =
         (let cmd := match storage.oldest (pending_for (getDevFromUrl (URLPath req)) (db w)) with
                     | Some r => pc_cmd r
                     | None => ""
                     end in
          if GoString.len cmd <? 2 then "{}" else cmd)
    /\ pendingCommands (db w') =
         match storage.oldest (pending_for (getDevFromUrl (URLPath req)) (db w)) with
         | Some r => List.filter (fun x => negb (pc_id x =? pc_id r)) (pendingCommands (db w))
         | None => pendingCommands (db w)
         end
    /\ deviceInfo (db w') =
         map (storage.touch_row (getDevFromUrl (URLPath req)) (now w)) (deviceInfo (db w))
    /\ userToDeviceMap (db w') = userToDeviceMap (db w)
    /\ faults w' = faults w.
Proof.
  intros Ho He Hid [Hu Hi] [[Hcl Hrd] Hl] Hauth.
  set (id := getDevFromUrl (URLPath req)) in *.
  unfold wmf.Cmd, storage.Open. monad. rewrite Ho. fold id.
  destruct (String.eqb id "") eqn:Eid; [apply String.eqb_eq in Eid; congruence|].
  unfold storage.GetDeviceInfo. monad. rewrite He.
  destruct (storage.find_user id (userToDeviceMap (db w))) as [u|]; [|congruence].
  destruct (storage.find_info id (deviceInfo (db w))) as [r|] eqn:Ei; [|congruence].
  apply find_info_In in Ei. destruct Ei as [Hin Hidr].
  destruct (ContentLength req <? 0) eqn:Ecl; [lia|].
  match goal with
  | |- context [wmf.verifyHawkHeader config req (Body req) (Some ?d)] =>
      rewrite (gate_open req (db w) d r Hauth Hin Hidr eq_refl)
  end.
  unfold wmf.Cmd_reports.
  destruct (BodyRead req >? 2) eqn:El; [lia|].
  assert (HP : exists resp w',
             wmf.Cmd_pending req id
               (Some {| ID := di_deviceId r; User := ud_userId u; Name := ud_name u;
                        HasPasscode := di_lockable r;
                        LoggedIn := negb (String.eqb (di_pushUrl r) "");
                        Secret := di_hawkSecret r; PushUrl := di_pushUrl r;
                        Pending := ""; LastExchange := di_lastExchange r;
                        Accepts := di_accepts r; AccessToken := di_accesstoken r |})
               (Header_Set "Content-Type" "application/json" newResponse)
               (with_trace ((trace w ++ [EvStorage "Open"]) ++ [EvStorage "GetDeviceInfo"]) w)
             = Ok (resp, w')
             /\ status_of resp = 200
             /\ written resp =
                  (let cmd := match storage.oldest (pending_for id (db w)) with
                              | Some r => pc_cmd r
                              | None => ""
                              end in
                   if GoString.len cmd <? 2 then "{}" else cmd)
             /\ pendingCommands (db w') =
                  match storage.oldest (pending_for id (db w)) with
                  | Some r => List.filter (fun x => negb (pc_id x =? pc_id r)) (pendingCommands (db w))
                  | None => pendingCommands (db w)
                  end
             /\ deviceInfo (db w') = map (storage.touch_row id (now w)) (deviceInfo (db w))
             /\ userToDeviceMap (db w') = userToDeviceMap (db w)
             /\ faults w' = faults w).
  { unfold wmf.Cmd_pending, storage.GetPending, storage.Touch, pending_for. monad.
    rewrite He.
    destruct (storage.oldest
                (List.filter (fun r0 => String.eqb (pc_deviceId r0) id) (pendingCommands (db w))))
      as [p|]; simpl; rewrite He; simpl;
      eexists _, _; repeat split; reflexivity. }
  destruct HP as (resp & w' & E & HH).
  destruct (BodyErr req); try congruence; exists resp, w'; split; auto.
Qed.

Lemma find_info_touch devId t l :
  storage.find_info devId l <> None ->
  storage.find_info devId (map (storage.touch_row devId t) l) <> None.
Proof.
  unfold storage.find_info.
  induction l as [|r l IH]; simpl; auto.
  unfold storage.touch_row at 1.
  destruct (String.eqb (di_deviceId r) devId) eqn:E; simpl; rewrite E; auto.
Qed.

Lemma authenticated_touch req t d d' :
  deviceInfo d' = map (storage.touch_row (getDevFromUrl (URLPath req)) t) (deviceInfo d) ->
  authenticated config req d -> authenticated config req d'.
Proof.
  intros Hd [Hoff | Hgood]; [now left | right].
  intros r Hin Hid. rewrite Hd in Hin. apply in_map_iff in Hin.
  destruct Hin as (r0 & <- & Hin0).
  unfold storage.touch_row in *.
  destruct (String.eqb (di_deviceId r0) (getDevFromUrl (URLPath req))) eqn:E;
    simpl in *; apply Hgood; auto.
Qed.

Lemma pending_for_filter devId p l :
  List.filter (fun r => String.eqb (pc_deviceId r) devId) (List.filter p l)
  = List.filter p (List.filter (fun r => String.eqb (pc_deviceId r) devId) l).
Proof.
  induction l as [|r l IH]; simpl; auto.
  destruct (p r) eqn:Ep; destruct (String.eqb (pc_deviceId r) devId) eqn:Ed;
    simpl; rewrite ?Ep, ?Ed; congruence.
Qed.

(** C5. A device with exactly one pending command polls, authenticated
    and without a report: the answer is 200 with exactly that command as
    its body, and the command is gone from the store, so that the next
    such poll is answered with an empty object. *)
Theorem Cmd_poll_delivers_once (req req' : Request) (w : World) (row : pendingCommandsRow) :
  openFails (faults w) = false ->
  execFails (faults w) = false ->
  getDevFromUrl (URLPath req) <> "" ->
  getDevFromUrl (URLPath req') = getDevFromUrl (URLPath req) ->
  known_device (getDevFromUrl (URLPath req)) (db w) ->
  bare_poll req -> bare_poll req' ->
  authenticated config req (db w) ->
  authenticated config req' (db w) ->
  pending_for (getDevFromUrl (URLPath req)) (db w) = [row] ->
  2 <= GoString.len (pc_cmd row) ->
  exists resp1 w1 resp2 w2,
    wmf.Cmd config req w = Ok (resp1, w1)
    /\ status_of resp1 = 200
    /\ written resp1 = pc_cmd row
    /\ pending_for (getDevFromUrl (URLPath req)) (db w1) = []
    /\ wmf.Cmd config req' w1 = Ok (resp2, w2)
    /\ status_of resp2 = 200
    /\ written resp2 = "{}".
Proof.
  intros Ho He Hid Hid' Hk Hb Hb' Ha Ha' Hrow Hlen.
  destruct (Cmd_bare_poll req w Ho He Hid Hk Hb Ha)
    as (resp1 & w1 & E1 & S1 & W1 & P1 & D1 & U1 & F1).
  rewrite Hrow in W1, P1. simpl in W1, P1.
  destruct (GoString.len (pc_cmd row) <? 2) eqn:El; [lia|].
  assert (Hgone : pending_for (getDevFromUrl (URLPath req)) (db w1) = []).
  { unfold pending_for in *. rewrite P1, pending_for_filter, Hrow. simpl.
    now rewrite Z.eqb_refl. }
  assert (Hk1 : known_device (getDevFromUrl (URLPath req')) (db w1)).
  { rewrite Hid'. destruct Hk as [Hu Hi]. split.
    - now rewrite U1.
    - rewrite D1. now apply find_info_touch. }
  assert (Ha1 : authenticated config req' (db w1)).
  { eapply authenticated_touch; [|exact Ha']. rewrite Hid'. exact D1. }
  destruct (Cmd_bare_poll req' w1) as (resp2 & w2 & E2 & S2 & W2 & _); auto;
    try congruence.
  rewrite Hid', Hgone in W2. simpl in W2.
  exists resp1, w1, resp2, w2. repeat split; auto.
Qed.

End Poll.

Section Reports.
Context `{Externals}.
Variable config : MzConfig.

(** The report handler on [ok: false]: it opens the store and returns;
    no other storage method is called and nothing is written to the
    live client. *)
Lemma updatePage_not_ok devId cmd args logPosition w :
  mget "ok" args = Some (VBool false) ->
  exists e,
    wmf.updatePage devId cmd args logPosition w
      = Ok (e, with_trace (trace w ++ [EvStorage "Open"]) w)
    /\ (openFails (faults w) = false -> e = None).
Proof.
  intros Hok. unfold wmf.updatePage, storage.Open. monad.
  destruct (openFails (faults w)).
  - eexists; split; [reflexivity|discriminate].
  - rewrite Hok. eexists; split; reflexivity.
Qed.

Lemma same_refl d : same_location_and_lock d d.
Proof. split; reflexivity. Qed.

Lemma same_trans d1 d2 d3 :
  same_location_and_lock d1 d2 -> same_location_and_lock d2 d3 ->
  same_location_and_lock d1 d3.
Proof. intros [A B] [C D]. split; congruence. Qed.

Lemma touch_row_lockable devId t l :
  map di_lockable (map (storage.touch_row devId t) l) = map di_lockable l.
Proof.
  induction l as [|r l IH]; simpl; auto. rewrite IH. f_equal.
  unfold storage.touch_row. destruct (String.eqb (di_deviceId r) devId); reflexivity.
Qed.

Lemma Touch_same devId w e w' :
  storage.Touch devId w = Ok (e, w') -> same_location_and_lock (db w) (db w').
Proof.
  unfold storage.Touch. monad.
  destruct (execFails (faults w)); intros E; inversion E; subst; simpl.
  - apply same_refl.
  - split; simpl; auto. apply touch_row_lockable.
Qed.

Lemma GetPending_same devId w x w' :
  storage.GetPending devId w = Ok (x, w') -> same_location_and_lock (db w) (db w').
Proof.
  unfold storage.GetPending, storage.Touch. monad.
  destruct (execFails (faults w)) eqn:He; [intros E; inversion E|].
  destruct (storage.oldest _); simpl; rewrite He; simpl;
    intros E; inversion E; subst; simpl; (split; simpl; auto; apply touch_row_lockable).
Qed.

Lemma Cmd_round_same deviceId devRec resp cmd args err w exit w' :
  (exists m, args = VMap m /\ mget "ok" m = Some (VBool false)) ->
  wmf.Cmd_round config deviceId devRec resp cmd args err w = Ok (exit, w') ->
  same_location_and_lock (db w) (db w').
Proof.
  intros (m & -> & Hok). unfold wmf.Cmd_round.
  destruct (ToLower cmd) as [|c0 c]; [intros E; inversion E|].
  destruct devRec as [dev|]; [|intros E; inversion E].
  monad.
  destruct (negb (GoString.Contains (Accepts dev) (GoString.of_byte c0))).
  { intros E; inversion E; subst. apply same_refl. }
  destruct (_ || _).
  { destruct (storage.Touch deviceId w) as [[e w1]|] eqn:ET; [|intros E; inversion E].
    destruct (updatePage_not_ok deviceId (String c0 c) m false w1 Hok) as (e' & -> & _).
    apply Touch_same in ET.
    destruct e; intros E; inversion E; subst; simpl; exact ET. }
  destruct (String.eqb (GoString.of_byte c0) "t").
  { destruct (updatePage_not_ok deviceId (String c0 c) m true w Hok) as (e' & -> & _).
    destruct e'; intros E; inversion E; subst; simpl; apply same_refl. }
  destruct (String.eqb (GoString.of_byte c0) "q").
  { destruct (GetFlag config "cmd.q.allow").
    - unfold storage.DeleteDevice. monad.
      intros E; inversion E; subst; simpl; apply same_refl.
    - destruct err; intros E; inversion E; subst; simpl; apply same_refl. }
  destruct err; intros E; inversion E; subst; simpl; apply same_refl.
Qed.

Lemma Cmd_range_same deviceId devRec resp reply :
  reports_not_ok reply ->
  forall err w exit w',
    wmf.Cmd_range config deviceId devRec resp reply err w = Ok (exit, w') ->
    same_location_and_lock (db w) (db w').
Proof.
  induction 1 as [|[cmd args] reply Hhd Htl IH]; intros err w exit w'; simpl.
  - monad. intros E; inversion E; subst. apply same_refl.
  - unfold bind at 1.
    destruct (wmf.Cmd_round config deviceId devRec resp cmd args err w)
      as [[ex w1]|] eqn:ER; [|intros E; inversion E].
    apply Cmd_round_same in ER; [|exact Hhd].
    destruct ex as [err'|r].
    + intros E. apply IH in E. eapply same_trans; eauto.
    + monad. intros E; inversion E; subst. exact ER.
Qed.

Lemma Cmd_pending_same req deviceId devRec resp w r w' :
  wmf.Cmd_pending req deviceId devRec resp w = Ok (r, w') ->
  same_location_and_lock (db w) (db w').
Proof.
  unfold wmf.Cmd_pending. unfold bind at 1.
  destruct (storage.GetPending deviceId w) as [[[cmd e] w1]|] eqn:EG;
    [|intros E; inversion E].
  apply GetPending_same in EG.
  destruct devRec; monad; intros E; inversion E; subst; exact EG.
Qed.

Lemma Cmd_reports_same req reply deviceId devRec resp0 l err w resp w' :
  Decoded req = Some reply ->
  reports_not_ok reply ->
  wmf.Cmd_reports config req deviceId devRec resp0 l err w = Ok (resp, w') ->
  same_location_and_lock (db w) (db w').
Proof.
  intros Hd Hno. unfold wmf.Cmd_reports. rewrite Hd.
  destruct (l >? 2).
  - unfold bind.
    destruct (wmf.Cmd_range _ _ _ _ reply err w) as [[ex w1]|] eqn:ER;
      [|intros E; inversion E].
    apply Cmd_range_same in ER; auto.
    destruct ex.
    + intros E. apply Cmd_pending_same in E. eapply same_trans; eauto.
    + intros E; inversion E; subst. exact ER.
  - apply Cmd_pending_same.
Qed.

(** A request to [Cmd] whose reports all say [ok: false] writes no
    location and no passcode state. *)
Lemma Cmd_not_ok_same req reply w resp w' :
  Decoded req = Some reply ->
  reports_not_ok reply ->
  wmf.Cmd config req w = Ok (resp, w') ->
  same_location_and_lock (db w) (db w').
Proof.
  intros Hd Hno. unfold wmf.Cmd, storage.Open, storage.GetDeviceInfo. monad.
  destruct (openFails (faults w)); simpl;
    [intros E; inversion E; subst; apply same_refl|].
  destruct (String.eqb (getDevFromUrl (URLPath req)) ""); simpl;
    [intros E; inversion E; subst; apply same_refl|].
  destruct (execFails (faults w)); simpl;
    [intros E; inversion E; subst; apply same_refl|].
  destruct (storage.find_user _ _); simpl;
    [|intros E; inversion E; subst; apply same_refl].
  destruct (storage.find_info _ _); simpl;
    [|intros E; inversion E; subst; apply same_refl].
  destruct (ContentLength req <? 0); [intros E; inversion E|].
  destruct (BodyErr req);
    try (intros E; inversion E; subst; apply same_refl);
    (destruct (negb (GetFlag config "hawk.disabled") && _);
     [intros E; inversion E; subst; apply same_refl
     |intros E; eapply Cmd_reports_same in E; eauto]).
Qed.

(** C7, as the code has it.  A report that says [ok: false] writes no
    location and no passcode state: [updatePage] opens the store and
    returns, and a request to [Cmd] whose reports all say so leaves the
    positions and the passcode flags of the database as they were.
    The time of the last exchange is not part of this: [Cmd] touches
    the device before [updatePage] for the codes l, r, m, e and h, and
    [GetPending] touches it on every poll that gets that far. *)
Theorem report_not_ok_writes_no_location :
  (forall devId cmd args logPosition w,
      mget "ok" args = Some (VBool false) ->
      exists e,
        wmf.updatePage devId cmd args logPosition w
          = Ok (e, with_trace (trace w ++ [EvStorage "Open"]) w)
        /\ (openFails (faults w) = false -> e = None))
  /\ (forall req reply w resp w',
         Decoded req = Some reply ->
         reports_not_ok reply ->
         wmf.Cmd config req w = Ok (resp, w') ->
         same_location_and_lock (db w) (db w')).
Proof.
  split.
  - intros. now apply updatePage_not_ok.
  - intros. eapply Cmd_not_ok_same; eauto.
Qed.

End Reports.

Section LiveConnections.
Context `{Externals}.
Variable config : MzConfig.

(** What a handler that reaches [sock.Run()] has done to the registry:
    its [WWS] is the newest object, the connection registered for the
    device before is marked, and the registry names the new one. *)
Lemma WSSocketHandler_enter_registered ws w deviceId sock w' :
  wmf.WSSocketHandler_enter ws w = Ok (Some (deviceId, sock), w') ->
  exists new,
    sock = List.length (socks w)
    /\ Quit new = false
    /\ Clients w' = <[deviceId := sock]> (Clients w)
    /\ socks w' = match Clients w !! deviceId with
                  | Some client => alter (set_Quit true) client (socks w ++ [new])%list
                  | None => (socks w ++ [new])%list
                  end.
Proof.
  unfold wmf.WSSocketHandler_enter, storage.Open, storage.GetDeviceInfo, wmf.addClient.
  monad.
  destruct (openFails (faults w)); simpl; [intros E; inversion E|].
  destruct (execFails (faults w)); simpl; [intros E; inversion E|].
  set (new := fun devRec => {| wsDevice := devRec; Born := now w; Quit := false |}).
  assert (Tail : forall devRec (w0 : World),
             socks w0 = (socks w ++ [new devRec])%list -> Clients w0 = Clients w ->
             match url_Parse (LocalAddr ws) with
             | Some path =>
                 if String.eqb (getDevFromUrl path) ""
                 then fun w1 => Ok (None, w1)
                 else fun w1 =>
                   match
                     match Clients w1 !! getDevFromUrl path with
                     | Some client =>
                         fun w2 => Ok (tt, with_socks (alter (set_Quit true) client (socks w2)) w2)
                     | None => fun w2 => Ok (tt, w2)
                     end w1
                   with
                   | Ok (_, w2) =>
                       Ok (Some (getDevFromUrl path, List.length (socks w)),
                           with_Clients
                             (<[getDevFromUrl path := List.length (socks w)]> (Clients w2)) w2)
                   | Panic why => Panic why
                   end
             | None => fun w1 => Ok (None, w1)
             end w0 = Ok (Some (deviceId, sock), w') ->
             exists new0,
               sock = List.length (socks w) /\ Quit new0 = false
               /\ Clients w' = <[deviceId := sock]> (Clients w)
               /\ socks w' = match Clients w !! deviceId with
                             | Some client => alter (set_Quit true) client (socks w ++ [new0])%list
                             | None => (socks w ++ [new0])%list
                             end).
  { intros devRec w0 Hs Hc.
    destruct (url_Parse (LocalAddr ws)) as [path|]; [|intros E; inversion E].
    destruct (String.eqb (getDevFromUrl path) ""); [intros E; inversion E|].
    rewrite Hc.
    destruct (Clients w !! getDevFromUrl path) as [client|] eqn:EC;
      intros E; inversion E; subst; simpl; exists (new devRec);
      rewrite ?Hc, ?Hs, EC; auto. }
  destruct (storage.find_user _ _); simpl;
    [destruct (storage.find_info _ _); simpl|]; try (intros E; inversion E; fail).
  eapply Tail; reflexivity.
Qed.

(** C2, where the code leaves the claim.  The second connection of a
    device marks the first and takes its place in the registry; when
    the first then ends, its [rmClient] deletes the entry of the device
    id, which by now is the entry of the second: the second connection
    is live and unmarked, and the registry has no entry for the
    device. *)
Theorem superseded_connection_unregisters_its_successor
    (ws1 ws2 : Conn) (deviceId : string) (s1 s2 : nat) (w w1 w2 w3 : World) :
  wmf.WSSocketHandler_enter ws1 w = Ok (Some (deviceId, s1), w1) ->
  wmf.WSSocketHandler_enter ws2 w1 = Ok (Some (deviceId, s2), w2) ->
  wmf.WSSocketHandler_leave deviceId w2 = Ok (tt, w3) ->
  Clients w2 !! deviceId = Some s2
  /\ Quit <$> socks w2 !! s1 = Some true
  /\ s1 <> s2
  /\ Quit <$> socks w3 !! s2 = Some false
  /\ Clients w3 !! deviceId = None.
Proof.
  intros E1 E2 E3.
  apply WSSocketHandler_enter_registered in E1.
  destruct E1 as (n1 & -> & Q1 & C1 & S1).
  apply WSSocketHandler_enter_registered in E2.
  destruct E2 as (n2 & -> & Q2 & C2 & S2).
  assert (L1 : List.length (socks w1) = S (List.length (socks w))).
  { rewrite S1. destruct (Clients w !! deviceId);
      rewrite ?length_alter, length_app; simpl; lia. }
  assert (CL : Clients w1 !! deviceId = Some (List.length (socks w))).
  { rewrite C1. apply lookup_insert_eq. }
  rewrite CL in S2.
  assert (Hne : List.length (socks w) <> List.length (socks w1)) by lia.
  assert (C2' : Clients w2 !! deviceId = Some (List.length (socks w1))).
  { rewrite C2. apply lookup_insert_eq. }
  assert (S3 : socks w3 = socks w2 /\ Clients w3 !! deviceId = None).
  { unfold wmf.WSSocketHandler_leave, wmf.rmClient in E3. rewrite C2' in E3.
    inversion E3; subst; simpl. split; auto. apply lookup_delete_eq. }
  destruct S3 as [S3 C3].
  repeat split; auto.
  - rewrite S2, list_lookup_alter_eq.
    destruct ((socks w1 ++ [n2])%list !! List.length (socks w)) eqn:EL; [reflexivity|].
    apply lookup_ge_None in EL. rewrite length_app in EL. simpl in EL. lia.
  - rewrite S3, S2, list_lookup_alter_ne by exact Hne.
    rewrite list_lookup_middle by reflexivity. simpl. now rewrite Q2.
Qed.

(** C9, where the code leaves the claim.  [checkSig] accepts every
    request; a handshake whose signature item is not the one derived
    from the session, so that the comparison below the [return true]
    would say no, is registered as the live connection of the device. *)
Theorem WSSocketHandler_registers_bad_signature
    (ws : Conn) (path : string) (w : World) :
  wmf.checkSig_below_return (wsRequest ws) (getDevFromUrl (URLPath (wsRequest ws)))
    = Ok false ->
  openFails (faults w) = false ->
  execFails (faults w) = false ->
  known_device (getDevFromUrl (URLPath (wsRequest ws))) (db w) ->
  url_Parse (LocalAddr ws) = Some path ->
  getDevFromUrl path <> "" ->
  wmf.checkSig (wsRequest ws) (getDevFromUrl (URLPath (wsRequest ws))) = true
  /\ exists sock w',
       wmf.WSSocketHandler_enter ws w = Ok (Some (getDevFromUrl path, sock), w')
       /\ Clients w' !! getDevFromUrl path = Some sock.
Proof.
  intros _ Ho He [Hu Hi] Hp Hid. split; [reflexivity|].
  unfold wmf.WSSocketHandler_enter, storage.Open, storage.GetDeviceInfo, wmf.addClient.
  monad. rewrite Ho. simpl. rewrite He. simpl.
  destruct (storage.find_user _ _); [|congruence].
  destruct (storage.find_info _ _); [|congruence].
  simpl. rewrite Hp.
  destruct (String.eqb (getDevFromUrl path) "") eqn:E;
    [apply String.eqb_eq in E; congruence|].
  simpl.
  destruct (Clients w !! getDevFromUrl path); simpl;
    eexists _, _; (split; [reflexivity|]); simpl; apply lookup_insert_eq.
Qed.

End LiveConnections.

Section Registration.
Context `{Externals}.
Variable config : MzConfig.

Lemma HasPrefix_refl s : GoString.HasPrefix s s = true.
Proof. induction s; simpl; auto. now rewrite Ascii.eqb_refl. Qed.

Lemma Contains_append_r x y : GoString.Contains (x +:+ y) y = true.
Proof.
  induction x as [|a x IH]; simpl.
  - destruct y; simpl; auto. now rewrite Ascii.eqb_refl, HasPrefix_refl.
  - rewrite IH. apply orb_true_r.
Qed.

(** [strings.Contains("h", s)] holds for the empty string and for
    ["h"] only. *)
Lemma Contains_h_inv s :
  GoString.Contains "h" s = true -> s = "" \/ s = "h".
Proof.
  destruct s as [|a [|b s]]; simpl; auto.
  - destruct (Ascii.eqb a "h") eqn:E; simpl; try discriminate.
    apply Ascii.eqb_eq in E. subst. auto.
  - destruct (Ascii.eqb a "h"); simpl; discriminate.
Qed.

(** The accepts string [Register] computes contains the heartbeat
    code, whatever the request says. *)
Lemma Register_accepts_heartbeat buffer accepts :
  wmf.Register_accepts buffer = Ok accepts ->
  GoString.Contains accepts "h" = true.
Proof.
  unfold wmf.Register_accepts.
  destruct (match mget "accepts" buffer with
            | Some (VArr l) => _
            | Some _ => _
            | None => _
            end) as [acc0|]; [|discriminate].
  set (acc1 := if GoString.len acc0 =? 0 then "elrth" else acc0).
  assert (Hne : acc1 <> "").
  { unfold acc1. destruct (GoString.len acc0 =? 0) eqn:E; [discriminate|].
    intros E0. rewrite E0 in E. discriminate. }
  destruct (GoString.Contains "h" acc1) eqn:E; simpl; intros Q; inversion Q; subst.
  - apply Contains_h_inv in E. destruct E as [E|E]; [congruence|].
    rewrite E. reflexivity.
  - apply Contains_append_r.
Qed.

Lemma lock_rows_fine old devId state t l :
  rows_fine old devId l ->
  rows_fine old devId (map (storage.lock_row devId state t) l).
Proof.
  intros [P Q]. split; intros r Hin; apply in_map_iff in Hin;
    destruct Hin as (r0 & <- & Hin0); unfold storage.lock_row;
    destruct (String.eqb (di_deviceId r0) devId) eqn:E; auto.
  - right. apply String.eqb_eq in E. exact (Q r0 Hin0 E).
  - intros _. apply String.eqb_eq in E. exact (Q r0 Hin0 E).
Qed.

Lemma SetDeviceLock_fine old devId state w e w' :
  storage.SetDeviceLock devId state w = Ok (e, w') ->
  rows_fine old devId (deviceInfo (db w)) ->
  rows_fine old devId (deviceInfo (db w')).
Proof.
  unfold storage.SetDeviceLock. monad.
  destruct (execFails (faults w)); intros E; inversion E; subst; simpl; auto.
  apply lock_rows_fine.
Qed.

Lemma updatePage_range_fine old devId args :
  forall location w exit w',
    wmf.updatePage_range devId args location w = Ok (exit, w') ->
    rows_fine old devId (deviceInfo (db w)) ->
    rows_fine old devId (deviceInfo (db w')).
Proof.
  induction args as [|[key arg] args IH]; intros location w exit w'; simpl.
  - monad. intros E; inversion E; subst; auto.
  - destruct (GoString.len key <? 2); [apply IH|].
    destruct (String.eqb _ "la").
    { destruct arg; try (intros E; inversion E; fail). apply IH. }
    destruct (String.eqb _ "lo").
    { destruct arg; try (intros E; inversion E; fail). apply IH. }
    destruct (String.eqb _ "al").
    { destruct arg; try (intros E; inversion E; fail). apply IH. }
    destruct (String.eqb _ "ti").
    { destruct arg; try (intros E; inversion E; fail).
      destruct (_ =? 0); [|apply IH].
      monad. intros E; inversion E; subst; auto. }
    destruct (String.eqb _ "ha"); [|apply IH].
    unfold bind.
    destruct (storage.SetDeviceLock devId (isTrue arg) w) as [[e w1]|] eqn:ES;
      [|intros E; inversion E].
    intros E Hf. eapply SetDeviceLock_fine in ES; eauto.
    destruct e.
    + monad. inversion E; subst; auto.
    + eapply IH; eauto.
Qed.

Lemma updatePage_notify_db devId cmd args location w e w' :
  wmf.updatePage_notify devId cmd args location w = Ok (e, w') -> db w' = db w.
Proof.
  unfold wmf.updatePage_notify. monad.
  destruct (Clients w !! devId); intros E; inversion E; subst; reflexivity.
Qed.

(** The report of a registration to the page keeps the rows fine. *)
Lemma updatePage_fine old devId cmd args w e w' :
  wmf.updatePage devId cmd args false w = Ok (e, w') ->
  rows_fine old devId (deviceInfo (db w)) ->
  rows_fine old devId (deviceInfo (db w')).
Proof.
  unfold wmf.updatePage, storage.Open. monad.
  destruct (openFails (faults w)); simpl; [intros E; inversion E; subst; auto|].
  destruct (mget "ok" args) as [[|[|]| | | | | |]|];
    try (intros E; inversion E; subst; auto; fail).
  - destruct (wmf.updatePage_range devId args wmf.zeroPosition _)
      as [[ex w1]|] eqn:ER; [|intros E; inversion E].
    intros E Hf. eapply updatePage_range_fine in ER; [|exact Hf].
    destruct ex.
    + apply updatePage_notify_db in E. now rewrite E.
    + inversion E; subst; auto.
  - intros E Hf. apply updatePage_notify_db in E. now rewrite E.
Qed.

Lemma updatePage_empty_db devId cmd w e w' :
  wmf.updatePage devId cmd [] false w = Ok (e, w') -> db w' = db w.
Proof.
  unfold wmf.updatePage, storage.Open. monad.
  destruct (openFails (faults w)); simpl; [intros E; inversion E; subst; auto|].
  intros E. apply updatePage_notify_db in E. now rewrite E.
Qed.

(** [RegisterDevice] writes the accepts string of the record it was
    given, into every row of the device. *)
Lemma RegisterDevice_fine userid dev w devId e w' :
  storage.RegisterDevice userid dev w = Ok ((devId, e), w') ->
  GoString.Contains (Accepts dev) "h" = true ->
  rows_fine (deviceInfo (db w)) devId (deviceInfo (db w')).
Proof.
  unfold storage.RegisterDevice. monad. intros E Hh.
  destruct (execFails (faults w)); [inversion E|].
  set (dev' := if String.eqb (ID dev) "" then storage.with_ID (nextUUID w) dev else dev) in *.
  assert (Ha : Accepts dev' = Accepts dev).
  { unfold dev'. destruct (String.eqb (ID dev) ""); reflexivity. }
  destruct (existsb _ (userToDeviceMap (db w))).
  - inversion E; subst; simpl. clear E.
    split; intros r Hin; apply in_map_iff in Hin; destruct Hin as (r0 & <- & Hin0);
      unfold storage.register_row;
      destruct (String.eqb (di_deviceId r0) (ID dev')) eqn:Ed; simpl; auto.
    + right. unfold accepts_heartbeat. simpl. now rewrite Ha.
    + intros _. unfold accepts_heartbeat. simpl. now rewrite Ha.
    + intros Hid. rewrite Hid, String.eqb_refl in Ed. discriminate.
  - destruct (existsb _ (deviceInfo (db w))) eqn:Ex; [inversion E|].
    inversion E; subst; simpl. clear E.
    split; intros r Hin; apply in_app_iff in Hin; destruct Hin as [Hin|[<-|[]]]; auto.
    + right. unfold accepts_heartbeat. simpl. now rewrite Ha.
    + intros Hid. exfalso.
      assert (existsb (fun r0 => String.eqb (di_deviceId r0) (ID dev')) (deviceInfo (db w))
              = true); [|congruence].
      apply existsb_exists. exists r. split; auto. now apply String.eqb_eq.
    + intros _. unfold accepts_heartbeat. simpl. now rewrite Ha.
Qed.

Lemma Register_reply_fine old resp buffer secret email userid w r w' :
  wmf.Register_reply resp buffer secret email userid w = Ok (r, w') ->
  rows_fine old (self_devId w) (deviceInfo (db w)) ->
  rows_fine old (self_devId w) (deviceInfo (db w')).
Proof.
  unfold wmf.Register_reply. monad.
  destruct (wmf.updatePage (self_devId w) "register" buffer false w)
    as [[e w1]|] eqn:EU; [|intros E; inversion E].
  intros E Hf. eapply updatePage_fine in EU; [|exact Hf].
  destruct (Marshal _); inversion E; subst; auto.
Qed.

Lemma Register_reply_empty_db resp secret email userid w r w' :
  wmf.Register_reply resp [] secret email userid w = Ok (r, w') -> db w' = db w.
Proof.
  unfold wmf.Register_reply. monad.
  destruct (wmf.updatePage (self_devId w) "register" [] false w)
    as [[e w1]|] eqn:EU; [|intros E; inversion E].
  apply updatePage_empty_db in EU.
  destruct (Marshal _); intros E; inversion E; subst; auto.
Qed.

Lemma Register_deviceid_db buffer w x w' :
  wmf.Register_deviceid buffer w = Ok (x, w') -> db w' = db w.
Proof.
  unfold wmf.Register_deviceid, storage.GetDeviceInfo. monad.
  destruct (mget "deviceid" buffer) as [[| | |[|a s]| | | |]|];
    try (intros E; inversion E; subst; reflexivity).
  destruct (execFails (faults w)); simpl; [intros E; inversion E; subst; reflexivity|].
  destruct (storage.find_user _ _); [destruct (storage.find_info _ _)|];
    intros E; inversion E; subst; reflexivity.
Qed.

Lemma Register_login_db req buffer raw deviceid devRec w x w' :
  wmf.Register_login config req buffer raw deviceid devRec w = Ok (x, w') -> db w' = db w.
Proof.
  unfold wmf.Register_login, storage.GetUserFromDevice. monad.
  destruct (mget "assert" buffer) as [[| | |assertion| | | |]|];
    try (intros E; inversion E; subst; reflexivity).
  - destruct (if GetFlag config "auth.persona" then _ else _) as [[userid email] [e|]].
    + intros E; inversion E; subst; reflexivity.
    + destruct (String.eqb userid ""); intros E; inversion E; subst; reflexivity.
  - destruct devRec; [|intros E; inversion E; subst; reflexivity].
    destruct (wmf.verifyHawkHeader config req raw (Some d));
      [|intros E; inversion E; subst; reflexivity].
    destruct (execFails (faults w)); simpl; [intros E; inversion E|].
    destruct (storage.find_user _ _); intros E; inversion E; subst; reflexivity.
Qed.

Lemma fine_of_same old l : l = old -> forall r, In r l -> In r old \/ accepts_heartbeat r.
Proof. intros -> r Hin. now left. Qed.

(** C6. Whatever [Register] leaves in [deviceInfo] that was not there
    before, that is every device record produced by the registration,
    has an accepts string that contains the heartbeat code ['h']: with
    a list of accepted commands that omits it and with no list at
    all. *)
Theorem Register_accepts_contain_heartbeat
    (req : Request) (w : World) (resp : Response) (w' : World) :
  wmf.Register config req w = Ok (resp, w') ->
  forall r, In r (deviceInfo (db w')) ->
            In r (deviceInfo (db w)) \/ accepts_heartbeat r.
Proof.
  unfold wmf.Register. unfold bind at 1. unfold storage.Open at 1. monad.
  destruct (openFails (faults w)); simpl.
  { intros E; inversion E; subst. now left. }
  set (w0 := with_trace (trace w ++ [EvStorage "Open"]) w).
  assert (D0 : db w0 = db w) by reflexivity.
  destruct (Decoded req) as [buffer|].
  2:{ intros E. apply Register_reply_empty_db in E.
      apply fine_of_same. now rewrite E. }
  destruct (wmf.Register_deviceid buffer w0) as [[[deviceid devRec] w1]|] eqn:E1;
    [|intros E; inversion E].
  apply Register_deviceid_db in E1.
  destruct (wmf.Register_login config req buffer (Body req) deviceid devRec w1)
    as [[login w2]|] eqn:E2; [|intros E; inversion E].
  apply Register_login_db in E2.
  assert (D2 : db w2 = db w) by congruence.
  destruct login as [[[[[|] userid] email] user]|].
  2,3: intros E; inversion E; subst; apply fine_of_same; now rewrite D2.
  destruct (mget "pushurl" buffer) as [[| | |[|a pushUrl]| | | |]|];
    try (intros E; inversion E; subst; apply fine_of_same; now rewrite D2).
  destruct (match mget "has_passcode" buffer with
            | Some (VString val) => _
            | Some _ => _
            | None => _
            end) as [hasPasscode|]; [|intros E; inversion E].
  destruct (wmf.Register_accepts buffer) as [accepts|] eqn:EA; [|intros E; inversion E].
  apply Register_accepts_heartbeat in EA.
  match goal with
  | |- context [storage.RegisterDevice userid ?d w2] =>
      destruct (storage.RegisterDevice userid d w2) as [[[devId e] w3]|] eqn:ER;
        [|intros E; inversion E]
  end.
  apply RegisterDevice_fine in ER; [|exact EA].
  rewrite D2 in ER.
  destruct e; [intros E; inversion E; subst; apply ER|].
  destruct (negb (String.eqb devId deviceid)) eqn:Ed;
    [intros E; inversion E; subst; apply ER|].
  apply negb_false_iff, String.eqb_eq in Ed. subst devId.
  intros E. eapply Register_reply_fine in E; [apply E|exact ER].
Qed.

End Registration.

Section PendingInvariant.
Context `{GoRuntime}.

Lemma pending_update_hit_other devId command cType t devId' cType' r :
  storage.pending_hit devId' cType' (storage.pending_update devId command cType t r)
  = storage.pending_hit devId' cType' r.
Proof.
  unfold storage.pending_update.
  destruct (storage.pending_hit devId cType r); reflexivity.
Qed.

Lemma filter_update_length devId command cType t devId' cType' rows :
  List.length (List.filter (storage.pending_hit devId' cType')
                 (map (storage.pending_update devId command cType t) rows))
  = List.length (List.filter (storage.pending_hit devId' cType') rows).
Proof.
  induction rows as [|r rows IH]; simpl; auto.
  rewrite pending_update_hit_other.
  destruct (storage.pending_hit devId' cType' r); simpl; now rewrite IH.
Qed.

(** [StoreCommand] keeps the table at one envelope for a device and a
    type at most: it inserts only where it found none. *)
Lemma StoreCommand_keeps_unique devId command cType w e w' :
  storage.StoreCommand devId command cType w = Ok (e, w') ->
  unique_pending (db w) -> unique_pending (db w').
Proof.
  intros E U devId' cType'.
  destruct e as [err|].
  { unfold storage.StoreCommand in E. monad.
    destruct (execFails (faults w)); [inversion E; subst; apply U|].
    destruct (_ =? 0); inversion E. }
  destruct (storage.pending_hit devId' cType'
              {| pc_id := 0; pc_deviceId := devId; pc_time := 0;
                 pc_cmd := ""; pc_type := cType |}) eqn:Same.
  - unfold storage.pending_hit in Same. simpl in Same.
    apply andb_true_iff in Same. destruct Same as [Ed Et].
    apply String.eqb_eq in Ed, Et. subst devId' cType'.
    rewrite (StoreCommand_rows _ _ _ _ _ _ E eq_refl).
    specialize (U devId cType).
    destruct (pending_of devId cType (db w)) as [|r [|r' rows]]; simpl in *; lia.
  - specialize (U devId' cType').
    unfold storage.StoreCommand in E. unfold pending_of in *. monad.
    destruct (execFails (faults w)); [inversion E|].
    destruct (_ =? 0); inversion E; subst; simpl.
    + rewrite List.filter_app, length_app, filter_update_length. simpl.
      unfold storage.pending_hit in *. simpl in *. rewrite Same. simpl. lia.
    + now rewrite filter_update_length.
Qed.

Lemma filter_filter_length {A} (p q : A -> bool) (l : list A) :
  (List.length (List.filter p (List.filter q l)) <= List.length (List.filter p l))%nat.
Proof.
  induction l as [|a l IH]; simpl; auto.
  destruct (q a); simpl; destruct (p a); simpl; lia.
Qed.

(** [GetPending] keeps it as well: it only deletes. *)
Lemma GetPending_keeps_unique devId w x w' :
  storage.GetPending devId w = Ok (x, w') ->
  unique_pending (db w) -> unique_pending (db w').
Proof.
  unfold storage.GetPending, storage.Touch. monad.
  destruct (execFails (faults w)) eqn:He; [intros E; inversion E|].
  destruct (storage.oldest _); simpl; rewrite He; simpl;
    intros E U devId' cType'; inversion E; subst; simpl; unfold pending_of; simpl.
  - etransitivity; [apply filter_filter_length|apply U].
  - apply U.
Qed.

End PendingInvariant.

Section LockCode.
Context `{Externals}.

Lemma rangeCheck_bounds s max :
  0 <= max -> 0 <= wmf.rangeCheck s 0 max <= max.
Proof.
  intros Hmax. unfold wmf.rangeCheck.
  destruct (GoString.ParseInt s) as [val|]; [|lia].
  destruct (val <? 0) eqn:E1; [lia|].
  destruct (val >? max) eqn:E2; lia.
Qed.

Lemma Sprintf04d_small :
  forallb (fun n => (String.length (GoString.Sprintf04d (Z.of_nat n)) =? 4)%nat)
    (seq 0 (Z.to_nat 10000)) = true.
Proof. vm_compute. reflexivity. Qed.

(** Whatever the lock code of the request, and for every configured
    maximum up to 9999, the code [Queue] stores is a number between 0
    and the maximum, written with four characters. *)
Lemma lock_code_four_digits s max :
  0 <= max <= 9999 ->
  0 <= wmf.rangeCheck s 0 max <= max
  /\ String.length (GoString.Sprintf04d (wmf.rangeCheck s 0 max)) = 4%nat.
Proof.
  intros [Hlo Hhi]. pose proof (rangeCheck_bounds s max Hlo) as B. split; auto.
  pose proof Sprintf04d_small as F. rewrite forallb_forall in F.
  specialize (F (Z.to_nat (wmf.rangeCheck s 0 max))).
  rewrite Z2Nat.id in F by lia.
  apply Nat.eqb_eq, F, in_seq. lia.
Qed.

End LockCode.

(** * Further properties of the storage layer *)

Section PendingQueue.
Context `{GoRuntime}.

Lemma pending_update_miss devId command cType t devId' cType' r :
  devId' <> devId \/ cType' <> cType ->
  storage.pending_hit devId' cType' r = true ->
  storage.pending_update devId command cType t r = r.
Proof.
  intros Hne Hhit. unfold storage.pending_update.
  destruct (storage.pending_hit devId cType r) eqn:E; auto.
  unfold storage.pending_hit in *.
  apply andb_true_iff in Hhit, E. destruct Hhit as [A B], E as [C D].
  apply String.eqb_eq in A, B, C, D. destruct Hne; congruence.
Qed.

Lemma filter_update_other devId command cType t devId' cType' rows :
  devId' <> devId \/ cType' <> cType ->
  List.filter (storage.pending_hit devId' cType')
    (map (storage.pending_update devId command cType t) rows)
  = List.filter (storage.pending_hit devId' cType') rows.
Proof.
  intros Hne. induction rows as [|r rows IH]; simpl; auto.
  rewrite pending_update_hit_other.
  destruct (storage.pending_hit devId' cType' r) eqn:E; auto.
  rewrite IH. f_equal. eapply pending_update_miss; eauto.
Qed.

(** Storing a command for a device and a type leaves the pending
    envelopes of every other device, and of every other type of the same
    device, exactly as they were. *)
Theorem StoreCommand_leaves_the_others
    (devId command cType devId' cType' : string) (w : World) (e : error) (w' : World) :
  storage.StoreCommand devId command cType w = Ok (e, w') ->
  devId' <> devId \/ cType' <> cType ->
  pending_of devId' cType' (db w') = pending_of devId' cType' (db w).
Proof.
  intros E Hne. unfold storage.StoreCommand in E. unfold pending_of. monad.
  destruct (execFails (faults w)); [inversion E; subst; reflexivity|].
  destruct (_ =? 0); inversion E; subst; simpl.
  - rewrite List.filter_app, filter_update_other by exact Hne. simpl.
    assert (Hmiss : storage.pending_hit devId' cType'
                      {| pc_id := pendingSerial (db w) + 1; pc_deviceId := devId;
                         pc_time := now w; pc_cmd := command; pc_type := cType |} = false).
    { unfold storage.pending_hit. simpl.
      destruct (String.eqb devId devId') eqn:A; simpl; auto.
      destruct (String.eqb cType cType') eqn:B; simpl; auto.
      apply String.eqb_eq in A, B. destruct Hne; congruence. }
    rewrite Hmiss. apply app_nil_r.
  - now apply filter_update_other.
Qed.

Lemma In_map_update_id devId command cType t rows :
  map pc_id (map (storage.pending_update devId command cType t) rows) = map pc_id rows.
Proof.
  induction rows as [|r rows IH]; simpl; auto. rewrite IH. f_equal.
  unfold storage.pending_update. destruct (storage.pending_hit devId cType r); reflexivity.
Qed.

(** [StoreCommand] keeps the ids of the pending commands distinct: a new
    row takes the next value of the sequence. *)
Theorem StoreCommand_keeps_serial_ids
    (devId command cType : string) (w : World) (e : error) (w' : World) :
  storage.StoreCommand devId command cType w = Ok (e, w') ->
  serial_ids (db w) -> serial_ids (db w').
Proof.
  intros E [ND LE]. unfold storage.StoreCommand in E. monad.
  destruct (execFails (faults w)); [inversion E; subst; split; auto|].
  destruct (_ =? 0); inversion E; subst; simpl; split; simpl.
  - rewrite map_app, In_map_update_id. simpl.
    apply NoDup_app. split; [exact ND|]. split.
    + intros x Hx Hin. apply list_elem_of_In in Hx, Hin.
      destruct Hin as [<-|[]].
      apply in_map_iff in Hx. destruct Hx as (r & Hr & Hin).
      apply LE in Hin. lia.
    + apply NoDup_singleton.
  - intros r Hin. apply in_app_iff in Hin. destruct Hin as [Hin|[<-|[]]]; simpl; [|lia].
    apply in_map_iff in Hin. destruct Hin as (r0 & <- & Hin0).
    apply LE in Hin0.
    unfold storage.pending_update. destruct (storage.pending_hit devId cType r0); simpl; lia.
  - now rewrite In_map_update_id.
  - intros r Hin. apply in_map_iff in Hin. destruct Hin as (r0 & <- & Hin0).
    apply LE in Hin0.
    unfold storage.pending_update. destruct (storage.pending_hit devId cType r0); simpl; lia.
Qed.

Lemma oldest_In l r : storage.oldest l = Some r -> In r l.
Proof.
  revert r. induction l as [|a l IH]; simpl; intros r E; [discriminate|].
  destruct (storage.oldest l) as [r'|].
  - destruct (pc_time r' <? pc_time a); inversion E; subst; auto.
  - inversion E; subst; auto.
Qed.

Lemma filter_other_ids (rows : list pendingCommandsRow) r devId' :
  NoDup (map pc_id rows) -> In r rows -> pc_deviceId r <> devId' ->
  List.filter (fun x => String.eqb (pc_deviceId x) devId')
    (List.filter (fun x => negb (pc_id x =? pc_id r)) rows)
  = List.filter (fun x => String.eqb (pc_deviceId x) devId') rows.
Proof.
  induction rows as [|a rows IH]; simpl; intros ND Hin Hne; auto.
  apply NoDup_cons in ND. destruct ND as [Ha ND].
  destruct (pc_id a =? pc_id r) eqn:E; simpl.
  - apply Z.eqb_eq in E.
    assert (a = r).
    { destruct Hin as [->|Hin]; auto. exfalso. apply Ha.
      apply list_elem_of_In. rewrite E. now apply in_map. }
    subst a.
    destruct (String.eqb (pc_deviceId r) devId') eqn:Ed;
      [apply String.eqb_eq in Ed; congruence|].
    clear IH. induction rows as [|b rows IH]; simpl; auto.
    apply NoDup_cons in ND. destruct ND as [Hb ND].
    destruct (pc_id b =? pc_id r) eqn:Eb.
    + exfalso. apply Ha. apply Z.eqb_eq in Eb. rewrite <- Eb.
      apply list_elem_of_In. now left.
    + simpl. rewrite IH; auto.
      intros Hin'. apply Ha. apply list_elem_of_In. right.
      now apply list_elem_of_In.
  - destruct Hin as [->|Hin]; [rewrite Z.eqb_refl in E; discriminate|].
    rewrite IH; auto.
Qed.

(** A poll of one device takes nothing from another: with distinct row
    ids, [GetPending] leaves the pending commands of every other device
    as they were. *)
Theorem GetPending_leaves_other_devices
    (devId devId' : string) (w : World) (x : string * error) (w' : World) :
  storage.GetPending devId w = Ok (x, w') ->
  NoDup (map pc_id (pendingCommands (db w))) ->
  devId' <> devId ->
  pending_for devId' (db w') = pending_for devId' (db w).
Proof.
  unfold storage.GetPending, storage.Touch, pending_for. monad.
  destruct (execFails (faults w)) eqn:He; [intros E; inversion E|].
  destruct (storage.oldest _) as [r|] eqn:Eo; simpl; rewrite He; simpl;
    intros E ND Hne; inversion E; subst; simpl; auto.
  apply oldest_In in Eo. apply List.filter_In in Eo. destruct Eo as [Hin Hd].
  apply String.eqb_eq in Hd.
  apply filter_other_ids; auto. congruence.
Qed.

(** What [GetPending] does when the database executes its statements. *)
Lemma GetPending_runs devId w :
  execFails (faults w) = false ->
  exists w',
    storage.GetPending devId w
      = Ok ((match storage.oldest (pending_for devId (db w)) with
             | Some r => pc_cmd r
             | None => ""
             end, None), w')
    /\ pendingCommands (db w') =
         match storage.oldest (pending_for devId (db w)) with
         | Some r => List.filter (fun x => negb (pc_id x =? pc_id r)) (pendingCommands (db w))
         | None => pendingCommands (db w)
         end
    /\ pendingSerial (db w') = pendingSerial (db w)
    /\ faults w' = faults w /\ now w' = now w.
Proof.
  intros He. unfold storage.GetPending, storage.Touch, pending_for. monad. rewrite He.
  destruct (storage.oldest _); simpl; rewrite He; simpl;
    eexists; repeat split; reflexivity.
Qed.

(** What [StoreCommand] does when the device has no envelope of the
    type: it appends one row. *)
Lemma StoreCommand_inserts devId command cType w :
  execFails (faults w) = false ->
  pending_of devId cType (db w) = [] ->
  exists w',
    storage.StoreCommand devId command cType w = Ok (None, w')
    /\ pendingCommands (db w') =
         (pendingCommands (db w) ++ [first_row devId command cType w])%list
    /\ pendingSerial (db w') = pendingSerial (db w) + 1
    /\ faults w' = faults w /\ now w' = now w.
Proof.
  intros He Hempty. unfold storage.StoreCommand. monad. rewrite He.
  unfold pending_of in Hempty.
  assert (Hno : forall r, In r (pendingCommands (db w)) ->
                          storage.pending_hit devId cType r = false).
  { intros r Hin. destruct (storage.pending_hit devId cType r) eqn:E; auto. exfalso.
    assert (Hin' : In r (List.filter (storage.pending_hit devId cType)
                           (pendingCommands (db w)))).
    { apply List.filter_In. auto. }
    rewrite Hempty in Hin'. destruct Hin'. }
  assert (Hm : map (storage.pending_update devId command cType (now w)) (pendingCommands (db w))
               = pendingCommands (db w)).
  { revert Hno. generalize (pendingCommands (db w)) as l.
    induction l as [|a l IH]; simpl; intros Hno; auto.
    unfold storage.pending_update at 1. rewrite (Hno a) by now left.
    f_equal. apply IH. intros r Hr. apply Hno. now right. }
  rewrite Hempty. simpl. rewrite Hm.
  eexists; repeat split; reflexivity.
Qed.

Lemma pending_of_nil_of_pending_for devId cType d :
  pending_for devId d = [] -> pending_of devId cType d = [].
Proof.
  unfold pending_for, pending_of. generalize (pendingCommands d) as l.
  induction l as [|a l IH]; simpl; auto.
  unfold storage.pending_hit at 1.
  destruct (String.eqb (pc_deviceId a) devId); simpl; [discriminate|auto].
Qed.

Lemma filter_keeps_older (rows : list pendingCommandsRow) n id :
  (forall r, In r rows -> pc_id r <= n) -> n < id ->
  List.filter (fun x => negb (pc_id x =? id)) rows = rows.
Proof.
  induction rows as [|a rows IH]; simpl; intros Hle Hlt; auto.
  destruct (pc_id a =? id) eqn:E; simpl.
  - apply Z.eqb_eq in E. specialize (Hle a (or_introl eq_refl)). lia.
  - f_equal. apply IH; auto.
Qed.

(** Store and poll: a command stored for a device with nothing pending
    is what the next [GetPending] of the device returns, and the poll
    after that returns the empty string. *)
Theorem StoreCommand_then_GetPending
    (devId command cType : string) (w : World) :
  execFails (faults w) = false ->
  pending_for devId (db w) = [] ->
  exists w1 w2 w3,
    storage.StoreCommand devId command cType w = Ok (None, w1)
    /\ storage.GetPending devId w1 = Ok ((command, None), w2)
    /\ pending_for devId (db w2) = []
    /\ storage.GetPending devId w2 = Ok (("", None), w3).
Proof.
  intros He Hempty.
  destruct (StoreCommand_inserts devId command cType w He
              (pending_of_nil_of_pending_for _ _ _ Hempty))
    as (w1 & E1 & P1 & S1 & F1 & N1).
  assert (Q1 : pending_for devId (db w1) = [first_row devId command cType w]).
  { unfold pending_for in *. rewrite P1, List.filter_app, Hempty. simpl.
    now rewrite String.eqb_refl. }
  destruct (GetPending_runs devId w1) as (w2 & E2 & P2 & S2 & F2 & N2); [congruence|].
  rewrite Q1 in E2, P2. simpl in E2, P2.
  assert (Q2 : pending_for devId (db w2) = []).
  { unfold pending_for in *. rewrite P2, pending_for_filter, Q1. simpl.
    now rewrite Z.eqb_refl. }
  destruct (GetPending_runs devId w2) as (w3 & E3 & _); [congruence|].
  rewrite Q2 in E3. simpl in E3.
  exists w1, w2, w3. repeat split; auto.
Qed.

(** First in, first out: two commands of different types, stored one
    after the other (the second at a later time) for a device with
    nothing pending, are handed out by the next two polls in the order
    in which they were stored. *)
Theorem pending_commands_first_in_first_out
    (devId c1 ty1 c2 ty2 : string) (t2 : Z) (w : World) :
  execFails (faults w) = false ->
  pending_for devId (db w) = [] ->
  serial_ids (db w) ->
  ty1 <> ty2 ->
  now w < t2 ->
  exists w1 w2 w3 w4,
    storage.StoreCommand devId c1 ty1 w = Ok (None, w1)
    /\ storage.StoreCommand devId c2 ty2 (at_time t2 w1) = Ok (None, w2)
    /\ storage.GetPending devId w2 = Ok ((c1, None), w3)
    /\ storage.GetPending devId w3 = Ok ((c2, None), w4)
    /\ pending_for devId (db w4) = [].
Proof.
  intros He Hempty [ND LE] Hty Ht.
  destruct (StoreCommand_inserts devId c1 ty1 w He
              (pending_of_nil_of_pending_for _ _ _ Hempty))
    as (w1 & E1 & P1 & S1 & F1 & N1).
  set (row1 := first_row devId c1 ty1 w) in *.
  assert (Hof : pending_of devId ty2 (db (at_time t2 w1)) = []).
  { unfold pending_of. simpl. rewrite P1, List.filter_app.
    fold (pending_of devId ty2 (db w)).
    rewrite (pending_of_nil_of_pending_for _ _ _ Hempty). simpl.
    unfold storage.pending_hit. simpl. rewrite String.eqb_refl. simpl.
    destruct (String.eqb ty1 ty2) eqn:E; auto.
    apply String.eqb_eq in E. congruence. }
  destruct (StoreCommand_inserts devId c2 ty2 (at_time t2 w1)) as (w2 & E2 & P2 & S2 & F2 & N2);
    [simpl; congruence | exact Hof |].
  set (row2 := first_row devId c2 ty2 (at_time t2 w1)) in *.
  simpl in P2, S2, F2, N2. rewrite P1 in P2.
  assert (Q2 : pending_for devId (db w2) = [row1; row2]).
  { unfold pending_for in *. rewrite P2, !List.filter_app, Hempty. simpl.
    now rewrite String.eqb_refl. }
  destruct (GetPending_runs devId w2) as (w3 & E3 & P3 & S3 & F3 & N3); [congruence|].
  rewrite Q2 in E3, P3. simpl in E3, P3.
  assert (Hold : (t2 <? now w) = false) by lia.
  rewrite Hold in E3, P3. simpl in E3, P3.
  assert (P3' : pendingCommands (db w3) = (pendingCommands (db w) ++ [row2])%list).
  { rewrite P3, P2, !List.filter_app. simpl.
    rewrite (Z.eqb_refl (pendingSerial (db w) + 1)). simpl.
    rewrite (filter_keeps_older _ (pendingSerial (db w))) by (auto; lia).
    rewrite S1.
    destruct (pendingSerial (db w) + 1 + 1 =? pendingSerial (db w) + 1) eqn:E; [lia|].
    simpl. now rewrite app_nil_r. }
  assert (Q3 : pending_for devId (db w3) = [row2]).
  { unfold pending_for in *. rewrite P3', List.filter_app, Hempty. simpl.
    now rewrite String.eqb_refl. }
  destruct (GetPending_runs devId w3) as (w4 & E4 & P4 & _); [congruence|].
  rewrite Q3 in E4, P4. simpl in E4, P4.
  assert (Q4 : pending_for devId (db w4) = []).
  { unfold pending_for in *. rewrite P4, pending_for_filter, Q3. simpl.
    now rewrite Z.eqb_refl. }
  exists w1, w2, w3, w4. repeat split; auto.
Qed.

End PendingQueue.

Section PositionsAndDevices.
Context `{GoRuntime}.

Lemma filter_purged devId (l : list positionRow) :
  List.filter (fun r => String.eqb (po_deviceId r) devId)
    (List.filter (fun r => negb (String.eqb (po_deviceId r) devId)) l) = [].
Proof.
  induction l as [|a l IH]; simpl; auto.
  destruct (String.eqb (po_deviceId a) devId) eqn:E; simpl; auto. now rewrite E.
Qed.

Lemma filter_purged_other devId devId' (l : list positionRow) :
  devId' <> devId ->
  List.filter (fun r => String.eqb (po_deviceId r) devId')
    (List.filter (fun r => negb (String.eqb (po_deviceId r) devId)) l)
  = List.filter (fun r => String.eqb (po_deviceId r) devId') l.
Proof.
  intros Hne. induction l as [|a l IH]; simpl; auto.
  destruct (String.eqb (po_deviceId a) devId) eqn:E; simpl.
  - destruct (String.eqb (po_deviceId a) devId') eqn:E'; auto.
    apply String.eqb_eq in E, E'. congruence.
  - now rewrite IH.
Qed.

(** Write and read a location: after [SetDeviceLocation] the device has
    exactly one stored position, [GetPositions] returns it (the
    coordinates narrowed to [float32], the time of the write), and the
    positions of every other device are as they were. *)
Theorem SetDeviceLocation_then_GetPositions
    (devId : string) (p : Position) (w : World) :
  execFails (faults w) = false ->
  exists w1 w2 row,
    storage.SetDeviceLocation devId p w = Ok (None, w1)
    /\ positions_of devId (db w1) = [row]
    /\ lookups.GetPositions devId w1
       = Ok (([{| Latitude := float32_of_float64 (Latitude p);
                  Longitude := float32_of_float64 (Longitude p);
                  Altitude := float32_of_float64 (Altitude p);
                  Time := now w; PosCmd := [] |}], None), w2)
    /\ forall devId', devId' <> devId ->
         positions_of devId' (db w1) = positions_of devId' (db w).
Proof.
  intros He.
  unfold storage.SetDeviceLocation, storage.PurgePosition, lookups.GetPositions, positions_of.
  monad. rewrite !He. simpl. rewrite ?He. simpl.
  eexists _, _, _. split; [reflexivity|]. simpl. rewrite He.
  rewrite List.filter_app, filter_purged. simpl. rewrite String.eqb_refl. simpl.
  repeat split; try reflexivity.
  intros devId' Hne.
  rewrite List.filter_app, filter_purged_other by exact Hne. simpl.
  destruct (String.eqb devId devId') eqn:E; [apply String.eqb_eq in E; congruence|].
  apply app_nil_r.
Qed.

Lemma find_info_register dev t l r :
  storage.find_info (ID dev) l = Some r ->
  storage.find_info (ID dev) (map (storage.register_row dev t) l)
  = Some (storage.register_row dev t r).
Proof.
  unfold storage.find_info. induction l as [|a l IH]; simpl; [discriminate|].
  unfold storage.register_row at 1.
  destruct (String.eqb (di_deviceId a) (ID dev)) eqn:E; simpl; rewrite E.
  - intros Q; inversion Q; subst. unfold storage.register_row. now rewrite E.
  - auto.
Qed.

Lemma find_info_appended devId l row :
  existsb (fun r => String.eqb (di_deviceId r) devId) l = false ->
  di_deviceId row = devId ->
  storage.find_info devId (l ++ [row]) = Some row.
Proof.
  unfold storage.find_info. intros Hno Hid.
  induction l as [|a l IH]; simpl in *.
  - now rewrite Hid, String.eqb_refl.
  - apply orb_false_iff in Hno. destruct Hno as [Ha Hl]. rewrite Ha. auto.
Qed.

Lemma find_user_appended devId l row :
  ud_deviceId row = devId ->
  storage.find_user devId (l ++ [row]) <> None.
Proof.
  unfold storage.find_user. intros Hid.
  induction l as [|a l IH]; simpl.
  - rewrite Hid, String.eqb_refl. discriminate.
  - destruct (String.eqb (ud_deviceId a) devId); [discriminate|auto].
Qed.

Lemma find_user_of_mapping userid devId l :
  existsb (fun u => String.eqb (ud_userId u) userid && String.eqb (ud_deviceId u) devId) l
  = true ->
  exists u, In u l /\ ud_deviceId u = devId /\ storage.find_user devId l <> None.
Proof.
  intros Hex. apply existsb_exists in Hex. destruct Hex as (u & Hin & Hu).
  apply andb_true_iff in Hu. destruct Hu as [_ Hd]. apply String.eqb_eq in Hd.
  exists u. repeat split; auto.
  unfold storage.find_user. intros Hnone.
  eapply List.find_none in Hnone; eauto. simpl in Hnone.
  rewrite Hd, String.eqb_refl in Hnone. discriminate.
Qed.

(** Register and look up: when [RegisterDevice] returns, [GetDeviceInfo]
    of the device finds it with the secret, the accepted commands, the
    push URL and the passcode flag of the registration; that holds for a
    new device and for one its user registers again. *)
Theorem RegisterDevice_then_GetDeviceInfo
    (userid : string) (dev : Device) (w : World) (devId : string) (e : error) (w' : World) :
  ID dev <> "" ->
  mapped_devices_have_info (db w) ->
  storage.RegisterDevice userid dev w = Ok ((devId, e), w') ->
  devId = ID dev /\ e = None /\
  exists d w'',
    storage.GetDeviceInfo (ID dev) w' = Ok ((Some d, None), w'')
    /\ ID d = ID dev
    /\ Secret d = Secret dev
    /\ Accepts d = Accepts dev
    /\ PushUrl d = PushUrl dev
    /\ HasPasscode d = HasPasscode dev.
Proof.
  intros Hid Hcons. unfold storage.RegisterDevice, storage.GetDeviceInfo. monad.
  destruct (String.eqb (ID dev) "") eqn:E0; [apply String.eqb_eq in E0; congruence|].
  destruct (execFails (faults w)) eqn:He; [intros E; inversion E|].
  destruct (existsb _ (userToDeviceMap (db w))) eqn:Em.
  - intros E; inversion E; subst; simpl. rewrite He. simpl.
    destruct (find_user_of_mapping _ _ _ Em) as (u & Hin & Hd & Hfu).
    pose proof (Hcons u Hin) as Hfi. rewrite Hd in Hfi.
    destruct (storage.find_user (ID dev) (userToDeviceMap (db w))) as [u0|]; [|congruence].
    destruct (storage.find_info (ID dev) (deviceInfo (db w))) as [r0|] eqn:Er; [|congruence].
    rewrite (find_info_register dev (now w) _ r0 Er).
    apply find_info_In in Er. destruct Er as [_ Hr0].
    repeat split; auto.
    eexists _, _. split; [reflexivity|].
    unfold storage.register_row. rewrite Hr0, String.eqb_refl. simpl.
    repeat split; reflexivity.
  - destruct (existsb _ (deviceInfo (db w))) eqn:Ei; [intros E; inversion E|].
    intros E; inversion E; subst; simpl. rewrite He. simpl.
    match goal with
    | |- context [storage.find_info (ID dev) (deviceInfo (db w) ++ [?row])] =>
        rewrite (find_info_appended (ID dev) (deviceInfo (db w)) row Ei eq_refl)
    end.
    match goal with
    | |- context [storage.find_user (ID dev) (userToDeviceMap (db w) ++ [?row])] =>
        pose proof (find_user_appended (ID dev) (userToDeviceMap (db w)) row eq_refl) as Hfu;
        destruct (storage.find_user (ID dev) (userToDeviceMap (db w) ++ [row])) as [u0|];
          [|congruence]
    end.
    repeat split; auto.
    eexists _, _. split; [reflexivity|]. simpl. repeat split; reflexivity.
Qed.

Lemma In_insert_by_date u x l :
  In x (lookups.insert_by_date u l) <-> x = u \/ In x l.
Proof.
  induction l as [|v l IH]; simpl.
  - intuition.
  - destruct (ud_date u <? ud_date v); simpl; rewrite ?IH; intuition.
Qed.

Lemma In_order_by_date x l : In x (lookups.order_by_date l) <-> In x l.
Proof.
  induction l as [|u l IH]; simpl; [tauto|].
  rewrite In_insert_by_date, IH. intuition.
Qed.

(** The device list of a user holds exactly the devices mapped to that
    user: every mapped device is listed with its name, and no device of
    another user is. *)
Theorem GetDevicesForUser_lists_the_users_devices (userId : string) (w : World) :
  execFails (faults w) = false ->
  exists devices w',
    lookups.GetDevicesForUser userId w = Ok ((devices, None), w')
    /\ db w' = db w
    /\ forall id name,
         In {| lookups.dl_ID := id; lookups.dl_Name := name |} devices
         <-> exists u, In u (userToDeviceMap (db w))
                       /\ ud_userId u = userId /\ ud_deviceId u = id /\ ud_name u = name.
Proof.
  intros He. unfold lookups.GetDevicesForUser. monad. rewrite He.
  eexists _, _. split; [reflexivity|]. split; [reflexivity|].
  intros id name. rewrite in_map_iff. split.
  - intros (u & Hu & Hin). apply In_order_by_date, List.filter_In in Hin.
    destruct Hin as [Hin Hq]. apply String.eqb_eq in Hq.
    inversion Hu; subst. exists u. auto.
  - intros (u & Hin & Hq & <- & <-). exists u. split; auto.
    apply In_order_by_date, List.filter_In. split; auto. now apply String.eqb_eq.
Qed.

(** [GcPosition] is not per device: whatever device it is called for,
    it removes the positions older than the expiry time of every
    device and keeps all the others. *)
Theorem GcPosition_removes_stale_positions_of_every_device
    (devId devId' : string) (w : World) :
  execFails (faults w) = false ->
  exists w',
    storage.GcPosition devId w = Ok (None, w')
    /\ storage.GcPosition devId' w = Ok (None, w')
    /\ forall r, In r (position (db w'))
                 <-> In r (position (db w)) /\ now w - defExpry w <= po_time r.
Proof.
  intros He. unfold storage.GcPosition. monad. rewrite He.
  eexists. split; [reflexivity|]. split; [reflexivity|]. simpl.
  intros r. rewrite List.filter_In.
  destruct (po_time r <? now w - defExpry w) eqn:E; simpl;
    [apply Z.ltb_lt in E | apply Z.ltb_ge in E]; intuition (try discriminate; try lia).
Qed.

Lemma find_info_map devId (f : deviceInfoRow -> deviceInfoRow) l :
  (forall r, di_deviceId (f r) = di_deviceId r) ->
  storage.find_info devId (map f l) = option_map f (storage.find_info devId l).
Proof.
  intros Hf. unfold storage.find_info. induction l as [|a l IH]; simpl; [reflexivity|].
  rewrite Hf. destruct (String.eqb (di_deviceId a) devId); auto.
Qed.

(** Set the passcode flag and look up: after [SetDeviceLock] of a known
    device, [GetDeviceInfo] reports the new flag, with the secret, the
    accepted commands and the push URL the device had; the rows of the
    other devices are not changed. *)
Theorem SetDeviceLock_then_GetDeviceInfo
    (devId : string) (state : bool) (w : World) (u : userToDeviceRow) (r : deviceInfoRow) :
  execFails (faults w) = false ->
  storage.find_user devId (userToDeviceMap (db w)) = Some u ->
  storage.find_info devId (deviceInfo (db w)) = Some r ->
  exists w1 d w2,
    storage.SetDeviceLock devId state w = Ok (None, w1)
    /\ storage.GetDeviceInfo devId w1 = Ok ((Some d, None), w2)
    /\ HasPasscode d = state
    /\ Secret d = di_hawkSecret r
    /\ Accepts d = di_accepts r
    /\ PushUrl d = di_pushUrl r
    /\ forall x, In x (deviceInfo (db w)) -> di_deviceId x <> devId ->
                 In x (deviceInfo (db w1)).
Proof.
  intros He Hu Hi. unfold storage.SetDeviceLock, storage.GetDeviceInfo. monad.
  rewrite He.
  eexists _, _, _. split; [reflexivity|]. simpl. rewrite He, Hu.
  rewrite (find_info_map devId (storage.lock_row devId state (now w)))
    by (intros x; unfold storage.lock_row; destruct (String.eqb _ _); reflexivity).
  rewrite Hi. simpl.
  apply find_info_In in Hi. destruct Hi as [_ Hid].
  split; [reflexivity|].
  assert (L : storage.lock_row devId state (now w) r
              = {| di_deviceId := di_deviceId r; di_lockable := state;
                   di_loggedin := di_loggedin r; di_lastExchange := now w;
                   di_hawkSecret := di_hawkSecret r; di_pushUrl := di_pushUrl r;
                   di_accepts := di_accepts r; di_accesstoken := di_accesstoken r |}).
  { unfold storage.lock_row. now rewrite Hid, String.eqb_refl. }
  rewrite L. simpl.
  do 4 (split; [reflexivity|]).
  intros x Hin Hne. apply in_map_iff. exists x. split; auto.
  unfold storage.lock_row.
  destruct (String.eqb (di_deviceId x) devId) eqn:E; auto.
  apply String.eqb_eq in E. congruence.
Qed.

(** Set the access token and look up: after [SetAccessToken] of a known
    device, [GetDeviceInfo] returns the device with that token and with
    the secret it had. *)
Theorem SetAccessToken_then_GetDeviceInfo
    (devId token : string) (w : World) (u : userToDeviceRow) (r : deviceInfoRow) :
  execFails (faults w) = false ->
  storage.find_user devId (userToDeviceMap (db w)) = Some u ->
  storage.find_info devId (deviceInfo (db w)) = Some r ->
  exists w1 d w2,
    lookups.SetAccessToken devId token w = Ok (None, w1)
    /\ storage.GetDeviceInfo devId w1 = Ok ((Some d, None), w2)
    /\ AccessToken d = token
    /\ Secret d = di_hawkSecret r
    /\ HasPasscode d = di_lockable r.
Proof.
  intros He Hu Hi. unfold lookups.SetAccessToken, storage.GetDeviceInfo. monad.
  rewrite He.
  eexists _, _, _. split; [reflexivity|]. simpl. rewrite He, Hu.
  rewrite (find_info_map devId (lookups.token_row devId token (now w)))
    by (intros x; unfold lookups.token_row; destruct (String.eqb _ _); reflexivity).
  rewrite Hi. simpl.
  apply find_info_In in Hi. destruct Hi as [_ Hid].
  split; [reflexivity|].
  unfold lookups.token_row. rewrite Hid, String.eqb_refl. simpl.
  repeat split; reflexivity.
Qed.

End PositionsAndDevices.

(** * The nonces *)

Section NonceProperties.
Variable md5hex : string -> string.

Lemma SplitN_dot_dotless key rest :
  dotless key = true ->
  nonces.SplitN_dot (key +:+ "." +:+ rest) = (key, Some rest).
Proof.
  induction key as [|a key IH]; simpl; intros Hk; [reflexivity|].
  apply andb_true_iff in Hk. destruct Hk as [Ha Hk].
  destruct (Ascii.eqb a ".") eqn:E; [discriminate|].
  now rewrite (IH Hk).
Qed.

Lemma find_key_unused key table :
  key_unused key table ->
  List.find (fun r => String.eqb (nonces.no_key r) key) table = None.
Proof.
  intros Hu. induction table as [|a l IH]; simpl; [reflexivity|].
  destruct (String.eqb (nonces.no_key a) key) eqn:E.
  - apply String.eqb_eq in E. exfalso. apply (Hu a); simpl; auto.
  - apply IH. intros r Hr. apply Hu. simpl; auto.
Qed.

Lemma key_unused_gc key t table :
  key_unused key table -> key_unused key (nonces.gc t table).
Proof.
  intros Hu r Hr. apply List.filter_In in Hr. apply Hu, Hr.
Qed.

Lemma key_unused_deleted key table :
  key_unused key (List.filter (fun x => negb (String.eqb (nonces.no_key x) key)) table).
Proof.
  intros r Hr. apply List.filter_In in Hr. destruct Hr as [_ Hr].
  intros Q. rewrite Q, String.eqb_refl in Hr. discriminate.
Qed.

Lemma find_key_appended key table row :
  key_unused key table -> nonces.no_key row = key ->
  List.find (fun r => String.eqb (nonces.no_key r) key) (table ++ [row]) = Some row.
Proof.
  intros Hu Hk. induction table as [|a l IH]; simpl.
  - now rewrite Hk, String.eqb_refl.
  - destruct (String.eqb (nonces.no_key a) key) eqn:E.
    + apply String.eqb_eq in E. exfalso. apply (Hu a); simpl; auto.
    + apply IH. intros r Hr. apply Hu. simpl; auto.
Qed.

(** A nonce is good once: a nonce that [GetNonce] issued at time [t]
    under a fresh key passes [CheckNonce] at any time up to five minutes
    later, and fails every check after that one. *)
Theorem nonce_is_good_once
    (key val : string) (t t1 t2 : Z) (table : list nonces.nonceRow) :
  dotless key = true ->
  key_unused key table ->
  t1 - 300 <= t ->
  exists nonce table0 table1 table2,
    nonces.GetNonce md5hex false key val t table = (nonce, None, table0)
    /\ nonces.CheckNonce md5hex false nonce t1 table0 = Ok (true, None, table1)
    /\ nonces.CheckNonce md5hex false nonce t2 table1 = Ok (false, None, table2).
Proof.
  intros Hk Hu Ht. unfold nonces.GetNonce, nonces.CheckNonce.
  eexists _, _, _, _. split; [reflexivity|].
  rewrite (SplitN_dot_dotless key _ Hk).
  assert (G : nonces.gc t1 (table ++ [{| nonces.no_key := key; nonces.no_val := val;
                                         nonces.no_time := t |}])
              = (nonces.gc t1 table ++ [{| nonces.no_key := key; nonces.no_val := val;
                                           nonces.no_time := t |}])%list).
  { unfold nonces.gc. rewrite List.filter_app. simpl.
    destruct (t <? t1 - 300) eqn:E; [apply Z.ltb_lt in E; lia|reflexivity]. }
  rewrite G.
  erewrite find_key_appended; [|apply key_unused_gc, Hu|reflexivity].
  simpl. rewrite String.eqb_refl. split; [reflexivity|].
  rewrite (find_key_unused key); [reflexivity|].
  apply key_unused_gc, key_unused_deleted.
Qed.

(** A nonce expires: checked more than five minutes after it was issued,
    it fails, and the check has removed it from the table. *)
Theorem nonce_expires
    (key val : string) (t t1 : Z) (table : list nonces.nonceRow) :
  dotless key = true ->
  key_unused key table ->
  t < t1 - 300 ->
  exists nonce table0,
    nonces.GetNonce md5hex false key val t table = (nonce, None, table0)
    /\ nonces.CheckNonce md5hex false nonce t1 table0
       = Ok (false, None, nonces.gc t1 table).
Proof.
  intros Hk Hu Ht. unfold nonces.GetNonce, nonces.CheckNonce.
  eexists _, _. split; [reflexivity|].
  rewrite (SplitN_dot_dotless key _ Hk).
  assert (G : nonces.gc t1 (table ++ [{| nonces.no_key := key; nonces.no_val := val;
                                         nonces.no_time := t |}])
              = nonces.gc t1 table).
  { unfold nonces.gc. rewrite List.filter_app. simpl.
    destruct (t <? t1 - 300) eqn:E; [apply app_nil_r|apply Z.ltb_ge in E; lia]. }
  rewrite G.
  now rewrite (find_key_unused key _ (key_unused_gc key t1 table Hu)).
Qed.

(** A check uses the key up whatever its outcome: after [CheckNonce] of
    a nonce [key.sig] has returned, with the right signature or a wrong
    one, no nonce of that key is left and every later check of that key
    fails. *)
Theorem CheckNonce_uses_the_key_up
    (key sig sig' : string) (t t' : Z) (table table' : list nonces.nonceRow)
    (ok : bool) (e : error) :
  dotless key = true ->
  nonces.CheckNonce md5hex false (key +:+ "." +:+ sig) t table = Ok (ok, e, table') ->
  key_unused key table'
  /\ exists table'',
       nonces.CheckNonce md5hex false (key +:+ "." +:+ sig') t' table'
       = Ok (false, None, table'').
Proof.
  intros Hk. unfold nonces.CheckNonce.
  rewrite !(SplitN_dot_dotless key _ Hk). intros Hc.
  assert (U : key_unused key table').
  { revert Hc. destruct (List.find (fun r => String.eqb (nonces.no_key r) key) (nonces.gc t table))
      as [r|] eqn:F; intros E; inversion E; subst.
    - apply key_unused_deleted.
    - intros r Hr Q. eapply List.find_none in F; eauto. simpl in F.
      rewrite Q, String.eqb_refl in F. discriminate. }
  split; [exact U|].
  rewrite (find_key_unused key _ (key_unused_gc key t' table' U)).
  eexists. reflexivity.
Qed.

End NonceProperties.

(** * Further properties of the handlers *)

Section QueueFurther.
Context `{Externals}.
Variable config : MzConfig.

Lemma StoreCommand_frame devId command cType w e w' :
  storage.StoreCommand devId command cType w = Ok (e, w') ->
  deviceInfo (db w') = deviceInfo (db w)
  /\ userToDeviceMap (db w') = userToDeviceMap (db w)
  /\ position (db w') = position (db w)
  /\ faults w' = faults w /\ now w' = now w.
Proof.
  unfold storage.StoreCommand. monad.
  destruct (execFails (faults w)); [intros E; inversion E; subst; simpl; auto|].
  destruct (_ =? 0); intros E; inversion E; subst; simpl; auto.
Qed.

Lemma StoreCommand_returns devId command cType w :
  execFails (faults w) = false ->
  exists w', storage.StoreCommand devId command cType w = Ok (None, w').
Proof.
  intros He. unfold storage.StoreCommand. monad. rewrite He.
  destruct (_ =? 0); eauto.
Qed.

(** [Queue] from [json.Marshal] on always returns, with the argument
    map and the reply map it was given. *)
Lemma Queue_store_returns devRec c a rargs rep w :
  exists st e w', wmf.Queue_store devRec c a rargs rep w = Ok ((st, e, a, rep), w').
Proof.
  unfold wmf.Queue_store, storage.Open, storage.StoreCommand, wmf.SendPush.
  destruct (Marshal (VMap [(c, VMap rargs)])); monad; [|eauto].
  destruct (openFails (faults w)); simpl; [eauto|].
  destruct (execFails (faults w)); simpl; [eauto|].
  destruct (_ =? 0); simpl; destruct (pushFails (faults w)); eauto.
Qed.

(** With a working store, [Queue] from [json.Marshal] on stores the
    envelope and then pushes; the status tells how the push went. *)
Lemma Queue_store_stores devRec c a rargs rep w fixed :
  openFails (faults w) = false ->
  execFails (faults w) = false ->
  Marshal (VMap [(c, VMap rargs)]) = Some fixed ->
  exists w0 w1 w',
    db w0 = db w /\ now w0 = now w /\ faults w0 = faults w
    /\ storage.StoreCommand (ID devRec) fixed c w0 = Ok (None, w1)
    /\ wmf.Queue_store devRec c a rargs rep w
       = Ok (if pushFails (faults w)
             then (wmf.StatusServiceUnavailable, Some (GoString.quoted "Server Error"), a, rep)
             else (wmf.StatusOK, None, a, rep), w')
    /\ db w' = db w1 /\ faults w' = faults w /\ now w' = now w.
Proof.
  intros Ho He EM. unfold wmf.Queue_store. rewrite EM.
  unfold storage.Open, wmf.SendPush. monad. rewrite Ho.
  set (w0 := with_trace (trace w ++ [EvStorage "Open"]) w).
  destruct (StoreCommand_returns (ID devRec) fixed c w0 He) as (w1 & E1).
  destruct (StoreCommand_frame _ _ _ _ _ _ E1) as (_ & _ & _ & F1 & N1).
  rewrite E1. simpl. rewrite F1. simpl.
  exists w0, w1.
  destruct (pushFails (faults w)); eexists; repeat split; auto.
Qed.

(** A call of [Queue] for an accepted code that does not end in
    "Invalid Command" has run the statements from [json.Marshal] on,
    with the arguments the code asks for. *)
Lemma Queue_known_code devRec cmd0 rest args rep w st e a r w' :
  GoString.Contains (Accepts devRec) (code_of cmd0) = true ->
  wmf.Queue config devRec (String cmd0 rest) args rep w = Ok ((st, e, a, r), w') ->
  st <> wmf.StatusBadRequest \/ e = None ->
  wmf.Queue_store devRec (code_of cmd0) a (queued_args (code_of cmd0) a) rep w
  = Ok ((st, e, a, r), w').
Proof.
  intros Hacc. unfold wmf.Queue. fold (code_of cmd0). rewrite Hacc. simpl.
  set (c := code_of cmd0) in *. unfold queued_args.
  destruct (String.eqb c "l") eqn:El.
  - apply String.eqb_eq in El.
    unfold bind at 1. unfold lift at 1.
    destruct (wmf.Queue_lock_code config args) as [r1|]; [|intros E; inversion E].
    unfold bind at 1. unfold lift at 1.
    destruct (wmf.Queue_lock_message r1) as [r2|]; [|intros E; inversion E].
    intros E _.
    destruct (Queue_store_returns devRec c r2 r2 rep w) as (st0 & e0 & w0 & E0).
    assert (Ee : String.eqb c "e" = false) by (rewrite El; reflexivity).
    rewrite Ee.
    rewrite E0 in E. inversion E; subst. exact E0.
  - destruct (String.eqb c "r" || String.eqb c "t") eqn:Ert; simpl.
    + intros E _.
      destruct (Queue_store_returns devRec c (wmf.Queue_distance config c args)
                  (wmf.Queue_distance config c args) rep w) as (st0 & e0 & w0 & E0).
      destruct (String.eqb c "e") eqn:Ee;
        [apply String.eqb_eq in Ee; rewrite Ee in Ert; discriminate|].
      rewrite E0 in E. inversion E; subst. exact E0.
    + destruct (String.eqb c "e") eqn:Ee.
      * intros E _.
        destruct (Queue_store_returns devRec c args [] rep w) as (st0 & e0 & w0 & E0).
        rewrite E0 in E. inversion E; subst. exact E0.
      * monad. intros E [Hst | He]; inversion E; subst; [now elim Hst|discriminate].
Qed.

(** A command the device accepts but [Queue] has no case for (any code
    other than l, r, t and e) is answered with 400 and "Invalid
    Command"; nothing is stored or pushed and no map is changed. *)
Theorem Queue_unknown_code_is_bad_request
    (devRec : Device) (cmd0 : ascii) (rest : string) (args rep : replyType) (w : World) :
  GoString.Contains (Accepts devRec) (code_of cmd0) = true ->
  ~ In (code_of cmd0) ["l"; "r"; "t"; "e"] ->
  wmf.Queue config devRec (String cmd0 rest) args rep w
  = Ok ((400, Some (GoString.quoted "Invalid Command"), args, rep), w).
Proof.
  intros Hacc Hno. unfold wmf.Queue. fold (code_of cmd0). rewrite Hacc. simpl.
  destruct (String.eqb (code_of cmd0) "l") eqn:El;
    [apply String.eqb_eq in El; elim Hno; rewrite El; simpl; auto|].
  destruct (String.eqb (code_of cmd0) "r") eqn:Er;
    [apply String.eqb_eq in Er; elim Hno; rewrite Er; simpl; auto|].
  destruct (String.eqb (code_of cmd0) "t") eqn:Et;
    [apply String.eqb_eq in Et; elim Hno; rewrite Et; simpl; auto|].
  destruct (String.eqb (code_of cmd0) "e") eqn:Ee;
    [apply String.eqb_eq in Ee; elim Hno; rewrite Ee; simpl; auto|].
  reflexivity.
Qed.

(** Ring and track always return, whatever the JSON shape of the
    distance [d]: the [d] that is stored and handed back is an integer
    between 0 and the configured maximum, a request without [d] keeps
    its arguments, and no other argument is changed. *)
Theorem Queue_ring_track_distance
    (devRec : Device) (cmd0 : ascii) (rest : string) (args rep : replyType) (w : World) :
  GoString.Contains (Accepts devRec) (code_of cmd0) = true ->
  code_of cmd0 = "r" \/ code_of cmd0 = "t" ->
  0 <= wmf.config_max config ("cmd." +:+ code_of cmd0 +:+ ".max") "10500" 10500 ->
  exists st e args' w',
    wmf.Queue config devRec (String cmd0 rest) args rep w = Ok ((st, e, args', rep), w')
    /\ (mget "d" args = None -> args' = args)
    /\ (forall v, mget "d" args = Some v ->
          exists n, mget "d" args' = Some (VInt64 n)
                    /\ 0 <= n <= wmf.config_max config
                                   ("cmd." +:+ code_of cmd0 +:+ ".max") "10500" 10500)
    /\ (forall k, k <> "d" -> mget k args' = mget k args).
Proof.
  intros Hacc Hc Hmax. unfold wmf.Queue. fold (code_of cmd0). rewrite Hacc. simpl.
  set (c := code_of cmd0) in *.
  assert (El : String.eqb c "l" = false).
  { destruct Hc as [-> | ->]; reflexivity. }
  assert (Ert : String.eqb c "r" || String.eqb c "t" = true).
  { destruct Hc as [-> | ->]; reflexivity. }
  rewrite El, Ert.
  destruct (Queue_store_returns devRec c (wmf.Queue_distance config c args)
              (wmf.Queue_distance config c args) rep w) as (st & e & w' & E).
  exists st, e, (wmf.Queue_distance config c args), w'. split; [exact E|].
  unfold wmf.Queue_distance.
  destruct (mget "d" args) as [v|] eqn:Ed.
  - split; [discriminate|]. split.
    + intros v' _. eexists. split; [apply mget_mset_eq|].
      apply rangeCheck_bounds. exact Hmax.
    + intros k Hk. apply mget_mset_ne. congruence.
  - split; [reflexivity|]. split; [discriminate|reflexivity].
Qed.

(** Erase takes no arguments: whatever the request sends with it, the
    call returns the arguments untouched and, with a working store,
    the envelope left for the device is that of an empty argument
    map. *)
Theorem Queue_erase_sends_no_arguments
    (devRec : Device) (cmd0 : ascii) (rest : string) (args rep : replyType) (w : World)
    (fixed : string) :
  GoString.Contains (Accepts devRec) (code_of cmd0) = true ->
  code_of cmd0 = "e" ->
  openFails (faults w) = false ->
  execFails (faults w) = false ->
  Marshal (VMap [("e", VMap [])]) = Some fixed ->
  exists st e w',
    wmf.Queue config devRec (String cmd0 rest) args rep w = Ok ((st, e, args, rep), w')
    /\ pending_of (ID devRec) "e" (db w') <> []
    /\ forall row, In row (pending_of (ID devRec) "e" (db w')) -> pc_cmd row = fixed.
Proof.
  intros Hacc Hc Ho He EM. unfold wmf.Queue. fold (code_of cmd0). rewrite Hacc, Hc. simpl.
  destruct (Queue_store_stores devRec "e" args [] rep w fixed Ho He EM)
    as (w0 & w1 & w' & D0 & N0 & F0 & ES & EQ & D1 & _).
  pose proof (StoreCommand_rows _ _ _ _ _ _ ES eq_refl) as R.
  rewrite <- D1 in R.
  destruct (pushFails (faults w)); (eexists _, _, w'; split; [exact EQ|]);
    rewrite R; (destruct (pending_of (ID devRec) "e" (db w0)) as [|x l] eqn:P;
    [split; [discriminate|]; intros row [<- | []]; reflexivity|]);
    (split; [discriminate|]);
    intros row Hin; apply in_map_iff in Hin; destruct Hin as (r0 & <- & Hin);
    apply pending_update_cmd;
    (assert (Hf : In r0 (pending_of (ID devRec) "e" (db w0))) by (rewrite P; exact Hin));
    apply List.filter_In in Hf; apply Hf.
Qed.

(** The command is stored before the push is tried: with a working
    store, a call for a code [Queue] knows leaves the envelope of its
    arguments for the device whether or not the push succeeds, and a
    failed push is answered with 503 although the command stays
    queued. *)
Theorem Queue_stores_before_it_pushes
    (devRec : Device) (cmd0 : ascii) (rest : string) (args rep : replyType) (w : World)
    (st : Z) (e : error) (a r : replyType) (w' : World) (fixed : string) :
  GoString.Contains (Accepts devRec) (code_of cmd0) = true ->
  openFails (faults w) = false ->
  execFails (faults w) = false ->
  wmf.Queue config devRec (String cmd0 rest) args rep w = Ok ((st, e, a, r), w') ->
  st <> 400 ->
  Marshal (VMap [(code_of cmd0, VMap (queued_args (code_of cmd0) a))]) = Some fixed ->
  (st, e) = (if pushFails (faults w)
             then (503, Some (GoString.quoted "Server Error"))
             else (200, None))
  /\ pending_of (ID devRec) (code_of cmd0) (db w') <> []
  /\ forall row, In row (pending_of (ID devRec) (code_of cmd0) (db w')) -> pc_cmd row = fixed.
Proof.
  intros Hacc Ho He EQ Hst EM.
  apply Queue_known_code in EQ; auto.
  destruct (Queue_store_stores devRec (code_of cmd0) a _ rep w fixed Ho He EM)
    as (w0 & w1 & w2 & D0 & N0 & F0 & ES & EQ' & D1 & _).
  rewrite EQ' in EQ.
  pose proof (StoreCommand_rows _ _ _ _ _ _ ES eq_refl) as R.
  rewrite <- D1 in R.
  assert (Hw : w2 = w') by (inversion EQ; reflexivity). subst w2.
  split.
  { destruct (pushFails (faults w)); inversion EQ; reflexivity. }
  rewrite R.
  destruct (pending_of (ID devRec) (code_of cmd0) (db w0)) as [|x l] eqn:P.
  - split; [discriminate|]. intros row [<- | []]. reflexivity.
  - split; [discriminate|].
    intros row Hin. apply in_map_iff in Hin. destruct Hin as (r0 & <- & Hin).
    apply pending_update_cmd.
    assert (Hf : In r0 (pending_of (ID devRec) (code_of cmd0) (db w0)))
      by (rewrite P; exact Hin).
    apply List.filter_In in Hf. apply Hf.
Qed.

Lemma Sprintf04d_table :
  forallb (fun n =>
             let code := GoString.Sprintf04d (Z.of_nat n) in
             (String.length code =? 4)%nat
             && String.eqb (digitsOnly code) code
             && match GoString.ParseInt code with
                | Some m => m =? Z.of_nat n
                | None => false
                end)
    (seq 0 (Z.to_nat 10000)) = true.
Proof. vm_compute. reflexivity. Qed.

(** The lock code never locks the user out: whatever string the request
    sends as [c], and for every configured maximum up to 9999, [Queue]
    replaces it by exactly four decimal digits that read as a number
    between 0 and the maximum. *)
Theorem Queue_lock_code_is_four_digits (args : replyType) (s : string) :
  mget "c" args = Some (VString s) ->
  0 <= wmf.config_max config "cmd.c.max" "9999" 9999 <= 9999 ->
  exists code n,
    wmf.Queue_lock_code config args = Ok (mset "c" (VString code) args)
    /\ String.length code = 4%nat
    /\ digitsOnly code = code
    /\ GoString.ParseInt code = Some n
    /\ 0 <= n <= wmf.config_max config "cmd.c.max" "9999" 9999.
Proof.
  intros Hc [Hlo Hhi]. unfold wmf.Queue_lock_code. rewrite Hc.
  set (max := wmf.config_max config "cmd.c.max" "9999" 9999) in *.
  set (n := wmf.rangeCheck (digitsOnly (GoString.take (minInt 4 (GoString.len s)) s)) 0 max).
  assert (B : 0 <= n <= max) by (apply rangeCheck_bounds; exact Hlo).
  pose proof Sprintf04d_table as F. rewrite forallb_forall in F.
  specialize (F (Z.to_nat n)). rewrite Z2Nat.id in F by lia.
  assert (Hin : In (Z.to_nat n) (seq 0 (Z.to_nat 10000))) by (apply in_seq; lia).
  specialize (F Hin). cbv zeta in F.
  apply andb_true_iff in F. destruct F as [F F3].
  apply andb_true_iff in F. destruct F as [F1 F2].
  apply Nat.eqb_eq in F1. apply String.eqb_eq in F2.
  destruct (GoString.ParseInt (GoString.Sprintf04d n)) as [m|] eqn:EP; [|discriminate].
  apply Z.eqb_eq in F3. subst m.
  exists (GoString.Sprintf04d n), n. repeat split; auto; lia.
Qed.

End QueueFurther.

Section CmdFurther.
Context `{Externals}.
Variable config : MzConfig.

(** A request of [Cmd] without a device id in its path, or for a device
    the store does not know, is answered with 401 whether or not Hawk
    is switched on, before the body is read; the database is left as it
    was. *)
Theorem Cmd_unknown_device_unauthorized (req : Request) (w : World) :
  openFails (faults w) = false ->
  getDevFromUrl (URLPath req) = ""
  \/ ~ known_device (getDevFromUrl (URLPath req)) (db w) ->
  exists resp w',
    wmf.Cmd config req w = Ok (resp, w')
    /\ status_of resp = 401
    /\ db w' = db w.
Proof.
  intros Ho Hun. unfold wmf.Cmd, storage.Open. monad. rewrite Ho.
  destruct (String.eqb (getDevFromUrl (URLPath req)) "") eqn:Eid.
  { eexists _, _. repeat split; reflexivity. }
  destruct Hun as [Hid | Hun]; [rewrite Hid in Eid; discriminate|].
  unfold storage.GetDeviceInfo. monad.
  destruct (execFails (faults w)).
  { eexists _, _. repeat split; reflexivity. }
  unfold known_device in Hun.
  destruct (storage.find_user (getDevFromUrl (URLPath req)) (userToDeviceMap (db w)));
    [|eexists _, _; repeat split; reflexivity].
  destruct (storage.find_info (getDevFromUrl (URLPath req)) (deviceInfo (db w)));
    [|eexists _, _; repeat split; reflexivity].
  exfalso. apply Hun. split; discriminate.
Qed.

(** From the web front end to the device: a command that [Queue]
    accepted for a device with nothing pending is the body of the
    answer to the next authenticated poll of that device, at whatever
    time it comes, and is then gone from the queue. *)
Theorem Queue_then_Cmd_delivers
    (devRec : Device) (cmd0 : ascii) (rest : string) (args rep : replyType) (w : World)
    (st : Z) (a r : replyType) (w1 : World) (fixed : string) (req : Request) (t : Z) :
  ID devRec = getDevFromUrl (URLPath req) ->
  ID devRec <> "" ->
  GoString.Contains (Accepts devRec) (code_of cmd0) = true ->
  openFails (faults w) = false ->
  execFails (faults w) = false ->
  known_device (ID devRec) (db w) ->
  authenticated config req (db w) ->
  bare_poll req ->
  pending_for (ID devRec) (db w) = [] ->
  wmf.Queue config devRec (String cmd0 rest) args rep w = Ok ((st, None, a, r), w1) ->
  Marshal (VMap [(code_of cmd0, VMap (queued_args (code_of cmd0) a))]) = Some fixed ->
  2 <= GoString.len fixed ->
  exists resp w2,
    wmf.Cmd config req (at_time t w1) = Ok (resp, w2)
    /\ status_of resp = 200
    /\ written resp = fixed
    /\ pending_for (ID devRec) (db w2) = [].
Proof.
  intros Hid Hne Hacc Ho He [Hku Hki] Hauth Hbare Hempty EQ EM Hlen.
  apply Queue_known_code in EQ; auto.
  destruct (Queue_store_stores devRec (code_of cmd0) a
              (queued_args (code_of cmd0) a) rep w fixed Ho He EM)
    as (w0 & w1' & w2 & D0 & N0 & F0 & ES & EQ' & D1 & F1 & N1).
  rewrite EQ' in EQ.
  assert (Hw : w2 = w1) by (inversion EQ; reflexivity). subst w2.
  destruct (StoreCommand_inserts (ID devRec) fixed (code_of cmd0) w0)
    as (w1'' & ES' & P & _); [congruence| |].
  { rewrite D0. now apply pending_of_nil_of_pending_for. }
  rewrite ES in ES'. inversion ES'; subst w1''. clear ES'.
  destruct (StoreCommand_frame _ _ _ _ _ _ ES) as (DI & UM & _).
  assert (Q : pending_for (ID devRec) (db (at_time t w1))
              = [first_row (ID devRec) fixed (code_of cmd0) w0]).
  { simpl. unfold pending_for in *. rewrite D1, P, List.filter_app, D0, Hempty. simpl.
    now rewrite String.eqb_refl. }
  destruct (Cmd_bare_poll config req (at_time t w1))
    as (resp & w2 & EC & SC & WC & PC & _); simpl; auto; try congruence.
  { rewrite <- Hid. split; rewrite D1; [rewrite UM | rewrite DI]; rewrite D0; auto. }
  { destruct Hauth as [Hoff | Hgood]; [now left | right].
    intros r0 Hin. apply Hgood. rewrite <- D0, <- DI, <- D1. exact Hin. }
  rewrite <- Hid, Q in WC, PC. simpl in WC, PC.
  destruct (GoString.len fixed <? 2) eqn:El; [lia|].
  exists resp, w2. repeat split; auto.
  unfold pending_for in *. rewrite PC, pending_for_filter.
  simpl in Q. rewrite Q. simpl. now rewrite Z.eqb_refl.
Qed.

End CmdFurther.

Section ConnectionsFurther.
Context `{Externals}.
Variable config : MzConfig.

(** No connection is registered for a device the store does not know,
    or while the store cannot be opened: the handler returns without
    running the session, and the registry, the connections and the
    database are what they were. *)
Theorem WSSocketHandler_unknown_device_not_registered
    (Run : nat -> M unit) (ws : Conn) (w : World) :
  openFails (faults w) = true
  \/ ~ known_device (getDevFromUrl (URLPath (wsRequest ws))) (db w) ->
  exists w',
    wmf.WSSocketHandler Run ws w = Ok (tt, w')
    /\ Clients w' = Clients w
    /\ socks w' = socks w
    /\ db w' = db w.
Proof.
  intros Hun.
  unfold wmf.WSSocketHandler, wmf.WSSocketHandler_enter, storage.Open, storage.GetDeviceInfo.
  monad.
  destruct (openFails (faults w)) eqn:Ho; simpl.
  { eexists. repeat split; reflexivity. }
  destruct Hun as [Hun | Hun]; [discriminate|].
  destruct (execFails (faults w)); simpl.
  { eexists. repeat split; reflexivity. }
  unfold known_device in Hun.
  destruct (storage.find_user _ (userToDeviceMap (db w)));
    [|eexists; repeat split; reflexivity].
  destruct (storage.find_info _ (deviceInfo (db w)));
    [|eexists; repeat split; reflexivity].
  exfalso. apply Hun. split; discriminate.
Qed.

(** When the session of a registered connection ends without having
    touched the registry, the handler returns and the registry holds no
    entry for the device any more. *)
Theorem WSSocketHandler_leaves_no_entry
    (Run : nat -> M unit) (ws : Conn) (w w1 w2 : World) (deviceId : string) (sock : nat) :
  wmf.WSSocketHandler_enter ws w = Ok (Some (deviceId, sock), w1) ->
  Run sock w1 = Ok (tt, w2) ->
  Clients w2 = Clients w1 ->
  exists w',
    wmf.WSSocketHandler Run ws w = Ok (tt, w')
    /\ Clients w1 !! deviceId = Some sock
    /\ Clients w' = delete deviceId (Clients w)
    /\ socks w' = socks w2.
Proof.
  intros EE ER HC. unfold wmf.WSSocketHandler, wmf.WSSocketHandler_leave, wmf.rmClient.
  unfold bind. rewrite EE, ER.
  destruct (WSSocketHandler_enter_registered ws w deviceId sock w1 EE)
    as (new & _ & _ & HC1 & _).
  assert (L : Clients w2 !! deviceId = Some sock).
  { rewrite HC, HC1. apply lookup_insert_eq. }
  rewrite L.
  eexists. split; [reflexivity|]. simpl.
  split; [now rewrite <- HC|].
  split; [|reflexivity].
  rewrite HC, HC1. apply delete_insert_eq.
Qed.

(** A registration that proves nothing is refused: without an assertion
    in the body and without a Hawk header that matches, [Register]
    answers 401, for a new device id and for a known one, and the
    database is left as it was. *)
Theorem Register_without_credentials_unauthorized
    (req : Request) (buffer : replyType) (w : World) :
  openFails (faults w) = false ->
  GetFlag config "hawk.disabled" = false ->
  Decoded req = Some buffer ->
  mget "assert" buffer = None ->
  (forall v, mget "deviceid" buffer = Some v -> exists s, v = VString s) ->
  (forall secret, bad_signature secret req (Body req)) ->
  exists resp w',
    wmf.Register config req w = Ok (resp, w')
    /\ status_of resp = 401
    /\ db w' = db w.
Proof.
  intros Ho Hflag Hd Hassert Hshape Hbad.
  unfold wmf.Register, storage.Open. monad. rewrite Ho, Hd.
  set (w0 := with_trace (trace w ++ [EvStorage "Open"]) w).
  assert (HD : exists deviceid devRec w1,
             wmf.Register_deviceid buffer w0 = Ok ((deviceid, devRec), w1)
             /\ db w1 = db w).
  { unfold wmf.Register_deviceid, storage.GetDeviceInfo. monad.
    destruct (mget "deviceid" buffer) as [v|] eqn:Ev;
      [|eexists _, _, _; split; reflexivity].
    destruct (Hshape v eq_refl) as (s0 & ->).
    destruct s0 as [|b s0]; [eexists _, _, _; split; reflexivity|].
    subst w0. simpl.
    destruct (execFails (faults w)); simpl; [eexists _, _, _; split; reflexivity|].
    destruct (storage.find_user _ _); [destruct (storage.find_info _ _)|];
      eexists _, _, _; split; reflexivity. }
  destruct HD as (deviceid & devRec & w1 & ED & D1). rewrite ED.
  unfold wmf.Register_login. rewrite Hassert.
  destruct devRec as [dev|]; simpl.
  - rewrite verifyHawkHeader_bad by auto. simpl.
    eexists _, _. split; [reflexivity|]. split; [reflexivity|exact D1].
  - eexists _, _. split; [reflexivity|]. split; [reflexivity|exact D1].
Qed.

End ConnectionsFurther.

(** * The handlers of the web front end *)

Section WebProperties.
Context `{Externals}.
Variable config : MzConfig.
Variable MarshalDevice : option Device -> option string.

Lemma mget_mdelete_eq k m : mget k (web.mdelete k m) = None.
Proof.
  unfold web.mdelete. induction m as [|[k' v] m IH]; simpl; [reflexivity|].
  destruct (String.eqb k' k) eqn:E; simpl; [exact IH|].
  rewrite String.eqb_sym, E. exact IH.
Qed.

Lemma mget_mdelete_none k k' m : mget k m = None -> mget k (web.mdelete k' m) = None.
Proof.
  unfold web.mdelete. induction m as [|[k0 v] m IH]; simpl; [reflexivity|].
  destruct (String.eqb k k0) eqn:E; [discriminate|]. intros Hm.
  destruct (String.eqb k0 k'); simpl; [auto|]. rewrite E. auto.
Qed.

(** Signing out signs out: on the session values that [clearSession]
    leaves, a request without an assertion has no user, whatever the
    session held before. *)
Theorem clearSession_then_no_user (req : web.WebRequest) (values : replyType) :
  SessionValues (web.httpRequest req) = web.clearSession values ->
  web.SessionErr req = false ->
  web.FormAssertion req = "" ->
  web.getUser config req = ("", "", None)
  /\ web.getSessionInfo config req = Ok (None, Some web.ErrNoUser).
Proof.
  intros Hv Hs Ha.
  assert (G : web.getUser config req = ("", "", None)).
  { unfold web.getUser. rewrite Hs, Hv, Ha. unfold web.clearSession.
    rewrite (mget_mdelete_none web.SESSION_EMAIL web.SESSION_TOKEN)
      by apply mget_mdelete_eq.
    rewrite (mget_mdelete_none web.SESSION_USERID web.SESSION_TOKEN)
      by (do 2 apply mget_mdelete_none; apply mget_mdelete_eq).
    reflexivity. }
  split; [exact G|]. unfold web.getSessionInfo. rewrite G. reflexivity.
Qed.

(** [State] does not survive a visitor without a session: with no user
    in the session and no assertion, [getSessionInfo] returns a nil
    info with [ErrNoUser], which [State] lets pass, and the read of
    [sessionInfo.DeviceId] that follows panics. *)
Theorem State_panics_without_a_user (req : web.WebRequest) (w : World) :
  openFails (faults w) = false ->
  web.SessionErr req = false ->
  mget web.SESSION_EMAIL (SessionValues (web.httpRequest req)) = None ->
  mget web.SESSION_USERID (SessionValues (web.httpRequest req)) = None ->
  web.FormAssertion req = "" ->
  web.State config MarshalDevice req w = Panic storage.nil_deref.
Proof.
  intros Ho Hs He Hu Ha. unfold web.State, storage.Open. monad. rewrite Ho, Hs.
  unfold web.getSessionInfo, web.getUser. rewrite Hs, He, Hu, Ha. reflexivity.
Qed.

(** [State] does not ask whose device it is: for every user of the
    session, the answer is the stored record of the device of the URL,
    the owner's or not, and the user of the session is written into
    the session cookie. *)
Theorem State_answers_for_any_user
    (req : web.WebRequest) (w : World) (user : string)
    (u : userToDeviceRow) (r : deviceInfoRow) (reply : string) :
  openFails (faults w) = false ->
  execFails (faults w) = false ->
  web.SessionErr req = false ->
  mget web.SESSION_USERID (SessionValues (web.httpRequest req)) = Some (VString user) ->
  user <> "" ->
  (forall v, mget web.SESSION_TOKEN (SessionValues (web.httpRequest req)) = Some v ->
             exists token, v = VString token) ->
  storage.find_user (getDevFromUrl (URLPath (web.httpRequest req))) (userToDeviceMap (db w))
  = Some u ->
  storage.find_info (getDevFromUrl (URLPath (web.httpRequest req))) (deviceInfo (db w))
  = Some r ->
  MarshalDevice
    (Some {| ID := di_deviceId r; User := ud_userId u; Name := ud_name u;
             HasPasscode := di_lockable r;
             LoggedIn := negb (String.eqb (di_pushUrl r) "");
             Secret := di_hawkSecret r; PushUrl := di_pushUrl r;
             Pending := ""; LastExchange := di_lastExchange r;
             Accepts := di_accepts r; AccessToken := di_accesstoken r |}) = Some reply ->
  exists resp values w',
    web.State config MarshalDevice req w = Ok ((resp, web.Saved values), w')
    /\ status_of resp = 200
    /\ written resp = reply
    /\ mget web.SESSION_USERID values = Some (VString user)
    /\ db w' = db w.
Proof.
  intros Ho He Hs Hu Hne Ht Hfu Hfi HM.
  unfold web.State, storage.Open. monad. rewrite Ho, Hs.
  unfold web.getSessionInfo, web.getUser. rewrite Hs, Hu.
  assert (Eu : String.eqb user "" = false).
  { destruct (String.eqb user "") eqn:E; auto. apply String.eqb_eq in E. congruence. }
  assert (Ht' : mget web.SESSION_TOKEN (SessionValues (web.httpRequest req)) = None
                \/ exists token, mget web.SESSION_TOKEN (SessionValues (web.httpRequest req))
                                 = Some (VString token)).
  { destruct (mget web.SESSION_TOKEN (SessionValues (web.httpRequest req))) as [v|];
      [right|now left]. destruct (Ht v eq_refl) as (token & ->). eauto. }
  destruct Ht' as [Ht' | (token & Ht')]; rewrite Ht';
  destruct (mget web.SESSION_EMAIL (SessionValues (web.httpRequest req)))
    as [[| | |ru| | | |]|]; simpl; rewrite Eu; simpl;
    unfold storage.GetDeviceInfo; monad; rewrite He, Hfu, Hfi; simpl; rewrite HM;
    eexists _, _, _; (split; [reflexivity|]); simpl;
    (split; [reflexivity|]); (split; [reflexivity|]);
    (split; [|reflexivity]);
    rewrite !(mget_mset_ne _ web.SESSION_USERID) by discriminate;
    apply mget_mset_eq.
Qed.

(** The REST interface queues for the owner only: a signed-in user who
    asks for a device mapped to somebody else is answered with 401, the
    session is cleared and expired, and the store is only opened and
    asked for the device: nothing is stored or pushed. *)
Theorem RestQueue_foreign_device_unauthorized
    (req : web.WebRequest) (w : World) (user : string)
    (u : userToDeviceRow) (r : deviceInfoRow) :
  web.SessionErr req = false ->
  openFails (faults w) = false ->
  execFails (faults w) = false ->
  getDevFromUrl (URLPath (web.httpRequest req)) <> "" ->
  mget web.SESSION_USERID (SessionValues (web.httpRequest req)) = Some (VString user) ->
  user <> "" ->
  storage.find_user (getDevFromUrl (URLPath (web.httpRequest req))) (userToDeviceMap (db w))
  = Some u ->
  storage.find_info (getDevFromUrl (URLPath (web.httpRequest req))) (deviceInfo (db w))
  = Some r ->
  ud_userId u <> user ->
  exists resp w',
    web.RestQueue config req w
    = Ok ((resp, web.Expired (web.clearSession (SessionValues (web.httpRequest req)))), w')
    /\ status_of resp = 401
    /\ db w' = db w
    /\ trace w' = (trace w ++ [EvStorage "Open"; EvStorage "GetDeviceInfo"])%list.
Proof.
  intros Hs Ho He Hid Hu Hne Hfu Hfi Hown.
  unfold web.RestQueue, storage.Open. rewrite Hs. monad. rewrite Ho.
  destruct (String.eqb (getDevFromUrl (URLPath (web.httpRequest req))) "") eqn:Eid;
    [apply String.eqb_eq in Eid; congruence|].
  assert (Eu : String.eqb user "" = false).
  { destruct (String.eqb user "") eqn:E; auto. apply String.eqb_eq in E. congruence. }
  assert (Eo : String.eqb (ud_userId u) user = false).
  { destruct (String.eqb (ud_userId u) user) eqn:E; auto.
    apply String.eqb_eq in E. congruence. }
  unfold web.getUser. rewrite Hs, Hu.
  destruct (mget web.SESSION_EMAIL (SessionValues (web.httpRequest req)))
    as [[| | |ru| | | |]|]; simpl; rewrite Eu; simpl;
    unfold storage.GetDeviceInfo; monad; rewrite He, Hfu, Hfi; simpl; rewrite Eo; simpl;
    eexists _, _; (split; [reflexivity|]); simpl;
    (split; [reflexivity|]); (split; [reflexivity|]);
    now rewrite <- app_assoc.
Qed.

(** The REST interface queues for the owner: an erase command in the
    body of a request of the user the device is mapped to is stored for
    the device, as the envelope of an empty argument map whatever
    arguments came with it, and answered with 200 and the empty reply
    map. *)
Theorem RestQueue_queues_for_the_owner
    (req : web.WebRequest) (w : World) (user : string)
    (u : userToDeviceRow) (r : deviceInfoRow)
    (cmd0 : ascii) (rest : string) (rargs : replyType) (fixed repl : string) :
  web.SessionErr req = false ->
  openFails (faults w) = false ->
  execFails (faults w) = false ->
  pushFails (faults w) = false ->
  getDevFromUrl (URLPath (web.httpRequest req)) <> "" ->
  mget web.SESSION_USERID (SessionValues (web.httpRequest req)) = Some (VString user) ->
  user <> "" ->
  storage.find_user (getDevFromUrl (URLPath (web.httpRequest req))) (userToDeviceMap (db w))
  = Some u ->
  storage.find_info (getDevFromUrl (URLPath (web.httpRequest req))) (deviceInfo (db w))
  = Some r ->
  ud_userId u = user ->
  0 <= ContentLength (web.httpRequest req) ->
  BodyErr (web.httpRequest req) <> ReadFailed ->
  0 < BodyRead (web.httpRequest req) ->
  Decoded (web.httpRequest req) = Some [(String cmd0 rest, VMap rargs)] ->
  code_of cmd0 = "e" ->
  GoString.Contains (di_accepts r) "e" = true ->
  Marshal (VMap [("e", VMap [])]) = Some fixed ->
  Marshal (VMap []) = Some repl ->
  exists resp w',
    web.RestQueue config req w = Ok ((resp, web.NotSaved), w')
    /\ status_of resp = 200
    /\ written resp = repl
    /\ pending_of (di_deviceId r) "e" (db w') <> []
    /\ forall row, In row (pending_of (di_deviceId r) "e" (db w')) -> pc_cmd row = fixed.
Proof.
  intros Hs Ho He Hp Hid Hu Hne Hfu Hfi Hown Hcl Hrd Hlen Hdec Hc Hacc EM ER.
  unfold web.RestQueue, storage.Open. rewrite Hs. monad. rewrite Ho.
  destruct (String.eqb (getDevFromUrl (URLPath (web.httpRequest req))) "") eqn:Eid;
    [apply String.eqb_eq in Eid; congruence|].
  assert (Eu : String.eqb user "" = false).
  { destruct (String.eqb user "") eqn:E; auto. apply String.eqb_eq in E. congruence. }
  assert (Eo : String.eqb (ud_userId u) user = true) by now apply String.eqb_eq.
  assert (Ecl : (ContentLength (web.httpRequest req) <? 0) = false) by lia.
  assert (Eln : (BodyRead (web.httpRequest req) >? 0) = true) by lia.
  set (dev := {| ID := di_deviceId r; User := ud_userId u; Name := ud_name u;
                 HasPasscode := di_lockable r;
                 LoggedIn := negb (String.eqb (di_pushUrl r) "");
                 Secret := di_hawkSecret r; PushUrl := di_pushUrl r;
                 Pending := ""; LastExchange := di_lastExchange r;
                 Accepts := di_accepts r; AccessToken := di_accesstoken r |}).
  set (w0 := with_trace ((trace w ++ [EvStorage "Open"]) ++ [EvStorage "GetDeviceInfo"])
               (with_trace (trace w ++ [EvStorage "Open"]) w)).
  destruct (Queue_store_stores dev "e" rargs [] [] w0 fixed Ho He EM)
    as (w1 & w2 & w3 & D1 & N1 & F1 & ES & EQ & D3 & _).
  simpl in EQ. rewrite Hp in EQ.
  pose proof (StoreCommand_rows _ _ _ _ _ _ ES eq_refl) as R.
  rewrite <- D3 in R. change (ID dev) with (di_deviceId r) in R.
  assert (Q : wmf.Queue config dev (String cmd0 rest) rargs [] w0
              = Ok ((wmf.StatusOK, None, rargs, []), w3)).
  { unfold wmf.Queue. fold (code_of cmd0). rewrite Hc. simpl. rewrite Hacc. simpl.
    exact EQ. }
  assert (G : web.RestQueue_range config dev [(String cmd0 rest, VMap rargs)] [] w0
              = Ok (web.QueueDone [], w3)).
  { unfold web.RestQueue_range. unfold bind at 1. rewrite Q. reflexivity. }
  unfold web.getUser. rewrite Hs, Hu.
  destruct (mget web.SESSION_EMAIL (SessionValues (web.httpRequest req)))
    as [[| | |ru| | | |]|]; simpl; rewrite Eu; simpl;
    unfold storage.GetDeviceInfo, bind, ret, get, emit; simpl;
    rewrite He, Hfu, Hfi; simpl; rewrite Eo; simpl;
    rewrite Ecl, Eln, Hdec; fold dev; fold w0;
    (destruct (BodyErr (web.httpRequest req)); [| |congruence]);
    rewrite G; simpl; rewrite ER;
    (eexists _, w3; split; [reflexivity|]);
    (split; [reflexivity|]); (split; [reflexivity|]);
    rewrite R;
    (destruct (pending_of (di_deviceId r) "e" (db w1)) as [|x rows] eqn:P;
     [split; [discriminate|]; intros row [<- | []]; reflexivity|]);
    (split; [discriminate|]);
    intros row Hin; apply in_map_iff in Hin; destruct Hin as (r0 & <- & Hin);
    apply pending_update_cmd;
    (assert (Hf : In r0 (pending_of (di_deviceId r) "e" (db w1))) by (rewrite P; exact Hin));
    apply List.filter_In in Hf; apply Hf.
Qed.

(** [logReply] loses the error of [Touch]: for a reply that says
    [ok: true] and a store that opens, it returns nil also when the
    update of the last exchange failed and the database is unchanged. *)
Theorem logReply_loses_the_error_of_Touch
    (devId cmd : string) (args : replyType) (v : Value) (w : World) :
  mget "ok" args = Some v ->
  isTrue v = true ->
  openFails (faults w) = false ->
  execFails (faults w) = true ->
  exists e w1 w',
    storage.Touch devId w1 = Ok (Some e, w')
    /\ web.logReply devId cmd args w = Ok (None, w')
    /\ db w' = db w.
Proof.
  intros Hok Ht Ho He. unfold web.logReply, storage.Open, storage.Touch.
  rewrite Hok, Ht. monad. rewrite Ho. simpl. rewrite He.
  exists storage.ErrExec, (with_trace (trace w ++ [EvStorage "Open"]) w).
  simpl. rewrite He. eexists. repeat split; reflexivity.
Qed.

End WebProperties.

(** * Instances of the theorems on the examples *)

Section OnTheExamples.
Import Sample.
#[local] Existing Instance runtime.
#[local] Existing Instance externals.

Lemma Queue_unacceptable_command_witness :
  exists rep',
    wmf.Queue config phone "x" [] [] world0 = Ok ((wmf.StatusOK, None, [], rep'), world0)
    /\ mget "error" rep' = Some (VInt 422)
    /\ mget "cmd" rep' = Some (VString "x").
Proof.
  apply (Queue_unacceptable_command config phone "x"%char "" [] [] world0).
  reflexivity.
Defined.

Lemma Queue_twice_one_envelope_witness :
  exists row,
    pending_of (ID phone) (code_of "l"%char) (db world_relocked) = [row]
    /\ Marshal (VMap [(code_of "l"%char,
                        VMap (queued_args (code_of "l"%char) [("c", VString "0042")]))])
       = Some (pc_cmd row).
Proof.
  apply (Queue_twice_one_envelope config phone "l"%char "l"%char "ock" ""
           [("c", VString "1234")] [("c", VString "42")] []
           [("c", VString "1234")] [] [("c", VString "0042")] []
           wmf.StatusOK wmf.StatusOK world0 world_locked world_relocked);
    [reflexivity | reflexivity | simpl; lia
    | vm_compute; reflexivity | vm_compute; reflexivity].
Defined.

Lemma Queue_lock_code_normalized_witness :
  exists args' fixed w',
    wmf.Queue config phone "lock" [("c", VString "99999")] [] world0
      = Ok ((wmf.StatusOK, None, args', []), w')
    /\ mget "c" args' = Some (VString "9999")
    /\ Marshal (VMap [("l", VMap args')]) = Some fixed
    /\ pending_of (ID phone) "l" (db w') <> []
    /\ forall row, In row (pending_of (ID phone) "l" (db w')) -> pc_cmd row = fixed.
Proof.
  apply (Queue_lock_code_normalized config phone "l"%char "ock"
           [("c", VString "99999")] [] world0);
    try reflexivity.
  - intros v E. discriminate E.
  - intros a. eexists. reflexivity.
Defined.

Lemma Queue_panics_on_numeric_lock_code_witness :
  json_decoded (VMap [("c", VFloat64 (whole 1234))])
  /\ wmf.Queue config phone "lock" [("c", VFloat64 (whole 1234))] [] world0
     = Panic wmf.interface_conversion.
Proof.
  split; [simpl; tauto|].
  apply (Queue_panics_on_numeric_lock_code config phone "l"%char "ock"
           [("c", VFloat64 (whole 1234))] [] (whole 1234) world0); reflexivity.
Defined.

Lemma forged_poll_bad_signature :
  forall r, In r (deviceInfo (db world0)) ->
            di_deviceId r = getDevFromUrl (URLPath forged_poll) ->
            bad_signature (di_hawkSecret r) forged_poll (Body forged_poll).
Proof.
  intros r [<-|[]] _.
  eapply signature_mismatch; reflexivity.
Defined.

Lemma Cmd_bad_signature_unauthorized_witness :
  exists resp w',
    wmf.Cmd config forged_poll world0 = Ok (resp, w')
    /\ status_of resp = 401
    /\ db w' = db world0.
Proof.
  destruct (Cmd_bad_signature_unauthorized config forged_poll world0 eq_refl
              forged_poll_bad_signature) as (_ & _ & Unauthorized).
  apply Unauthorized; [reflexivity|].
  split; [vm_compute; discriminate | discriminate].
Defined.

Lemma poll_good_signature (d : DB) :
  deviceInfo d = [phone_info] -> authenticated config poll d.
Proof.
  intros E. right. rewrite E. intros r [<-|[]] _.
  eexists _, _. repeat split; reflexivity.
Defined.

Lemma poll_is_bare : bare_poll poll.
Proof.
  repeat split; try discriminate; vm_compute; discriminate.
Defined.

Lemma Cmd_poll_delivers_once_witness :
  exists resp1 w1 resp2 w2,
    wmf.Cmd config poll world_pending = Ok (resp1, w1)
    /\ status_of resp1 = 200
    /\ written resp1 = pc_cmd pending_lock
    /\ pending_for (getDevFromUrl (URLPath poll)) (db w1) = []
    /\ wmf.Cmd config poll w1 = Ok (resp2, w2)
    /\ status_of resp2 = 200
    /\ written resp2 = "{}".
Proof.
  apply (Cmd_poll_delivers_once config poll poll world_pending pending_lock);
    try reflexivity.
  - vm_compute. discriminate.
  - split; vm_compute; discriminate.
  - exact poll_is_bare.
  - exact poll_is_bare.
  - now apply poll_good_signature.
  - now apply poll_good_signature.
  - vm_compute. discriminate.
Defined.

Lemma Register_accepts_contain_heartbeat_witness :
  wmf.Register config registration world0 = Ok (answer_registered, world_registered)
  /\ map di_accepts (deviceInfo (db world_registered)) = ["elrth"; "lrh"]
  /\ List.Forall (fun r => In r (deviceInfo (db world0)) \/ accepts_heartbeat r)
       (deviceInfo (db world_registered)).
Proof.
  split; [vm_compute; reflexivity|]. split; [reflexivity|].
  apply List.Forall_forall.
  apply (Register_accepts_contain_heartbeat config registration world0
           answer_registered world_registered).
  vm_compute. reflexivity.
Defined.

Lemma report_not_ok_writes_no_location_witness :
  (exists e,
      wmf.updatePage "phone" "t" [("ok", VBool false)] true world0
        = Ok (e, with_trace (trace world0 ++ [EvStorage "Open"]) world0)
      /\ (openFails (faults world0) = false -> e = None))
  /\ same_location_and_lock (db world0) (db world_reported).
Proof.
  destruct (report_not_ok_writes_no_location config) as [Page Poll].
  split.
  - apply Page. reflexivity.
  - apply (Poll report_not_ok track_failed world0 answer_reported world_reported).
    + reflexivity.
    + repeat constructor. eexists. split; reflexivity.
    + vm_compute. reflexivity.
Defined.

(** C7 as the specification states it fails: the report of a failed
    track command, handled by [Cmd], moves the time of the last
    exchange of the device from 0 to the time of the request. *)
Lemma report_not_ok_touches_last_exchange :
  reports_not_ok track_failed
  /\ wmf.Cmd config report_not_ok world0 = Ok (answer_reported, world_reported)
  /\ map di_lastExchange (deviceInfo (db world0)) = [0]
  /\ map di_lastExchange (deviceInfo (db world_reported)) = [100]
  /\ map di_lastExchange (deviceInfo (db world_reported))
     <> map di_lastExchange (deviceInfo (db world0)).
Proof.
  split; [repeat constructor; eexists; split; reflexivity|].
  split; [vm_compute; reflexivity|].
  split; [reflexivity|]. split; [reflexivity|].
  vm_compute. discriminate.
Qed.

Lemma superseded_connection_unregisters_its_successor_witness :
  Clients world_reconnected !! "phone" = Some 1%nat
  /\ Quit <$> socks world_reconnected !! 0%nat = Some true
  /\ 0%nat <> 1%nat
  /\ Quit <$> socks world_first_left !! 1%nat = Some false
  /\ Clients world_first_left !! "phone" = None.
Proof.
  apply (superseded_connection_unregisters_its_successor
           forged_handshake forged_handshake "phone" 0 1
           world0 world_connected world_reconnected world_first_left);
    vm_compute; reflexivity.
Defined.

Lemma WSSocketHandler_registers_bad_signature_witness :
  wmf.checkSig (wsRequest forged_handshake)
    (getDevFromUrl (URLPath (wsRequest forged_handshake))) = true
  /\ exists sock w',
       wmf.WSSocketHandler_enter forged_handshake world0
         = Ok (Some (getDevFromUrl "/ws/forged/phone", sock), w')
       /\ Clients w' !! getDevFromUrl "/ws/forged/phone" = Some sock.
Proof.
  apply (WSSocketHandler_registers_bad_signature forged_handshake "/ws/forged/phone" world0);
    try reflexivity.
  - split; vm_compute; discriminate.
  - vm_compute. discriminate.
Defined.

End OnTheExamples.

(** * Instances of the further properties on the examples *)

Section FurtherExamples.
Import Sample.
#[local] Existing Instance runtime.
#[local] Existing Instance externals.

Lemma world0_serial_ids : serial_ids (db world0).
Proof. split; [constructor | intros r []]. Defined.

Lemma phone_known (d : DB) :
  userToDeviceMap d = [phone_user] -> deviceInfo d = [phone_info] ->
  known_device "phone" d.
Proof. intros U I. split; rewrite ?U, ?I; vm_compute; discriminate. Defined.

Lemma tablet_unknown : ~ known_device "tablet" (db world0).
Proof. intros [U _]. apply U. reflexivity. Defined.

Lemma StoreCommand_leaves_the_others_witness :
  pending_of "phone" "l" (db world_stored) = pending_of "phone" "l" (db world_pending).
Proof.
  apply (StoreCommand_leaves_the_others "tablet" "ring" "r" "phone" "l"
           world_pending None world_stored).
  - vm_compute. reflexivity.
  - left. discriminate.
Defined.

Lemma StoreCommand_keeps_serial_ids_witness : serial_ids (db world_locked).
Proof.
  apply (StoreCommand_keeps_serial_ids "phone"
           (print (VMap [("l", VMap [("c", VString "1234")])])) "l"
           (with_trace [EvStorage "Open"] world0) None
           (with_trace [EvStorage "Open"; EvStorage "StoreCommand"] world_locked)).
  - vm_compute. reflexivity.
  - exact world0_serial_ids.
Defined.

Lemma GetPending_leaves_other_devices_witness :
  pending_for "tablet" (db world_fetched) = pending_for "tablet" (db world_stored).
Proof.
  apply (GetPending_leaves_other_devices "phone" "tablet" world_stored
           (pc_cmd pending_lock, None) world_fetched).
  - vm_compute. reflexivity.
  - vm_compute. constructor;
      [intros E; apply list_elem_of_singleton in E; discriminate E|].
    constructor; [apply not_elem_of_nil|]. constructor.
  - discriminate.
Defined.

Lemma StoreCommand_then_GetPending_witness :
  exists w1 w2 w3,
    storage.StoreCommand "phone" "ring" "r" world0 = Ok (None, w1)
    /\ storage.GetPending "phone" w1 = Ok (("ring", None), w2)
    /\ pending_for "phone" (db w2) = []
    /\ storage.GetPending "phone" w2 = Ok (("", None), w3).
Proof.
  apply (StoreCommand_then_GetPending "phone" "ring" "r" world0); reflexivity.
Defined.

Lemma pending_commands_first_in_first_out_witness :
  exists w1 w2 w3 w4,
    storage.StoreCommand "phone" "ring" "r" world0 = Ok (None, w1)
    /\ storage.StoreCommand "phone" "track" "t" (at_time 101 w1) = Ok (None, w2)
    /\ storage.GetPending "phone" w2 = Ok (("ring", None), w3)
    /\ storage.GetPending "phone" w3 = Ok (("track", None), w4)
    /\ pending_for "phone" (db w4) = [].
Proof.
  apply (pending_commands_first_in_first_out "phone" "ring" "r" "track" "t" 101 world0);
    try reflexivity.
  - exact world0_serial_ids.
  - discriminate.
Defined.

Lemma SetDeviceLocation_then_GetPositions_witness :
  exists w1 w2 row,
    storage.SetDeviceLocation "phone" somewhere world0 = Ok (None, w1)
    /\ positions_of "phone" (db w1) = [row]
    /\ lookups.GetPositions "phone" w1
       = Ok (([{| Latitude := whole 10; Longitude := whole 20; Altitude := whole 30;
                  Time := 100; PosCmd := [] |}], None), w2)
    /\ forall devId', devId' <> "phone" ->
         positions_of devId' (db w1) = positions_of devId' (db world0).
Proof.
  apply (SetDeviceLocation_then_GetPositions "phone" somewhere world0). reflexivity.
Defined.

Lemma RegisterDevice_then_GetDeviceInfo_witness :
  "tablet" = ID tablet /\ (None : error) = None /\
  exists d w'',
    storage.GetDeviceInfo (ID tablet) world_tablet = Ok ((Some d, None), w'')
    /\ ID d = ID tablet
    /\ Secret d = Secret tablet
    /\ Accepts d = Accepts tablet
    /\ PushUrl d = PushUrl tablet
    /\ HasPasscode d = HasPasscode tablet.
Proof.
  apply (RegisterDevice_then_GetDeviceInfo "bob" tablet world0 "tablet" None world_tablet).
  - discriminate.
  - intros u [<-|[]]. vm_compute. discriminate.
  - vm_compute. reflexivity.
Defined.

Lemma GetDevicesForUser_lists_the_users_devices_witness :
  exists devices w',
    lookups.GetDevicesForUser "alice" world0 = Ok ((devices, None), w')
    /\ db w' = db world0
    /\ forall id name,
         In {| lookups.dl_ID := id; lookups.dl_Name := name |} devices
         <-> exists u, In u (userToDeviceMap (db world0))
                       /\ ud_userId u = "alice" /\ ud_deviceId u = id /\ ud_name u = name.
Proof.
  apply (GetDevicesForUser_lists_the_users_devices "alice" world0). reflexivity.
Defined.

Lemma GcPosition_removes_stale_positions_of_every_device_witness :
  exists w',
    storage.GcPosition "phone" world0 = Ok (None, w')
    /\ storage.GcPosition "tablet" world0 = Ok (None, w')
    /\ forall r, In r (position (db w'))
                 <-> In r (position (db world0)) /\ now world0 - defExpry world0 <= po_time r.
Proof.
  apply (GcPosition_removes_stale_positions_of_every_device "phone" "tablet" world0).
  reflexivity.
Defined.

Lemma SetDeviceLock_then_GetDeviceInfo_witness :
  exists w1 d w2,
    storage.SetDeviceLock "phone" false world0 = Ok (None, w1)
    /\ storage.GetDeviceInfo "phone" w1 = Ok ((Some d, None), w2)
    /\ HasPasscode d = false
    /\ Secret d = di_hawkSecret phone_info
    /\ Accepts d = di_accepts phone_info
    /\ PushUrl d = di_pushUrl phone_info
    /\ forall x, In x (deviceInfo (db world0)) -> di_deviceId x <> "phone" ->
                 In x (deviceInfo (db w1)).
Proof.
  apply (SetDeviceLock_then_GetDeviceInfo "phone" false world0 phone_user phone_info);
    reflexivity.
Defined.

Lemma StoreCommand_keeps_unique_witness :
  (List.length (pending_of "phone" "l" (db world_restored)) <= 1)%nat.
Proof.
  apply (StoreCommand_keeps_unique "phone" "lock again" "l" world_pending None world_restored).
  - vm_compute. reflexivity.
  - intros devId cType. unfold pending_of. simpl.
    destruct (storage.pending_hit devId cType pending_lock); simpl; lia.
Defined.

Lemma GetPending_keeps_unique_witness :
  (List.length (pending_of "phone" "l" (db world_handed)) <= 1)%nat.
Proof.
  apply (GetPending_keeps_unique "phone" world_pending (pc_cmd pending_lock, None)
           world_handed).
  - vm_compute. reflexivity.
  - intros devId cType. unfold pending_of. simpl.
    destruct (storage.pending_hit devId cType pending_lock); simpl; lia.
Defined.

Lemma nonce_is_good_once_witness :
  exists nonce table0 table1 table2,
    nonces.GetNonce md5hex false "k1" "v1" 0 [] = (nonce, None, table0)
    /\ nonces.CheckNonce md5hex false nonce 100 table0 = Ok (true, None, table1)
    /\ nonces.CheckNonce md5hex false nonce 200 table1 = Ok (false, None, table2).
Proof.
  apply (nonce_is_good_once md5hex "k1" "v1" 0 100 200 []).
  - reflexivity.
  - intros r [].
  - vm_compute. discriminate.
Defined.

Lemma nonce_expires_witness :
  exists nonce table0,
    nonces.GetNonce md5hex false "k1" "v1" 0 [] = (nonce, None, table0)
    /\ nonces.CheckNonce md5hex false nonce 301 table0 = Ok (false, None, nonces.gc 301 []).
Proof.
  apply (nonce_expires md5hex "k1" "v1" 0 301 []).
  - reflexivity.
  - intros r [].
  - reflexivity.
Defined.

Lemma CheckNonce_uses_the_key_up_witness :
  key_unused "k1" []
  /\ exists table'',
       nonces.CheckNonce md5hex false ("k1" +:+ "." +:+ md5hex "k1.v1") 20 []
       = Ok (false, None, table'').
Proof.
  apply (CheckNonce_uses_the_key_up md5hex "k1" "guess" (md5hex "k1.v1") 10 20
           [{| nonces.no_key := "k1"; nonces.no_val := "v1"; nonces.no_time := 0 |}]
           [] false None).
  - reflexivity.
  - vm_compute. reflexivity.
Defined.

Lemma Queue_unknown_code_is_bad_request_witness :
  wmf.Queue config phone "hello" [] [] world0
  = Ok ((400, Some (GoString.quoted "Invalid Command"), [], []), world0).
Proof.
  apply (Queue_unknown_code_is_bad_request config phone "h"%char "ello" [] [] world0).
  - reflexivity.
  - intros [E|[E|[E|[E|[]]]]]; discriminate E.
Defined.

Lemma Queue_ring_track_distance_witness :
  exists st e args' w',
    wmf.Queue config phone "ring" [("d", VString "99999")] [] world0
    = Ok ((st, e, args', []), w')
    /\ (mget "d" [("d", VString "99999")] = None -> args' = [("d", VString "99999")])
    /\ (forall v, mget "d" [("d", VString "99999")] = Some v ->
          exists n, mget "d" args' = Some (VInt64 n)
                    /\ 0 <= n <= wmf.config_max config
                                   ("cmd." +:+ code_of "r"%char +:+ ".max") "10500" 10500)
    /\ (forall k, k <> "d" -> mget k args' = mget k [("d", VString "99999")]).
Proof.
  apply (Queue_ring_track_distance config phone "r"%char "ing"
           [("d", VString "99999")] [] world0).
  - reflexivity.
  - left. reflexivity.
  - vm_compute. discriminate.
Defined.

Lemma Queue_erase_sends_no_arguments_witness :
  exists st e w',
    wmf.Queue config phone "erase" [("x", VString "y")] [] world0
    = Ok ((st, e, [("x", VString "y")], []), w')
    /\ pending_of (ID phone) "e" (db w') <> []
    /\ forall row, In row (pending_of (ID phone) "e" (db w')) ->
                   pc_cmd row = print (VMap [("e", VMap [])]).
Proof.
  apply (Queue_erase_sends_no_arguments config phone "e"%char "rase"
           [("x", VString "y")] [] world0 (print (VMap [("e", VMap [])])));
    reflexivity.
Defined.

Lemma Queue_stores_before_it_pushes_witness :
  (503, Some (GoString.quoted "Server Error"))
  = (if pushFails (faults world_push_down)
     then (503, Some (GoString.quoted "Server Error"))
     else (200, None))
  /\ pending_of (ID phone) (code_of "r"%char) (db world_unpushed) <> []
  /\ forall row, In row (pending_of (ID phone) (code_of "r"%char) (db world_unpushed)) ->
                 pc_cmd row = print (VMap [("r", VMap [])]).
Proof.
  apply (Queue_stores_before_it_pushes config phone "r"%char "ing" [] [] world_push_down
           503 (Some (GoString.quoted "Server Error")) [] [] world_unpushed
           (print (VMap [("r", VMap [])])));
    try reflexivity.
  discriminate.
Defined.

Lemma Queue_lock_code_is_four_digits_witness :
  exists code n,
    wmf.Queue_lock_code config [("c", VString "12a45")]
    = Ok (mset "c" (VString code) [("c", VString "12a45")])
    /\ String.length code = 4%nat
    /\ digitsOnly code = code
    /\ GoString.ParseInt code = Some n
    /\ 0 <= n <= wmf.config_max config "cmd.c.max" "9999" 9999.
Proof.
  apply (Queue_lock_code_is_four_digits config [("c", VString "12a45")] "12a45").
  - reflexivity.
  - vm_compute. split; discriminate.
Defined.

Lemma Cmd_unknown_device_unauthorized_witness :
  exists resp w',
    wmf.Cmd config stranger_poll world0 = Ok (resp, w')
    /\ status_of resp = 401
    /\ db w' = db world0.
Proof.
  apply (Cmd_unknown_device_unauthorized config stranger_poll world0).
  - reflexivity.
  - right. exact tablet_unknown.
Defined.

Lemma Queue_then_Cmd_delivers_witness :
  exists resp w2,
    wmf.Cmd config poll (at_time 150 world_rung) = Ok (resp, w2)
    /\ status_of resp = 200
    /\ written resp = print (VMap [("r", VMap [])])
    /\ pending_for (ID phone) (db w2) = [].
Proof.
  apply (Queue_then_Cmd_delivers config phone "r"%char "ing" [] [] world0
           200 [] [] world_rung (print (VMap [("r", VMap [])])) poll 150);
    try reflexivity.
  - discriminate.
  - now apply phone_known.
  - now apply poll_good_signature.
  - exact poll_is_bare.
  - vm_compute. discriminate.
Defined.

Lemma WSSocketHandler_unknown_device_not_registered_witness :
  exists w',
    wmf.WSSocketHandler idle stranger_handshake world0 = Ok (tt, w')
    /\ Clients w' = Clients world0
    /\ socks w' = socks world0
    /\ db w' = db world0.
Proof.
  apply (WSSocketHandler_unknown_device_not_registered idle stranger_handshake world0).
  right. exact tablet_unknown.
Defined.

Lemma Register_without_credentials_unauthorized_witness :
  exists resp w',
    wmf.Register config bare_registration world0 = Ok (resp, w')
    /\ status_of resp = 401
    /\ db w' = db world0.
Proof.
  apply (Register_without_credentials_unauthorized config bare_registration
           [("pushurl", VString "http://push/3"); ("deviceid", VString "phone")] world0);
    try reflexivity.
  - intros v E. vm_compute in E. inversion E. eexists. reflexivity.
  - intros secret. apply malformed_header. reflexivity.
Defined.

Lemma clearSession_then_no_user_witness :
  web.getUser config signed_out = ("", "", None)
  /\ web.getSessionInfo config signed_out = Ok (None, Some web.ErrNoUser).
Proof.
  apply (clearSession_then_no_user config signed_out session_alice); reflexivity.
Defined.

Lemma State_panics_without_a_user_witness :
  web.State config marshal_device anonymous world0 = Panic storage.nil_deref.
Proof.
  apply (State_panics_without_a_user config marshal_device anonymous world0);
    reflexivity.
Defined.

Lemma State_answers_for_any_user_witness :
  ud_userId phone_user <> "mallory"
  /\ exists resp values w',
       web.State config marshal_device mallory_state world0
       = Ok ((resp, web.Saved values), w')
       /\ status_of resp = 200
       /\ written resp = "phone:alice:s3cret"
       /\ mget web.SESSION_USERID values = Some (VString "mallory")
       /\ db w' = db world0.
Proof.
  split; [discriminate|].
  apply (State_answers_for_any_user config marshal_device mallory_state world0 "mallory"
           phone_user phone_info "phone:alice:s3cret");
    try reflexivity.
  - discriminate.
  - intros v E. discriminate E.
Defined.

Lemma RestQueue_foreign_device_unauthorized_witness :
  exists resp w',
    web.RestQueue config mallory_queue world0
    = Ok ((resp, web.Expired
                   (web.clearSession (SessionValues (web.httpRequest mallory_queue)))), w')
    /\ status_of resp = 401
    /\ db w' = db world0
    /\ trace w' = (trace world0 ++ [EvStorage "Open"; EvStorage "GetDeviceInfo"])%list.
Proof.
  apply (RestQueue_foreign_device_unauthorized config mallory_queue world0 "mallory"
           phone_user phone_info);
    try reflexivity; discriminate.
Defined.

Lemma RestQueue_queues_for_the_owner_witness :
  exists resp w',
    web.RestQueue config alice_erase world0 = Ok ((resp, web.NotSaved), w')
    /\ status_of resp = 200
    /\ written resp = "{}"
    /\ pending_of (di_deviceId phone_info) "e" (db w') <> []
    /\ forall row, In row (pending_of (di_deviceId phone_info) "e" (db w')) ->
                   pc_cmd row = print (VMap [("e", VMap [])]).
Proof.
  apply (RestQueue_queues_for_the_owner config alice_erase world0 "alice"
           phone_user phone_info "e"%char "rase" [("x", VString "y")]
           (print (VMap [("e", VMap [])])) "{}");
    try reflexivity; discriminate.
Defined.

Lemma logReply_loses_the_error_of_Touch_witness :
  exists e w1 w',
    storage.Touch "phone" w1 = Ok (Some e, w')
    /\ web.logReply "phone" "t" [("ok", VBool true)] world_exec_down = Ok (None, w')
    /\ db w' = db world_exec_down.
Proof.
  apply (logReply_loses_the_error_of_Touch "phone" "t" [("ok", VBool true)] (VBool true)
           world_exec_down);
    reflexivity.
Defined.

End FurtherExamples.
